(** * whatsapp-reminder: the reminder lifecycle engine

    A shallow embedding of the patient model
    ([Patient.model.ts]: [needsReminder], [canReceiveOffers]), of the
    messaging gateway ([WhatsAppClient.ts]) and of the patient routes
    ([patient.routes.ts]), with the properties of the specification
    stated and proved over them; then the start-up checks of the entry
    point ([index.ts]) and the template creation script
    ([create-templates.ts]), with further properties of the code.

    Conventions.
    - Instants are [Z] milliseconds since the epoch (what [getTime()]
      returns); a [Date] object that may be invalid is a [JsDate].
    - Strings are byte strings ([string]) holding the UTF-8 form of the
      JavaScript string; the digits and the ['+'] the source inspects
      are single bytes, the blanks [trim] removes are one to three.
    - An identifier in a path is the text of an ObjectId or it is not
      ([IdParam]); which strings are, is mongoose's matter.
    - Request bodies carry what the schema declares: a field is absent
      ([None]) or a string, a flag is absent or a boolean.
    - A handler is a computation in the monad [M]: it threads the [World]
      (database, clock, lazily built gateway client, requests posted to
      the provider, console) and either returns or throws.  A handler
      runs from request to reply without another one in between.
    - The database is a finite map from identifiers to documents with a
      unique index on [phone]; what else the persistence layer may
      refuse on a save is the parameter [save_rejects].  A record read
      back gets the schema defaults it lacks ([hydrate]). *)

From Stdlib Require Import ZArith String Ascii List Bool Lia.
From stdpp Require Import base option gmap strings sorting pretty.

Local Open Scope string_scope.
Local Open Scope Z_scope.

(** ** JavaScript values used by the sources *)

Inductive JsDate :=
| ValidDate (ms : Z)
| InvalidDate.

(** What a [throw] carries; [response] of an [AxiosError] is the
    provider's structured error body, when the provider answered. *)
Record WhatsAppError := {
  we_message : string;
  we_type : string;
  we_code : Z;
  we_details : option string;
  we_fbtrace_id : string
}.

Record WhatsAppErrorResponse := { error_of : WhatsAppError }.

Inductive Thrown :=
| TypeError (message : string)
| Error (message : string)
| MongoServerError (code : Z) (message : string)
| MongooseError (message : string)
| CastError (message : string)
| AxiosError (message : string) (response : option WhatsAppErrorResponse).

(** [(error as Error).message] *)
Definition message_of (e : Thrown) : string :=
  match e with
  | TypeError m | Error m | MongoServerError _ m | MongooseError m
  | CastError m | AxiosError m _ => m
  end.

(** [error.code], where it is a number *)
Definition code_of (e : Thrown) : option Z :=
  match e with
  | MongoServerError c _ => Some c
  | _ => None
  end.

(** [axiosError.response?.data?.error?.message] *)
Definition response_error_message (e : Thrown) : option string :=
  match e with
  | AxiosError _ (Some r) => Some (we_message (error_of r))
  | _ => None
  end.

(** [a || b] on an optional string: [undefined] and [''] are falsy. *)
Definition or_else (a : option string) (b : string) : string :=
  match a with
  | Some (String c r) => String c r
  | _ => b
  end.

(** [!!x] for an optional string. *)
Definition truthy (x : option string) : bool :=
  match x with
  | Some (String _ _) => true
  | _ => false
  end.

Inductive Completion (A : Type) :=
| Return (a : A)
| Throw (e : Thrown).
Arguments Return {A} a.
Arguments Throw {A} e.

(** ** Patient.model.ts *)

Record IVaccine := {
  v_name : string;
  v_date : JsDate;
  v_time : string;
  v_location : string;
  v_notes : option string;
  v_lotNumber : option string;
  v_nextDoseDate : option JsDate;
  v_administered : bool
}.

Inductive InteractionType :=
| REMINDER_SENT | CONFIRMATION | RESCHEDULE | INQUIRY | OFFER.

Inductive InteractionStatus := SENT | DELIVERED | READ | FAILED.

Record IInteraction := {
  i_type : InteractionType;
  i_timestamp : option Z;
  i_message : option string;
  i_response : option string;
  i_messageId : option string;
  i_status : option InteractionStatus
}.

Record IConsent := {
  marketing : bool;
  reminders : bool;
  privacy : bool;
  givenAt : Z;
  updatedAt : Z
}.

Record IPreferences := {
  language : string;
  contactTime : string
}.

(** [consent] is declared mandatory but the routes guard against records
    that lack it ([patient.consent || ...]), so it is optional here: a
    stored record may be without it; a document loaded from the store
    never is ([hydrate]). *)
Record IPatient := {
  fullName : string;
  phone : string;
  email : option string;
  petName : string;
  petType : string;
  petBreed : option string;
  petAge : option Z;
  petWeight : option Z;
  nextVaccine : option IVaccine;
  vaccineHistory : list IVaccine;
  consent : option IConsent;
  lastInteraction : option Z;
  interactions : list IInteraction;
  preferences : IPreferences;
  createdAt : option Z;          (* set by the first save *)
  p_updatedAt : option Z
}.

Definition MS_PER_DAY : Z := 1000 * 60 * 60 * 24.

(** [Math.ceil(a / b)] for integers [a] and [b > 0].  The source divides
    in double precision; for instants less than [2^26] days apart the
    rounded quotient has the same ceiling as the exact one. *)
Definition Math_ceil_div (a b : Z) : Z := - ((- a) / b).

(** [vaccineDate.getTime() - today.getTime()] in days, rounded up; [None]
    is NaN (an invalid vaccine date). *)
Definition diffDays (today : Z) (vaccineDate : JsDate) : option Z :=
  match vaccineDate with
  | ValidDate t => Some (Math_ceil_div (t - today) MS_PER_DAY)
  | InvalidDate => None
  end.

(** [patientSchema.methods.needsReminder]; [today] is the reading of
    [new Date()], [daysBefore] is [None] when the argument is omitted. *)
Definition needsReminder (today : Z) (this : IPatient) (daysBefore : option Z)
  : Completion bool :=
  let daysBefore := default 3 daysBefore in
  match nextVaccine this with
  | None => Return false
  | Some nv =>
      match consent this with
      | None => Throw (TypeError "Cannot read properties of undefined (reading 'reminders')")
      | Some c =>
          if negb (reminders c) then Return false
          else
            match diffDays today (v_date nv) with
            | Some d => Return ((d <=? daysBefore) && (d >=? 0))
            | None => Return false
            end
      end
  end.

(** [patientSchema.methods.canReceiveOffers]; [now] is [Date.now()]. *)
Definition canReceiveOffers (now : Z) (this : IPatient) : Completion bool :=
  match consent this with
  | None => Throw (TypeError "Cannot read properties of undefined (reading 'marketing')")
  | Some c =>
      if negb (marketing c) then Return false
      else
        match lastInteraction this with
        | None => Return false
        | Some li =>
            let twentyFourHoursAgo := now - 24 * 60 * 60 * 1000 in
            Return (li >=? twentyFourHoursAgo)
        end
  end.

(** ** WhatsAppClient.ts: phone numbers *)

Definition is_digit (c : ascii) : bool :=
  let n := nat_of_ascii c in (48 <=? n)%nat && (n <=? 57)%nat.

(** [phone.replace(/\D/g, '')] *)
Fixpoint replace_non_digits (phone : string) : string :=
  match phone with
  | EmptyString => EmptyString
  | String c rest =>
      if is_digit c then String c (replace_non_digits rest)
      else replace_non_digits rest
  end.

(** [phone.startsWith('+')] *)
Definition startsWith_plus (phone : string) : bool :=
  match phone with
  | String "+" _ => true
  | _ => false
  end.

(** [phone.substring(1)] *)
Definition substring_1 (phone : string) : string :=
  match phone with
  | EmptyString => EmptyString
  | String _ rest => rest
  end.

Definition formatPhoneNumber (phone : string) : string :=
  let cleanPhone := replace_non_digits phone in
  if (String.length cleanPhone =? 10)%nat then "52" ++ cleanPhone
  else if startsWith_plus phone then substring_1 phone
  else cleanPhone.

(** ** WhatsAppClient.ts: what is posted to the provider and what returns *)

Record Component := {
  c_type : string;
  c_parameters : list string      (* each sent as [{type: 'text', text}] *)
}.

Record Template := {
  t_name : string;
  t_language_code : string;
  t_components : option (list Component)
}.

Inductive MessageContent :=
| TextMessage (body : string) (preview_url : bool)
| TemplateMessage (template : Template).

Record Payload := {
  messaging_product : string;
  recipient_type : string;
  to : string;
  content : MessageContent
}.

Record Message := { msg_id : string }.

Record WhatsAppResponse := {
  r_messaging_product : string;
  r_contacts : list (string * string);
  r_messages : list Message
}.

Record WhatsAppClient := {
  phoneNumberId : string;
  accessToken : string;
  apiVersion : string
}.

(** ** The collaborators

    [Env] gathers what the process does not own: its environment
    variables, the runtime's date parser, es-MX formatter and
    [String.prototype.toLowerCase], the provider (which answers a request
    knowing the requests posted so far), the persistence layer's verdict
    on a document ([Some msg] when casting or validation refuses it) and
    the message of the error it throws for an identifier it cannot cast
    to an ObjectId. *)
Record Env := {
  CLINIC_NAME : option string;
  WHATSAPP_ACCESS_TOKEN : option string;
  WHATSAPP_PHONE_NUMBER_ID : option string;
  WHATSAPP_BUSINESS_ACCOUNT_ID : option string;
  WHATSAPP_API_VERSION : option string;
  Date_parse : string -> JsDate;
  toLocaleDateString : JsDate -> string;
  toLowerCase : string -> string;
  provider : list Payload -> Payload -> Completion WhatsAppResponse;
  save_rejects : IPatient -> option string;
  CastError_message : string -> string
}.

Inductive Level := LOG | WARN | ERROR.

Record World := {
  db : gmap N IPatient;
  clock_now : Z;
  clock_ticks : list N;
  whatsappClient : option WhatsAppClient;
  outbox : list Payload;
  console : list (Level * string)
}.

(** ** Computations that read and write the world and may throw *)

Definition M (A : Type) : Type := World -> Completion A * World.

Definition ret {A} (a : A) : M A := fun w => (Return a, w).

Definition throw {A} (e : Thrown) : M A := fun w => (Throw e, w).

Definition bind {A B} (m : M A) (k : A -> M B) : M B := fun w =>
  match m w with
  | (Return a, w') => k a w'
  | (Throw e, w') => (Throw e, w')
  end.

(** [try { m } catch (e) { h e }] *)
Definition try_catch {A} (m : M A) (h : Thrown -> M A) : M A := fun w =>
  match m w with
  | (Return a, w') => (Return a, w')
  | (Throw e, w') => h e w'
  end.

Notation "x <- m ;; k" := (bind m (fun x => k))
  (at level 100, m at next level, right associativity).
Notation "m ;;; k" := (bind m (fun _ => k))
  (at level 100, right associativity).

(** The elementary changes of the world. *)
Definition ticked (w : World) : World :=
  {| db := db w;
     clock_now := clock_now w + Z.of_N (hd 0%N (clock_ticks w));
     clock_ticks := tl (clock_ticks w);
     whatsappClient := whatsappClient w;
     outbox := outbox w;
     console := console w |}.

Definition logged (l : Level) (text : string) (w : World) : World :=
  {| db := db w; clock_now := clock_now w; clock_ticks := clock_ticks w;
     whatsappClient := whatsappClient w; outbox := outbox w;
     console := (console w ++ [(l, text)])%list |}.

Definition with_client (c : WhatsAppClient) (w : World) : World :=
  {| db := db w; clock_now := clock_now w; clock_ticks := clock_ticks w;
     whatsappClient := Some c; outbox := outbox w; console := console w |}.

Definition stored (id : N) (doc : IPatient) (w : World) : World :=
  {| db := <[id := doc]> (db w); clock_now := clock_now w;
     clock_ticks := clock_ticks w; whatsappClient := whatsappClient w;
     outbox := outbox w; console := console w |}.

Definition posted (data : Payload) (w : World) : World :=
  {| db := db w; clock_now := clock_now w; clock_ticks := clock_ticks w;
     whatsappClient := whatsappClient w;
     outbox := (outbox w ++ [data])%list;
     console := console w |}.

(** [new Date()] / [Date.now()]: the clock never runs backwards; between
    two readings it advances by the next tick, if any. *)
Definition newDate : M Z := fun w => (Return (clock_now w), ticked w).

(** [console.log], [console.warn], [console.error] *)
Definition console_write (l : Level) (text : string) : M unit := fun w =>
  (Return tt, logged l text w).

Definition set_whatsappClient (c : WhatsAppClient) : M unit := fun w =>
  (Return tt, with_client c w).

Definition put_document (id : N) (doc : IPatient) : M unit := fun w =>
  (Return tt, stored id doc w).

(** [this.client.post('/messages', data)] *)
Definition post (env : Env) (data : Payload) : M WhatsAppResponse := fun w =>
  (provider env (outbox w) data, posted data w).

(** ** WhatsAppClient.ts: the client *)

Definition is_empty (s : string) : bool :=
  match s with
  | EmptyString => true
  | String _ _ => false
  end.

(** [constructor()] *)
Definition new_WhatsAppClient (env : Env) : M WhatsAppClient :=
  let phoneNumberId := or_else (WHATSAPP_PHONE_NUMBER_ID env) "" in
  let accessToken := or_else (WHATSAPP_ACCESS_TOKEN env) "" in
  let apiVersion := or_else (WHATSAPP_API_VERSION env) "v18.0" in
  if is_empty phoneNumberId || is_empty accessToken then
    throw (Error "WhatsApp credentials not configured. Run: npm run setup")
  else
    console_write LOG "✅ WhatsApp Client inicializado" ;;;
    ret {| phoneNumberId := phoneNumberId;
           accessToken := accessToken;
           apiVersion := apiVersion |}.

(** The text both [catch] blocks of the client print and the reminder
    route reports: the provider's message if there is one, else the
    error's own. *)
Definition reported_message (error : Thrown) : string :=
  or_else (response_error_message error) (message_of error).

Definition dquote : string := String (ascii_of_nat 34) EmptyString.

(** The request body [sendText] posts. *)
Definition text_payload (to message : string) : Payload :=
  {| messaging_product := "whatsapp";
     recipient_type := "individual";
     to := formatPhoneNumber to;
     content := TextMessage message false |}.

Definition sendText (env : Env) (to message : string) : M WhatsAppResponse :=
  try_catch
    (response <- post env (text_payload to message) ;;
     console_write LOG ("✅ Mensaje enviado a " ++ to) ;;;
     ret response)
    (fun error =>
       console_write ERROR ("❌ Error enviando mensaje: " ++ reported_message error) ;;;
       throw error).

(** The request body [sendTemplate] posts: [components] only when there
    are parameters. *)
Definition template_payload (to templateName : string)
    (parameters : list string) : Payload :=
  let template :=
    {| t_name := templateName;
       t_language_code := "es";
       t_components :=
         if (0 <? length parameters)%nat
         then Some [ {| c_type := "body"; c_parameters := parameters |} ]
         else None |} in
  {| messaging_product := "whatsapp";
     recipient_type := "individual";
     to := formatPhoneNumber to;
     content := TemplateMessage template |}.

Definition sendTemplate (env : Env) (to templateName : string)
    (parameters : list string) : M WhatsAppResponse :=
  try_catch
    (response <- post env (template_payload to templateName parameters) ;;
     console_write LOG
       ("✅ Plantilla " ++ dquote ++ templateName ++ dquote ++ " enviada a " ++ to) ;;;
     ret response)
    (fun error =>
       console_write ERROR ("❌ Error enviando plantilla: " ++ reported_message error) ;;;
       throw error).

(** ** Patient.model.ts: schema setters, defaults and persistence *)

(** The characters [String.prototype.trim] strips are the WhiteSpace and
    LineTerminator code points of ECMAScript.  Six of them are ASCII
    (U+0009 to U+000D and U+0020); the others take two or three bytes in
    UTF-8: U+00A0 (C2 A0), U+1680 (E1 9A 80), U+2000 to U+200A
    (E2 80 80 to E2 80 8A), U+2028 and U+2029 (E2 80 A8, E2 80 A9),
    U+202F (E2 80 AF), U+205F (E2 81 9F), U+3000 (E3 80 80) and U+FEFF
    (EF BB BF). *)
Definition is_blank (c : ascii) : bool :=
  let n := nat_of_ascii c in
  ((9 <=? n)%nat && (n <=? 13)%nat) || (n =? 32)%nat.

Definition is_blank2 (a b : ascii) : bool :=
  (nat_of_ascii a =? 194)%nat && (nat_of_ascii b =? 160)%nat.

Definition is_blank3 (a b c : ascii) : bool :=
  let x := nat_of_ascii a in
  let y := nat_of_ascii b in
  let z := nat_of_ascii c in
  ((x =? 225) && (y =? 154) && (z =? 128))%nat
  || ((x =? 226) && (y =? 128)
      && (((128 <=? z) && (z <=? 138)) || (z =? 168) || (z =? 169) || (z =? 175)))%nat
  || ((x =? 226) && (y =? 129) && (z =? 159))%nat
  || ((x =? 227) && (y =? 128) && (z =? 128))%nat
  || ((x =? 239) && (y =? 187) && (z =? 191))%nat.

Fixpoint trimStart (s : string) : string :=
  match s with
  | EmptyString => EmptyString
  | String a s1 =>
      if is_blank a then trimStart s1
      else
        match s1 with
        | EmptyString => s
        | String b s2 =>
            if is_blank2 a b then trimStart s2
            else
              match s2 with
              | EmptyString => s
              | String c s3 => if is_blank3 a b c then trimStart s3 else s
              end
        end
  end.

(** The string consists of blanks only. *)
Fixpoint all_blank (s : string) : bool :=
  match s with
  | EmptyString => true
  | String a s1 =>
      (is_blank a && all_blank s1)
      || match s1 with
         | EmptyString => false
         | String b s2 =>
             (is_blank2 a b && all_blank s2)
             || match s2 with
                | EmptyString => false
                | String c s3 => is_blank3 a b c && all_blank s3
                end
         end
  end.

Fixpoint trimEnd (s : string) : string :=
  match s with
  | EmptyString => EmptyString
  | String a s1 => if all_blank s then EmptyString else String a (trimEnd s1)
  end.

(** [trim: true], that is [String.prototype.trim] *)
Definition trim (s : string) : string := trimEnd (trimStart s).

Definition lower (c : ascii) : ascii :=
  let n := nat_of_ascii c in
  if (65 <=? n)%nat && (n <=? 90)%nat then ascii_of_nat (n + 32) else c.

(** What [toLowerCase] does to a string of ASCII characters (the runtime's
    function, which also maps the other letters of Unicode, is a
    collaborator: [toLowerCase] of [Env]). *)
Fixpoint toLowerCase_ascii (s : string) : string :=
  match s with
  | EmptyString => EmptyString
  | String c rest => String (lower c) (toLowerCase_ascii rest)
  end.

Definition set_nextVaccine (p : IPatient) (nv : option IVaccine) : IPatient :=
  {| fullName := fullName p; phone := phone p; email := email p;
     petName := petName p; petType := petType p; petBreed := petBreed p;
     petAge := petAge p; petWeight := petWeight p;
     nextVaccine := nv;
     vaccineHistory := vaccineHistory p; consent := consent p;
     lastInteraction := lastInteraction p; interactions := interactions p;
     preferences := preferences p; createdAt := createdAt p;
     p_updatedAt := p_updatedAt p |}.

Definition set_consent (p : IPatient) (c : IConsent) : IPatient :=
  {| fullName := fullName p; phone := phone p; email := email p;
     petName := petName p; petType := petType p; petBreed := petBreed p;
     petAge := petAge p; petWeight := petWeight p;
     nextVaccine := nextVaccine p; vaccineHistory := vaccineHistory p;
     consent := Some c;
     lastInteraction := lastInteraction p; interactions := interactions p;
     preferences := preferences p; createdAt := createdAt p;
     p_updatedAt := p_updatedAt p |}.

Definition set_interactions (p : IPatient) (l : list IInteraction) : IPatient :=
  {| fullName := fullName p; phone := phone p; email := email p;
     petName := petName p; petType := petType p; petBreed := petBreed p;
     petAge := petAge p; petWeight := petWeight p;
     nextVaccine := nextVaccine p; vaccineHistory := vaccineHistory p;
     consent := consent p; lastInteraction := lastInteraction p;
     interactions := l;
     preferences := preferences p; createdAt := createdAt p;
     p_updatedAt := p_updatedAt p |}.

Definition set_lastInteraction (p : IPatient) (t : Z) : IPatient :=
  {| fullName := fullName p; phone := phone p; email := email p;
     petName := petName p; petType := petType p; petBreed := petBreed p;
     petAge := petAge p; petWeight := petWeight p;
     nextVaccine := nextVaccine p; vaccineHistory := vaccineHistory p;
     consent := consent p;
     lastInteraction := Some t;
     interactions := interactions p;
     preferences := preferences p; createdAt := createdAt p;
     p_updatedAt := p_updatedAt p |}.

(** [timestamps: true]: what a save stamps on the document. *)
Definition stamp (created : option Z) (updated : Z) (p : IPatient) : IPatient :=
  {| fullName := fullName p; phone := phone p; email := email p;
     petName := petName p; petType := petType p; petBreed := petBreed p;
     petAge := petAge p; petWeight := petWeight p;
     nextVaccine := nextVaccine p; vaccineHistory := vaccineHistory p;
     consent := consent p; lastInteraction := lastInteraction p;
     interactions := interactions p; preferences := preferences p;
     createdAt := created;
     p_updatedAt := Some updated |}.

(** The schema's default consent: [marketing] off, [reminders] and
    [privacy] on, both dates read from the clock. *)
Definition default_consent : M IConsent :=
  g <- newDate ;;
  u <- newDate ;;
  ret {| marketing := false; reminders := true; privacy := true;
         givenAt := g; updatedAt := u |}.

(** [new Patient({...})]: setters applied, schema defaults filled in. *)
Definition new_Patient (env : Env) (fullName phone : string)
    (email : option string) (petName petType : string)
    (petBreed : option string) (petAge petWeight : option Z) : M IPatient :=
  c <- default_consent ;;
  ret {| fullName := trim fullName;
         phone := trim phone;
         email := option_map (fun e => toLowerCase env (trim e)) email;
         petName := trim petName;
         petType := petType;
         petBreed := petBreed;
         petAge := petAge;
         petWeight := petWeight;
         nextVaccine := None;
         vaccineHistory := [];
         consent := Some c;
         lastInteraction := None;
         interactions := [];
         preferences := {| language := "es"; contactTime := "ANY" |};
         createdAt := None;
         p_updatedAt := None |}.

(** [req.params.id]: the text of an ObjectId, which names the document
    [n], or any other string. *)
Inductive IdParam :=
| ObjectId (n : N)
| Malformed (raw : string).

(** The cast of the identifier in a query: a string that is not the text
    of an ObjectId makes the query throw. *)
Definition castObjectId (env : Env) (id : IdParam) : M N :=
  match id with
  | ObjectId n => ret n
  | Malformed raw => throw (CastError (CastError_message env raw))
  end.

Definition findOne (_id : N) : M (option IPatient) := fun w =>
  (Return (db w !! _id), w).

(** The document built from a stored record: the schema defaults are
    filled in where the record has nothing.  Of the fields of [IPatient]
    only [consent] can be missing; its default is built then, which
    reads the clock twice.  A default filled in is part of the document
    and is written with the next save. *)
Definition hydrate (doc : IPatient) : M IPatient :=
  match consent doc with
  | Some _ => ret doc
  | None => c <- default_consent ;; ret (set_consent doc c)
  end.

(** [Patient.findById(id)]: the document, with its [_id]. *)
Definition findById (env : Env) (id : IdParam) : M (option (N * IPatient)) :=
  _id <- castObjectId env id ;;
  found <- findOne _id ;;
  match found with
  | None => ret None
  | Some doc => patient <- hydrate doc ;; ret (Some (_id, patient))
  end.

(** The unique index on [phone]: some stored patient has this number. *)
Definition phone_indexed (ph : string) (m : gmap N IPatient) : Prop :=
  map_Exists (fun _ p => phone p = ph) m.

Definition E11000 : Thrown :=
  MongoServerError 11000 "E11000 duplicate key error".

(** Insertion under the unique index; the new document gets an
    identifier no stored one has. *)
Definition insertOne (doc : IPatient) : M N := fun w =>
  if decide (phone_indexed (phone doc) (db w)) then (Throw E11000, w)
  else
    let id := fresh (dom (db w)) in
    (Return id, stored id doc w).

(** [patient.save()] on a new document *)
Definition save_new (env : Env) (doc : IPatient) : M N :=
  match save_rejects env doc with
  | Some msg => throw (MongooseError msg)
  | None =>
      now <- newDate ;;
      insertOne (stamp (Some now) now doc)
  end.

(** [patient.save()] on a document loaded by [findById] *)
Definition save (env : Env) (id : N) (doc : IPatient) : M unit :=
  match save_rejects env doc with
  | Some msg => throw (MongooseError msg)
  | None =>
      now <- newDate ;;
      put_document id (stamp (createdAt doc) now doc)
  end.

(** ** patient.routes.ts *)

Inductive Body :=
| Failure (error : string)
| PatientCreated (message : string) (id : N) (fullName phone petName : string)
| VaccineScheduled (message : string) (vaccine : IVaccine)
    (patientName petName : string)
| ReminderSent (message : string) (messageId : option string)
    (patientName vaccineName : string)
| ConsentUpdated (message : string) (consent : IConsent).

(** [res.status(s).json(b)]; [res.json(b)] answers 200. *)
Record Response := { status : Z; body : Body }.

Definition nl : string := String (ascii_of_nat 10) EmptyString.

(** [process.env.CLINIC_NAME || 'Nuestra Clínica'] *)
Definition clinicName (env : Env) : string :=
  or_else (CLINIC_NAME env) "Nuestra Clínica".

(** [if (!whatsappClient) { whatsappClient = new WhatsAppClient(); }] *)
Definition ensure_client (env : Env) : M unit := fun w =>
  match whatsappClient w with
  | Some _ => (Return tt, w)
  | None => (c <- new_WhatsAppClient env ;; set_whatsappClient c) w
  end.

(** A method call on the module-level [whatsappClient]. *)
Definition on_client {A} (call : M A) : M A := fun w =>
  match whatsappClient w with
  | Some _ => call w
  | None =>
      (Throw (TypeError "Cannot read properties of undefined (reading 'sendTemplate')"), w)
  end.

(** The middleware [initWhatsApp] in front of a handler [next]. *)
Definition initWhatsApp (env : Env) (next : M Response) : M Response :=
  failed <- try_catch
      (ensure_client env ;;; ret None)
      (fun error =>
         ret (Some {| status := 500;
                      body := Failure ("Error inicializando WhatsApp: " ++ message_of error) |})) ;;
  match failed with
  | Some res => ret res
  | None => next
  end.

Record PatientData := {
  d_fullName : option string;
  d_phone : option string;
  d_petName : option string;
  d_petType : option string;
  d_email : option string;
  d_petBreed : option string;
  d_petAge : option Z;
  d_petWeight : option Z
}.

Definition welcome (env : Env) (fullName petName : string) : string :=
  "¡Hola " ++ fullName ++ "! 👋" ++ nl ++ nl ++
  "Gracias por registrar a " ++ petName ++ " en nuestro sistema." ++ nl ++ nl ++
  "Recibirás recordatorios de vacunas y ofertas especiales." ++ nl ++ nl ++
  "🏥 " ++ clinicName env.

(** The inner [try]/[catch] of registration: the welcome message. *)
Definition send_welcome (env : Env) (phone_ fullName_ petName_ : string)
  : M unit :=
  try_catch
    (ensure_client env ;;;
     sendText env phone_ (welcome env fullName_ petName_) ;;;
     ret tt)
    (fun whatsappError =>
       console_write WARN
         ("⚠️ No se pudo enviar mensaje de bienvenida: " ++ message_of whatsappError)).

(** [router.post('/')]: create a patient. *)
Definition router_post (env : Env) (data : PatientData) : M Response :=
  try_catch
    (if negb (truthy (d_fullName data)) || negb (truthy (d_phone data))
        || negb (truthy (d_petName data)) || negb (truthy (d_petType data))
     then
       ret {| status := 400;
              body := Failure "Faltan campos requeridos: fullName, phone, petName, petType" |}
     else
       let fullName_ := default "" (d_fullName data) in
       let phone_ := default "" (d_phone data) in
       let petName_ := default "" (d_petName data) in
       let petType_ := default "" (d_petType data) in
       patient <- new_Patient env fullName_ phone_ (d_email data) petName_ petType_
                    (d_petBreed data) (d_petAge data) (d_petWeight data) ;;
       id <- save_new env patient ;;
       send_welcome env phone_ fullName_ petName_ ;;;
       ret {| status := 201;
              body := PatientCreated "Paciente creado exitosamente" id
                        (fullName patient) (phone patient) (petName patient) |})
    (fun error =>
       console_write ERROR ("❌ Error creando paciente: " ++ message_of error) ;;;
       if decide (code_of error = Some 11000) then
         ret {| status := 400;
                body := Failure "Ya existe un paciente con este número de teléfono" |}
       else
         ret {| status := 500;
                body := Failure ("Error al crear paciente: " ++ message_of error) |}).

Record VaccineData := {
  vd_name : option string;
  vd_date : option string;
  vd_time : option string;
  vd_location : option string;
  vd_notes : option string;
  vd_lotNumber : option string
}.

(** The object literal assigned to [patient.nextVaccine]; the schema
    trims [name]. *)
Definition vaccine_of (env : Env) (data : VaccineData) : IVaccine :=
  {| v_name := trim (default "" (vd_name data));
     v_date := Date_parse env (default "" (vd_date data));
     v_time := default "" (vd_time data);
     v_location := default "" (vd_location data);
     v_notes := vd_notes data;
     v_lotNumber := vd_lotNumber data;
     v_nextDoseDate := None;
     v_administered := false |}.

(** [router.post('/:id/vaccine')]: schedule a vaccine. *)
Definition router_post_vaccine (env : Env) (id : IdParam) (data : VaccineData)
  : M Response :=
  try_catch
    (if negb (truthy (vd_name data)) || negb (truthy (vd_date data))
        || negb (truthy (vd_time data)) || negb (truthy (vd_location data))
     then
       ret {| status := 400;
              body := Failure "Faltan campos requeridos: name, date, time, location" |}
     else
       found <- findById env id ;;
       match found with
       | None =>
           ret {| status := 404; body := Failure "Paciente no encontrado" |}
       | Some (_id, patient) =>
           let patient := set_nextVaccine patient (Some (vaccine_of env data)) in
           save env _id patient ;;;
           ret {| status := 200;
                  body := VaccineScheduled "Vacuna programada exitosamente"
                            (vaccine_of env data) (fullName patient) (petName patient) |}
       end)
    (fun error =>
       console_write ERROR ("❌ Error programando vacuna: " ++ message_of error) ;;;
       ret {| status := 500;
              body := Failure ("Error al programar vacuna: " ++ message_of error) |}).

(** [response.messages[0]?.id] *)
Definition first_message_id (response : WhatsAppResponse) : option string :=
  option_map msg_id (head (r_messages response)).

(** The ordered parameters of the ['recordatorio_vacuna'] template. *)
Definition reminder_parameters (env : Env) (patient : IPatient) (nv : IVaccine)
  : list string :=
  [ fullName patient; petName patient; v_name nv;
    toLocaleDateString env (v_date nv);
    v_time nv; v_location nv; clinicName env ].

Definition newInteraction (timestamp : Z) (nv : IVaccine)
    (response : WhatsAppResponse) : IInteraction :=
  {| i_type := REMINDER_SENT;
     i_timestamp := Some timestamp;
     i_message := Some ("Recordatorio de vacuna: " ++ v_name nv);
     i_response := None;
     i_messageId := first_message_id response;
     i_status := Some SENT |}.

(** [(patient.consent || { reminders: true }).reminders] *)
Definition consent_reminders (patient : IPatient) : bool :=
  match consent patient with
  | Some c => reminders c
  | None => true
  end.

(** The handler of [router.post('/:id/reminder', initWhatsApp, ...)]. *)
Definition reminder_handler (env : Env) (id : IdParam) : M Response :=
    (try_catch
       (found <- findById env id ;;
        match found with
        | None =>
            ret {| status := 404; body := Failure "Paciente no encontrado" |}
        | Some (_id, patient) =>
            match nextVaccine patient with
            | None =>
                ret {| status := 400;
                       body := Failure "El paciente no tiene vacuna programada" |}
            | Some nv =>
                if negb (consent_reminders patient) then
                  ret {| status := 400;
                         body := Failure "El paciente no ha dado consentimiento para recordatorios" |}
                else
                  response <- on_client
                      (sendTemplate env (phone patient) "recordatorio_vacuna"
                         (reminder_parameters env patient nv)) ;;
                  timestamp <- newDate ;;
                  let interactions_ :=
                    (interactions patient ++ [newInteraction timestamp nv response])%list in
                  last <- newDate ;;
                  let patient :=
                    set_lastInteraction (set_interactions patient interactions_) last in
                  save env _id patient ;;;
                  ret {| status := 200;
                         body := ReminderSent "Recordatorio enviado exitosamente"
                                   (first_message_id response)
                                   (fullName patient) (v_name nv) |}
            end
        end)
       (fun error =>
          console_write ERROR ("❌ Error enviando recordatorio: " ++ message_of error) ;;;
          ret {| status := 500; body := Failure (reported_message error) |})).

(** [router.post('/:id/reminder', initWhatsApp, ...)]: send a reminder. *)
Definition router_post_reminder (env : Env) (id : IdParam) : M Response :=
  initWhatsApp env (reminder_handler env id).

Record ConsentData := {
  cd_marketing : option bool;
  cd_reminders : option bool;
  cd_privacy : option bool
}.

(** The object literal assigned to [patient.consent]: a flag of the
    request when it is not [undefined], else the current one. *)
Definition merge_consent (currentConsent : IConsent) (data : ConsentData)
    (now : Z) : IConsent :=
  {| marketing := default (marketing currentConsent) (cd_marketing data);
     reminders := default (reminders currentConsent) (cd_reminders data);
     privacy := default (privacy currentConsent) (cd_privacy data);
     givenAt := givenAt currentConsent;
     updatedAt := now |}.

(** [router.put('/:id/consent')]: update the consent flags. *)
Definition router_put_consent (env : Env) (id : IdParam) (data : ConsentData)
  : M Response :=
  try_catch
    (found <- findById env id ;;
     match found with
     | None =>
         ret {| status := 404; body := Failure "Paciente no encontrado" |}
     | Some (_id, patient) =>
         currentConsent <-
           match consent patient with
           | Some c => ret c
           | None => default_consent
           end ;;
         now <- newDate ;;
         let consent_ := merge_consent currentConsent data now in
         save env _id (set_consent patient consent_) ;;;
         ret {| status := 200;
                body := ConsentUpdated "Consentimiento actualizado" consent_ |}
     end)
    (fun error =>
       console_write ERROR ("❌ Error actualizando consentimiento: " ++ message_of error) ;;;
       ret {| status := 500;
              body := Failure ("Error al actualizar consentimiento: " ++ message_of error) |}).

(** [validateEnvironment] of the server's entry point: the process only
    serves requests when the three variables are set and non-empty. *)
Definition validateEnvironment (env : Env) : bool :=
  truthy (WHATSAPP_ACCESS_TOKEN env)
  && truthy (WHATSAPP_PHONE_NUMBER_ID env)
  && truthy (WHATSAPP_BUSINESS_ACCOUNT_ID env).

(** ** The specification's wording of phone normalisation *)

Definition default_country_code : string := "52".

(** The digits of the input, in order. *)
Definition digits_of (input : string) : string :=
  string_of_list_ascii (List.filter is_digit (list_ascii_of_string input)).

Definition spec_normalize (input : string) : string :=
  if decide (String.length (digits_of input) = 10%nat)
  then default_country_code ++ digits_of input
  else
    match input with
    | String "+" rest => rest
    | _ => digits_of input
    end.

(** ** Sample data *)

(** U+00A0, U+3000 and U+2028 in UTF-8. *)
Definition nbsp : string :=
  String (ascii_of_nat 194) (String (ascii_of_nat 160) EmptyString).

Definition ideographic_space : string :=
  String (ascii_of_nat 227) (String (ascii_of_nat 128)
    (String (ascii_of_nat 128) EmptyString)).

Definition line_separator : string :=
  String (ascii_of_nat 226) (String (ascii_of_nat 128)
    (String (ascii_of_nat 168) EmptyString)).

Definition rabies (date : JsDate) : IVaccine :=
  {| v_name := "Rabia"; v_date := date; v_time := "10:30";
     v_location := "Consultorio 2"; v_notes := None; v_lotNumber := None;
     v_nextDoseDate := None; v_administered := false |}.

Definition consent_flags (m r : bool) : IConsent :=
  {| marketing := m; reminders := r; privacy := true;
     givenAt := 500; updatedAt := 500 |}.

Definition patient_at (ph : string) (nv : option IVaccine)
    (c : option IConsent) (last : option Z) : IPatient :=
  {| fullName := "Ana Torres"; phone := ph; email := None;
     petName := "Luna"; petType := "DOG"; petBreed := None;
     petAge := Some 4; petWeight := None;
     nextVaccine := nv; vaccineHistory := []; consent := c;
     lastInteraction := last; interactions := [];
     preferences := {| language := "es"; contactTime := "ANY" |};
     createdAt := Some 500; p_updatedAt := Some 500 |}.

Definition luna : option IVaccine -> option IConsent -> option Z -> IPatient :=
  patient_at "5512345678".

Definition unscheduled : IPatient :=
  patient_at "5511110001" None (Some (consent_flags false true)) None.

Definition opted_out : IPatient :=
  patient_at "5511110002" (Some (rabies (ValidDate 1767571200000)))
    (Some (consent_flags false false)) None.

Definition legacy : IPatient :=
  patient_at "5511110003" (Some (rabies (ValidDate 1767571200000))) None None.

(** ** Names for what the handlers leave behind *)

(** The world once the gateway client has been looked up or built. *)
Definition ready (env : Env) (w : World) : World := snd (ensure_client env w).

(** The [n]-th next reading of the clock. *)
Fixpoint reading (n : nat) (w : World) : Z :=
  match n with
  | O => clock_now w
  | S n => reading n (snd (newDate w))
  end.

(** The request [sendTemplate] posts for a reminder. *)
Definition reminder_payload (env : Env) (patient : IPatient) (nv : IVaccine)
  : Payload :=
  template_payload (phone patient) "recordatorio_vacuna"
    (reminder_parameters env patient nv).

(** The patient document after a reminder went out at [timestamp] and
    [lastInteraction] was read as [last]. *)
Definition reminded (patient : IPatient) (nv : IVaccine)
    (response : WhatsAppResponse) (timestamp last : Z) : IPatient :=
  set_lastInteraction
    (set_interactions patient
       (interactions patient ++ [newInteraction timestamp nv response])%list)
    last.

(** The replies of the routes, under the names of the error taxonomy. *)
Definition NotFoundError : Response :=
  {| status := 404; body := Failure "Paciente no encontrado" |}.

Definition NoScheduledVaccineError : Response :=
  {| status := 400; body := Failure "El paciente no tiene vacuna programada" |}.

Definition ConsentDeniedError : Response :=
  {| status := 400;
     body := Failure "El paciente no ha dado consentimiento para recordatorios" |}.

Definition DuplicatePhoneError : Response :=
  {| status := 400;
     body := Failure "Ya existe un paciente con este número de teléfono" |}.

Definition ValidationError_patient : Response :=
  {| status := 400;
     body := Failure "Faltan campos requeridos: fullName, phone, petName, petType" |}.

Definition ValidationError_vaccine : Response :=
  {| status := 400;
     body := Failure "Faltan campos requeridos: name, date, time, location" |}.

(** A configured process, a provider and a store to run the routes in. *)
Definition clinic (answer : list Payload -> Payload -> Completion WhatsAppResponse)
    (rejects : IPatient -> option string) : Env :=
  {| CLINIC_NAME := Some "Veterinaria Sur";
     WHATSAPP_ACCESS_TOKEN := Some "EAAG-token";
     WHATSAPP_PHONE_NUMBER_ID := Some "105500000000001";
     WHATSAPP_BUSINESS_ACCOUNT_ID := Some "207700000000002";
     WHATSAPP_API_VERSION := None;
     Date_parse := fun s =>
       if String.eqb s "2026-01-05" then ValidDate 1767571200000 else InvalidDate;
     toLocaleDateString := fun d =>
       match d with
       | ValidDate _ => "lunes, 5 de enero de 2026"
       | InvalidDate => "Invalid Date"
       end;
     toLowerCase := toLowerCase_ascii;
     provider := answer;
     save_rejects := rejects;
     CastError_message := fun raw =>
       "Cast to ObjectId failed for value " ++ dquote ++ raw ++ dquote
       ++ " (type string) at path " ++ dquote ++ "_id" ++ dquote
       ++ " for model " ++ dquote ++ "Patient" ++ dquote |}.

Definition office (patients : gmap N IPatient) (ticks : list N) : World :=
  {| db := patients; clock_now := 1767225600000; clock_ticks := ticks;
     whatsappClient := None; outbox := []; console := [] |}.

Definition accepted (wamid : string) : WhatsAppResponse :=
  {| r_messaging_product := "whatsapp";
     r_contacts := [("5512345678", "525512345678")];
     r_messages := [ {| msg_id := wamid |} ] |}.

(** A response of the provider that lists no message. *)
Definition unlisted : WhatsAppResponse :=
  {| r_messaging_product := "whatsapp";
     r_contacts := [("5512345678", "525512345678")];
     r_messages := [] |}.

Definition undeliverable (code : Z) : Thrown :=
  AxiosError "Request failed with status code 400"
    (Some {| error_of :=
               {| we_message := "Message undeliverable";
                  we_type := "OAuthException";
                  we_code := code;
                  we_details := None;
                  we_fbtrace_id := "AbCdEf" |} |}).

Definition luna_due : IPatient :=
  luna (Some (rabies (ValidDate 1767571200000)))
       (Some (consent_flags false true)) None.

(** Four records: one without a vaccine, one that opted out of
    reminders, one from before consent was tracked, one due. *)
Definition waiting_room : gmap N IPatient :=
  <[1%N := unscheduled]> (<[2%N := opted_out]> (<[3%N := legacy]>
  (<[4%N := luna_due]> ∅))).

(** The consent the update starts from, and when the update is dated:
    a record without consent gets the default when it is loaded, which
    costs two readings of the clock. *)
Definition currentConsent (p : IPatient) (w : World) : IConsent :=
  match consent p with
  | Some c => c
  | None =>
      {| marketing := false; reminders := true; privacy := true;
         givenAt := reading 0 w; updatedAt := reading 1 w |}
  end.

Definition consent_update_time (p : IPatient) (w : World) : Z :=
  match consent p with
  | Some _ => reading 0 w
  | None => reading 2 w
  end.

Definition new_consent (p : IPatient) (data : ConsentData) (w : World)
  : IConsent :=
  merge_consent (currentConsent p w) data (consent_update_time p w).

(** The document [findById] hands to a route for the stored record [p]
    in world [w], and the world then: a record with a consent object is
    handed over as it is. *)
Definition loaded (p : IPatient) (w : World) : IPatient :=
  match consent p with
  | Some _ => p
  | None => set_consent p (currentConsent p w)
  end.

Definition after_load (p : IPatient) (w : World) : World :=
  match consent p with
  | Some _ => w
  | None => ticked (ticked w)
  end.

(** The four required fields of a vaccine request are all truthy. *)
Definition vaccine_complete (data : VaccineData) : bool :=
  truthy (vd_name data) && truthy (vd_date data)
  && truthy (vd_time data) && truthy (vd_location data).

Definition booster : VaccineData :=
  {| vd_name := Some " Parvovirus "; vd_date := Some "2026-01-05";
     vd_time := Some "16:00"; vd_location := Some "Sucursal Centro";
     vd_notes := None; vd_lotNumber := Some "L-2291" |}.

(** A complete request whose date is no date. *)
Definition undated : VaccineData :=
  {| vd_name := Some "Parvovirus"; vd_date := Some "pronto";
     vd_time := Some "16:00"; vd_location := Some "Sucursal Centro";
     vd_notes := None; vd_lotNumber := None |}.

(** A store that validates, as the schema asks, that a scheduled vaccine
    has a name and a date. *)
Definition checks_vaccine (doc : IPatient) : option string :=
  match nextVaccine doc with
  | None => None
  | Some nv =>
      if is_empty (v_name nv)
      then Some "Patient validation failed: nextVaccine.name: Path `name` is required."
      else
        match v_date nv with
        | InvalidDate =>
            Some "Patient validation failed: nextVaccine.date: Cast to date failed"
        | ValidDate _ => None
        end
  end.

Definition nameless : VaccineData :=
  {| vd_name := None; vd_date := Some "2026-01-05";
     vd_time := Some "16:00"; vd_location := Some "Sucursal Centro";
     vd_notes := None; vd_lotNumber := None |}.

(** The four required fields of a registration are all truthy. *)
Definition patient_complete (data : PatientData) : bool :=
  truthy (d_fullName data) && truthy (d_phone data)
  && truthy (d_petName data) && truthy (d_petType data).

(** The document [new Patient] builds from a registration in world [w]. *)
Definition patient_of (env : Env) (data : PatientData) (w : World) : IPatient :=
  {| fullName := trim (default "" (d_fullName data));
     phone := trim (default "" (d_phone data));
     email := option_map (fun e => toLowerCase env (trim e)) (d_email data);
     petName := trim (default "" (d_petName data));
     petType := default "" (d_petType data);
     petBreed := d_petBreed data;
     petAge := d_petAge data;
     petWeight := d_petWeight data;
     nextVaccine := None;
     vaccineHistory := [];
     consent := Some {| marketing := false; reminders := true; privacy := true;
                        givenAt := reading 0 w; updatedAt := reading 1 w |};
     lastInteraction := None;
     interactions := [];
     preferences := {| language := "es"; contactTime := "ANY" |};
     createdAt := None;
     p_updatedAt := None |}.



Definition rocky (ph : string) : PatientData :=
  {| d_fullName := Some "Luis Prado "; d_phone := Some ph;
     d_petName := Some "Rocky"; d_petType := Some "DOG";
     d_email := Some "Luis@Example.MX"; d_petBreed := None;
     d_petAge := Some 2; d_petWeight := None |}.


(** ** WhatsAppClient.ts: the connection check *)

Record ConnectionStatus := {
  connected : bool;
  cs_phoneNumber : option string;
  cs_error : option string
}.

(** [this.client.get('/')]: the provider's answer, the
    [display_phone_number] of the account or a failure, is the argument
    [identity]; the request is not a message and leaves no trace in the
    [outbox]. *)
Definition get_identity (identity : Completion string) : M string := fun w =>
  (identity, w).

(** [checkConnection()] *)
Definition checkConnection (identity : Completion string) : M ConnectionStatus :=
  try_catch
    (display_phone_number <- get_identity identity ;;
     ret {| connected := true;
            cs_phoneNumber := Some display_phone_number;
            cs_error := None |})
    (fun error =>
       ret {| connected := false;
              cs_phoneNumber := None;
              cs_error := Some (reported_message error) |}).

(** ** The entry point: [/api/whatsapp/test] and the start-up check *)

Inductive TestBody :=
| TestFailure (error : string)
| TestStatus (data : ConnectionStatus).

Record TestResponse := { t_status : Z; t_body : TestBody }.

(** [app.get('/api/whatsapp/test')]: a client of its own, built for the
    request, and a connection check. *)
Definition whatsapp_test (env : Env) (identity : Completion string)
  : M TestResponse :=
  try_catch
    (new_WhatsAppClient env ;;;
     status_ <- checkConnection identity ;;
     ret {| t_status := 200; t_body := TestStatus status_ |})
    (fun error =>
       ret {| t_status := 500; t_body := TestFailure (message_of error) |}).

Definition requiredEnvVars : list string :=
  [ "WHATSAPP_ACCESS_TOKEN"; "WHATSAPP_PHONE_NUMBER_ID";
    "WHATSAPP_BUSINESS_ACCOUNT_ID" ].

(** [process.env[varName]] for the variables the sources read. *)
Definition process_env (env : Env) (varName : string) : option string :=
  if String.eqb varName "CLINIC_NAME" then CLINIC_NAME env
  else if String.eqb varName "WHATSAPP_ACCESS_TOKEN" then WHATSAPP_ACCESS_TOKEN env
  else if String.eqb varName "WHATSAPP_PHONE_NUMBER_ID" then WHATSAPP_PHONE_NUMBER_ID env
  else if String.eqb varName "WHATSAPP_BUSINESS_ACCOUNT_ID"
       then WHATSAPP_BUSINESS_ACCOUNT_ID env
  else if String.eqb varName "WHATSAPP_API_VERSION" then WHATSAPP_API_VERSION env
  else None.

(** [requiredEnvVars.filter(varName => !process.env[varName])] of
    [validateEnvironment]; the process exits when it is not empty. *)
Definition missingVars (env : Env) : list string :=
  List.filter (fun varName => negb (truthy (process_env env varName)))
    requiredEnvVars.

(** ** patient.routes.ts: reading one patient *)

Inductive ReadBody :=
| ReadFailure (error : string)
| PatientDocument (id : N) (data : IPatient).

Record ReadResponse := { read_status : Z; read_body : ReadBody }.

(** [router.get('/:id')] *)
Definition router_get_id (env : Env) (id : IdParam) : M ReadResponse :=
  try_catch
    (found <- findById env id ;;
     match found with
     | None =>
         ret {| read_status := 404; read_body := ReadFailure "Paciente no encontrado" |}
     | Some (_id, patient) =>
         ret {| read_status := 200; read_body := PatientDocument _id patient |}
     end)
    (fun error =>
       console_write ERROR ("❌ Error obteniendo paciente: " ++ message_of error) ;;;
       ret {| read_status := 500;
              read_body := ReadFailure ("Error al obtener paciente: " ++ message_of error) |}).

(** ** The router: the four routes that write *)

Inductive Request :=
| POST_patient (data : PatientData)
| POST_vaccine (id : IdParam) (data : VaccineData)
| POST_reminder (id : IdParam)
| PUT_consent (id : IdParam) (data : ConsentData).

Definition router (env : Env) (req : Request) : M Response :=
  match req with
  | POST_patient data => router_post env data
  | POST_vaccine id data => router_post_vaccine env id data
  | POST_reminder id => router_post_reminder env id
  | PUT_consent id data => router_put_consent env id data
  end.

(** The world after a sequence of requests, served one after the other. *)
Fixpoint served (env : Env) (reqs : list Request) (w : World) : World :=
  match reqs with
  | [] => w
  | req :: reqs => served env reqs (snd (router env req w))
  end.

(** A freshly started process over an empty collection. *)
Definition started (now : Z) (ticks : list N) : World :=
  {| db := ∅; clock_now := now; clock_ticks := ticks;
     whatsappClient := None; outbox := []; console := [] |}.

(** ** Vocabulary of the properties *)

Fixpoint all_digits (s : string) : bool :=
  match s with
  | EmptyString => true
  | String c rest => is_digit c && all_digits rest
  end.

(** The gateway cannot be built: no phone number id or no token. *)
Definition credentials_missing (env : Env) : bool :=
  is_empty (or_else (WHATSAPP_PHONE_NUMBER_ID env) "")
  || is_empty (or_else (WHATSAPP_ACCESS_TOKEN env) "").

Definition credentials_error : Thrown :=
  Error "WhatsApp credentials not configured. Run: npm run setup".

(** What only ever grows while requests are served. *)
Definition grows (w w' : World) : Prop :=
  clock_now w <= clock_now w' /\
  outbox w `prefix_of` outbox w' /\
  console w `prefix_of` console w'.

(** A computation that keeps [R] between the worlds before and after,
    returns only values in [Q] and throws only errors in [E]. *)
Definition outcome {A} (R : World -> World -> Prop) (Q : A -> Prop)
    (E : Thrown -> Prop) (m : M A) : Prop :=
  forall w, R w (snd (m w)) /\
            match fst (m w) with
            | Return a => Q a
            | Throw e => E e
            end.

Definition anything {A} : A -> Prop := fun _ => True.
Definition nothing {A} : A -> Prop := fun _ => False.

(** No two stored patients share a phone. *)
Definition unique_phones (m : gmap N IPatient) : Prop :=
  forall i j p q, m !! i = Some p -> m !! j = Some q ->
                  phone p = phone q -> i = j.

(** The instants of the interaction records, in order. *)
Definition timeline (p : IPatient) : list Z :=
  omap i_timestamp (interactions p).

(** What holds of every patient the routes have stored, at time [now]. *)
Record patient_ok (now : Z) (p : IPatient) : Prop := {
  ok_consent : exists c, consent p = Some c /\
                         givenAt c <= updatedAt c /\ updatedAt c <= now;
  ok_history : vaccineHistory p = [];
  ok_vaccine : forall nv, nextVaccine p = Some nv ->
                          v_administered nv = false /\ v_nextDoseDate nv = None;
  ok_records : Forall (fun i => i_type i = REMINDER_SENT /\
                                i_status i = Some SENT /\
                                is_Some (i_timestamp i)) (interactions p);
  ok_sorted : Sorted Z.le (timeline p);
  ok_last : match lastInteraction p with
            | None => interactions p = []
            | Some l => interactions p <> [] /\ l <= now /\
                        Forall (fun t => t <= l) (timeline p)
            end;
  ok_created : exists c u, createdAt p = Some c /\ p_updatedAt p = Some u /\
                           c <= u /\ u <= now
}.

Definition world_ok (w : World) : Prop :=
  unique_phones (db w) /\
  map_Forall (fun _ p => patient_ok (clock_now w) p) (db w).

(** The status codes a route may answer with. *)
Definition codes_of (req : Request) : list Z :=
  match req with
  | POST_patient _ => [201; 400; 500]
  | POST_vaccine _ _ => [200; 400; 404; 500]
  | POST_reminder _ => [200; 400; 404; 500]
  | PUT_consent _ _ => [200; 404; 500]
  end.

(** What no route changes in a stored patient, and what it only extends. *)
Definition kept (p p' : IPatient) : Prop :=
  fullName p' = fullName p /\ phone p' = phone p /\ email p' = email p /\
  petName p' = petName p /\ petType p' = petType p /\
  petBreed p' = petBreed p /\ petAge p' = petAge p /\
  petWeight p' = petWeight p /\ preferences p' = preferences p /\
  vaccineHistory p' = vaccineHistory p /\ createdAt p' = createdAt p /\
  interactions p `prefix_of` interactions p'.

(** A gateway that accepts every message, a store that accepts every
    document, and a day at the clinic: a registration, a vaccine, a
    reminder, a change of consent and a second registration. *)
Definition open_clinic : Env :=
  clinic (fun _ _ => Return (accepted "wamid.1")) (fun _ => None).

Definition marketing_on : ConsentData :=
  {| cd_marketing := Some true; cd_reminders := None; cd_privacy := None |}.

Definition a_day : list Request :=
  [ POST_patient (rocky "5598765432"); POST_vaccine (ObjectId 0) booster;
    POST_reminder (ObjectId 0); PUT_consent (ObjectId 0) marketing_on;
    POST_patient (rocky "5511223344") ].

Definition morning : World := started 1767225600000 [1%N; 2%N].


(** ** create-templates.ts *)

Record TemplateComponent := { tc_type : string; tc_text : string }.

Record MessageTemplate := {
  mt_name : string;
  mt_category : string;
  mt_language : string;
  mt_components : list TemplateComponent
}.

Definition recordatorio_vacuna_text : string :=
  "Hola {{1}}," ++ nl ++
  nl ++
  "                    Le recordamos que {{2}} tiene programada la vacuna " ++ dquote ++ "{{3}}" ++ dquote ++ " para el {{4}}." ++ nl ++
  nl ++
  "                    📅 Fecha: {{4}}" ++ nl ++
  "                    🕒 Hora: {{5}}" ++ nl ++
  "                    📍 Lugar: {{6}}" ++ nl ++
  nl ++
  "                    Por favor confirme su asistencia.".

Definition confirmacion_cita_text : string :=
  "✅ Confirmación de Cita" ++ nl ++
  nl ++
  "                    Hola {{1}}," ++ nl ++
  nl ++
  "                    Su cita ha sido {{2}} exitosamente." ++ nl ++
  nl ++
  "                    📅 Fecha: {{3}}" ++ nl ++
  "                    🕒 Hora: {{4}}" ++ nl ++
  "                    📍 Lugar: {{5}}" ++ nl ++
  nl ++
  "                    Gracias por confiar en nosotros. 🐾".

Definition templates : list MessageTemplate :=
  [ {| mt_name := "recordatorio_vacuna"; mt_category := "UTILITY";
       mt_language := "es";
       mt_components :=
         [ {| tc_type := "BODY"; tc_text := recordatorio_vacuna_text |} ] |};
    {| mt_name := "confirmacion_cita"; mt_category := "UTILITY";
       mt_language := "es";
       mt_components :=
         [ {| tc_type := "BODY"; tc_text := confirmacion_cita_text |} ] |} ].

(** [axiosError.response?.data?.error?.code] *)
Definition response_error_code (e : Thrown) : option Z :=
  match e with
  | AxiosError _ (Some r) => Some (we_code (error_of r))
  | _ => None
  end.

(** What a run of the script has done so far: the requests it posted
    (address and body; the token travels in the headers), the lines it
    printed, and its two counters. *)
Record Script := {
  requests : list (string * MessageTemplate);
  output : list (Level * string);
  createdCount : Z;
  errorCount : Z
}.

Definition idle : Script :=
  {| requests := []; output := []; createdCount := 0; errorCount := 0 |}.

Definition say (l : Level) (text : string) (s : Script) : Script :=
  {| requests := requests s; output := (output s ++ [(l, text)])%list;
     createdCount := createdCount s; errorCount := errorCount s |}.

Definition requested (url : string) (template : MessageTemplate) (s : Script)
  : Script :=
  {| requests := (requests s ++ [(url, template)])%list; output := output s;
     createdCount := createdCount s; errorCount := errorCount s |}.

Definition count_created (s : Script) : Script :=
  {| requests := requests s; output := output s;
     createdCount := createdCount s + 1; errorCount := errorCount s |}.

Definition count_error (s : Script) : Script :=
  {| requests := requests s; output := output s;
     createdCount := createdCount s; errorCount := errorCount s + 1 |}.

(** The Graph API, as the script sees it: the answer to a request, given
    the requests posted before it, is the new template's id or an error. *)
Definition Graph : Type :=
  list (string * MessageTemplate) -> string * MessageTemplate -> Completion string.

(** The body of the [for] loop: one request, its [try] and its [catch].
    The pause between requests has no effect on the outcome. *)
Definition create_template (graph : Graph) (url : string)
    (template : MessageTemplate) (s : Script) : Script :=
  let answer := graph (requests s) (url, template) in
  let s := requested url template s in
  match answer with
  | Return id =>
      let s := say LOG ("✅ Plantilla " ++ dquote ++ mt_name template ++ dquote
                        ++ " creada") s in
      let s := say LOG ("   Categoría: " ++ mt_category template) s in
      let s := say LOG ("   ID: " ++ id ++ nl) s in
      count_created s
  | Throw error =>
      if bool_decide (response_error_code error = Some 100) then
        say LOG ("⚠️  Plantilla " ++ dquote ++ mt_name template ++ dquote
                 ++ " ya existe" ++ nl) s
      else
        let s := say ERROR ("❌ Error creando plantilla " ++ dquote
                            ++ mt_name template ++ dquote ++ ":") s in
        let s := say ERROR ("   " ++ reported_message error ++ nl) s in
        count_error s
  end.

(** [for (const template of templates) { ... }] *)
Fixpoint create_each (graph : Graph) (url : string)
    (templates : list MessageTemplate) (s : Script) : Script :=
  match templates with
  | [] => s
  | template :: rest => create_each graph url rest (create_template graph url template s)
  end.

(** ['='.repeat(50)] and the like *)
Fixpoint repeat_string (s : string) (n : nat) : string :=
  match n with
  | O => EmptyString
  | S n => s ++ repeat_string s n
  end.

Definition templates_url (businessAccountId : string) : string :=
  "https://graph.facebook.com/v18.0/" ++ businessAccountId ++ "/message_templates".

(** [createTemplates]: the exit code, if the script stops the process,
    and what it has done. *)
Definition createTemplates (env : Env) (graph : Graph) : option Z * Script :=
  let s := say LOG ("📝 CREANDO PLANTILLAS DE WHATSAPP" ++ nl) idle in
  let accessToken := WHATSAPP_ACCESS_TOKEN env in
  let businessAccountId := WHATSAPP_BUSINESS_ACCOUNT_ID env in
  if negb (truthy accessToken) || negb (truthy businessAccountId) then
    (Some 1, say ERROR "❌ Credenciales no configuradas. Ejecuta: npm run setup" s)
  else
    let s := say LOG ("Creando 2 plantillas esenciales..." ++ nl) s in
    let s := create_each graph (templates_url (default "" businessAccountId))
               templates s in
    let s := say LOG (repeat_string "=" 50) s in
    let s := say LOG "📊 RESULTADOS:" s in
    let s := say LOG ("✅ Creadas: " ++ pretty (createdCount s)) s in
    let s := say LOG ("❌ Errores: " ++ pretty (errorCount s)) s in
    let s := say LOG (repeat_string "=" 50) s in
    if errorCount s =? 0 then
      let s := say LOG (nl ++ "🎉 ¡Plantillas creadas exitosamente!") s in
      let s := say LOG (nl ++ "⚠️  IMPORTANTE:") s in
      let s := say LOG "Las plantillas deben ser aprobadas por WhatsApp." s in
      let s := say LOG "Esto puede tomar de 24 a 72 horas." s in
      let s := say LOG (nl ++ "Puedes ver el estado en:") s in
      let s := say LOG "https://developers.facebook.com/apps/" s in
      (None, s)
    else (None, s).

(** An answer the script does not count as an error: the template was
    created, or the gateway says it exists already (code 100). *)
Definition acceptable (answer : Completion string) : bool :=
  match answer with
  | Return _ => true
  | Throw error => bool_decide (response_error_code error = Some 100)
  end.

(** The answer to the [k]-th request of the loop over [ts]. *)
Definition answer_at (graph : Graph) (url : string) (ts : list MessageTemplate)
    (k : nat) (t : MessageTemplate) : Completion string :=
  graph (map (pair url) (take k ts)) (url, t).

(** A gateway on which every template exists already, and one that is down. *)
Definition already_there : Graph := fun _ _ =>
  Throw (AxiosError "Request failed with status code 400"
           (Some {| error_of :=
                      {| we_message := "Template name already exists";
                         we_type := "OAuthException"; we_code := 100;
                         we_details := None; we_fbtrace_id := "AbCdEf" |} |})).

Definition unreachable : Graph := fun _ _ =>
  Throw (AxiosError "connect ECONNREFUSED" None).


(** * Properties *)

(** ** Eligibility predicates *)

Lemma Math_ceil_div_unique a b k :
  0 < b -> (k - 1) * b < a <= k * b -> Math_ceil_div a b = k.
Proof.
  intros Hb Hk. unfold Math_ceil_div.
  assert ((- a) / b = - k) as ->; [|lia].
  symmetry. apply (Z.div_unique (- a) b (- k) (k * b - a)); lia.
Qed.

Example Math_ceil_div_samples :
  Math_ceil_div 1 MS_PER_DAY = 1 /\ Math_ceil_div 0 MS_PER_DAY = 0 /\
  Math_ceil_div (-1) MS_PER_DAY = 0 /\ Math_ceil_div (- MS_PER_DAY) MS_PER_DAY = -1 /\
  Math_ceil_div (- MS_PER_DAY - 1) MS_PER_DAY = -1 /\
  Math_ceil_div (3 * MS_PER_DAY + 1) MS_PER_DAY = 4.
Proof. repeat split. Qed.

(** An object that lacks the consent object makes the methods throw
    once they reach [this.consent]. *)
Example needsReminder_without_consent :
  needsReminder 5000 (luna (Some (rabies (ValidDate 9000))) None None) None
  = Throw (TypeError "Cannot read properties of undefined (reading 'reminders')")
  /\ needsReminder 5000 (luna None None None) None = Return false
  /\ needsReminder 5000
       (luna (Some (rabies InvalidDate)) (Some (consent_flags false true)) None)
       None = Return false.
Proof. repeat split. Qed.

Example trim_samples :
  trim "  Luis Prado " = "Luis Prado" /\ trim "" = "" /\ trim "   " = "" /\
  trim (nbsp ++ " 5512345678" ++ nbsp) = "5512345678" /\
  trim (ideographic_space ++ "Luna" ++ line_separator ++ nl) = "Luna" /\
  trim ("Ana" ++ nbsp ++ "Torres") = "Ana" ++ nbsp ++ "Torres" /\
  toLowerCase_ascii (trim " Luis@Example.MX") = "luis@example.mx".
Proof. repeat split. Qed.

Lemma needsReminder_valid today p nv c t k daysBefore :
  nextVaccine p = Some nv -> consent p = Some c -> reminders c = true ->
  v_date nv = ValidDate t ->
  (k - 1) * MS_PER_DAY < t - today <= k * MS_PER_DAY ->
  needsReminder today p (Some daysBefore)
  = Return (bool_decide (0 <= k <= daysBefore)).
Proof.
  intros Hnv Hc Hr Hd Hk. unfold needsReminder, diffDays.
  rewrite Hnv, Hc, Hr, Hd. cbn [negb default].
  rewrite (Math_ceil_div_unique _ _ k) by (done || (unfold MS_PER_DAY in *; lia)).
  f_equal. apply eq_true_iff_eq.
  rewrite bool_decide_eq_true, andb_true_iff, Z.leb_le, Z.geb_le.
  unfold id. lia.
Qed.

(** C1. [needsReminder] answers false when there is no [nextVaccine] or
    when [consent.reminders] is false.  Otherwise, for a valid vaccine
    date, with [k] the ceiling of (vaccine date - today) in days, i.e. the
    integer with [(k - 1) days < date - today <= k days], it answers true
    exactly when [0 <= k <= daysBefore].  With [today] lying in the day that
    starts at [midnight]: a vaccine dated [daysBefore] days after
    [midnight] is due, one dated [daysBefore + 1] days after is not, and
    one dated the day before is not.  An omitted [daysBefore] is 3. *)
Theorem C1_needsReminder (today daysBefore : Z) :
  (forall p, nextVaccine p = None ->
     needsReminder today p (Some daysBefore) = Return false) /\
  (forall p c, consent p = Some c -> reminders c = false ->
     needsReminder today p (Some daysBefore) = Return false) /\
  (forall p nv c t k,
     nextVaccine p = Some nv -> consent p = Some c -> reminders c = true ->
     v_date nv = ValidDate t ->
     (k - 1) * MS_PER_DAY < t - today <= k * MS_PER_DAY ->
     needsReminder today p (Some daysBefore)
     = Return (bool_decide (0 <= k <= daysBefore))) /\
  (forall p nv c midnight,
     nextVaccine p = Some nv -> consent p = Some c -> reminders c = true ->
     midnight <= today < midnight + MS_PER_DAY ->
     (0 <= daysBefore ->
      v_date nv = ValidDate (midnight + daysBefore * MS_PER_DAY) ->
      needsReminder today p (Some daysBefore) = Return true) /\
     (v_date nv = ValidDate (midnight + (daysBefore + 1) * MS_PER_DAY) ->
      needsReminder today p (Some daysBefore) = Return false) /\
     (v_date nv = ValidDate (midnight - MS_PER_DAY) ->
      needsReminder today p (Some daysBefore) = Return false)) /\
  (forall p, needsReminder today p None = needsReminder today p (Some 3)).
Proof.
  split; [|split; [|split; [|split]]].
  - intros p Hnv. unfold needsReminder. by rewrite Hnv.
  - intros p c Hc Hr. unfold needsReminder. rewrite Hc, Hr.
    by destruct (nextVaccine p).
  - intros p nv c t k. apply needsReminder_valid.
  - intros p nv c midnight Hnv Hc Hr Hday. split; [|split].
    + intros Hpos Hd.
      rewrite (needsReminder_valid today p nv c _ daysBefore daysBefore Hnv Hc Hr Hd)
        by (unfold MS_PER_DAY in *; lia).
      by rewrite bool_decide_eq_true_2 by lia.
    + intros Hd.
      rewrite (needsReminder_valid today p nv c _ (daysBefore + 1) daysBefore Hnv Hc Hr Hd)
        by (unfold MS_PER_DAY in *; lia).
      by rewrite bool_decide_eq_false_2 by lia.
    + intros Hd.
      rewrite (needsReminder_valid today p nv c _ (-1) daysBefore Hnv Hc Hr Hd)
        by (unfold MS_PER_DAY in *; lia).
      by rewrite bool_decide_eq_false_2 by lia.
  - reflexivity.
Qed.

Lemma C1_needsReminder_witness :
  needsReminder 5000 (luna None (Some (consent_flags false true)) None) (Some 3)
  = Return false /\
  needsReminder 5000
    (luna (Some (rabies (ValidDate 0))) (Some (consent_flags false false)) None)
    (Some 3) = Return false /\
  needsReminder 5000
    (luna (Some (rabies (ValidDate (2 * MS_PER_DAY + 7000))))
          (Some (consent_flags false true)) None)
    (Some 3) = Return true /\
  needsReminder 5000
    (luna (Some (rabies (ValidDate (0 + 3 * MS_PER_DAY))))
          (Some (consent_flags false true)) None)
    (Some 3) = Return true /\
  needsReminder 5000
    (luna (Some (rabies (ValidDate (0 + (3 + 1) * MS_PER_DAY))))
          (Some (consent_flags false true)) None)
    (Some 3) = Return false /\
  needsReminder 5000
    (luna (Some (rabies (ValidDate (0 - MS_PER_DAY))))
          (Some (consent_flags false true)) None)
    (Some 3) = Return false.
Proof.
  destruct (C1_needsReminder 5000 3) as (H1 & H2 & H3 & H4 & _).
  split; [apply H1; reflexivity|].
  split; [apply (H2 _ (consent_flags false false)); reflexivity|].
  split.
  { apply (H3 _ (rabies (ValidDate (2 * MS_PER_DAY + 7000)))
              (consent_flags false true) (2 * MS_PER_DAY + 7000) 3);
      try reflexivity; clear; unfold MS_PER_DAY; lia. }
  assert (0 <= 5000 < 0 + MS_PER_DAY) as Hday by (unfold MS_PER_DAY; lia).
  split.
  { apply (H4 (luna (Some (rabies (ValidDate (0 + 3 * MS_PER_DAY)))) (Some (consent_flags false true)) None)
                 (rabies (ValidDate (0 + 3 * MS_PER_DAY)))
              (consent_flags false true) 0 eq_refl eq_refl eq_refl Hday);
      [lia | reflexivity]. }
  split.
  { apply (proj1 (proj2
             (H4 (luna (Some (rabies (ValidDate (0 + (3 + 1) * MS_PER_DAY)))) (Some (consent_flags false true)) None)
                 (rabies (ValidDate (0 + (3 + 1) * MS_PER_DAY)))
                 (consent_flags false true) 0 eq_refl eq_refl eq_refl Hday))).
    reflexivity. }
  { apply (proj2 (proj2
             (H4 (luna (Some (rabies (ValidDate (0 - MS_PER_DAY)))) (Some (consent_flags false true)) None)
                 (rabies (ValidDate (0 - MS_PER_DAY)))
                 (consent_flags false true) 0 eq_refl eq_refl eq_refl Hday))).
    reflexivity. }
Defined.

(** C7. [canReceiveOffers] answers false when [consent.marketing] is
    false or [lastInteraction] is absent; otherwise it answers true
    exactly when at most 24 hours have elapsed since [lastInteraction],
    the instant 24 hours ago included: true one second inside the window,
    false one second outside. *)
Theorem C7_canReceiveOffers (now : Z) :
  (forall p c, consent p = Some c -> marketing c = false ->
     canReceiveOffers now p = Return false) /\
  (forall p c, consent p = Some c -> lastInteraction p = None ->
     canReceiveOffers now p = Return false) /\
  (forall p c li,
     consent p = Some c -> marketing c = true -> lastInteraction p = Some li ->
     canReceiveOffers now p = Return (bool_decide (now - li <= MS_PER_DAY)) /\
     (li = now - MS_PER_DAY -> canReceiveOffers now p = Return true) /\
     (li = now - MS_PER_DAY + 1000 -> canReceiveOffers now p = Return true) /\
     (li = now - MS_PER_DAY - 1000 -> canReceiveOffers now p = Return false)).
Proof.
  split; [|split].
  - intros p c Hc Hm. unfold canReceiveOffers. by rewrite Hc, Hm.
  - intros p c Hc Hl. unfold canReceiveOffers. rewrite Hc, Hl.
    by destruct (marketing c).
  - intros p c li Hc Hm Hl.
    assert (canReceiveOffers now p
            = Return (bool_decide (now - li <= MS_PER_DAY))) as Heq.
    { unfold canReceiveOffers. rewrite Hc, Hm, Hl. cbn [negb].
      f_equal. apply eq_true_iff_eq.
      rewrite bool_decide_eq_true, Z.geb_le. unfold MS_PER_DAY. lia. }
    rewrite Heq. split; [done|].
    split; [|split]; intros ->.
    + by rewrite bool_decide_eq_true_2 by lia.
    + by rewrite bool_decide_eq_true_2 by lia.
    + by rewrite bool_decide_eq_false_2 by lia.
Qed.

Lemma C7_canReceiveOffers_witness :
  canReceiveOffers 200000000 (luna None (Some (consent_flags false true)) (Some 199999000))
  = Return false /\
  canReceiveOffers 200000000 (luna None (Some (consent_flags true true)) None)
  = Return false /\
  canReceiveOffers 200000000
    (luna None (Some (consent_flags true true)) (Some (200000000 - MS_PER_DAY)))
  = Return true /\
  canReceiveOffers 200000000
    (luna None (Some (consent_flags true true)) (Some (200000000 - MS_PER_DAY + 1000)))
  = Return true /\
  canReceiveOffers 200000000
    (luna None (Some (consent_flags true true)) (Some (200000000 - MS_PER_DAY - 1000)))
  = Return false.
Proof.
  destruct (C7_canReceiveOffers 200000000) as (H1 & H2 & H3).
  split; [apply (H1 _ (consent_flags false true)); reflexivity|].
  split; [apply (H2 _ (consent_flags true true)); reflexivity|].
  split.
  { apply (proj1 (proj2
      (H3 (luna None (Some (consent_flags true true))
                (Some (200000000 - MS_PER_DAY)))
          (consent_flags true true) _ eq_refl eq_refl eq_refl))).
    reflexivity. }
  split.
  { apply (proj1 (proj2 (proj2
      (H3 (luna None (Some (consent_flags true true))
                (Some (200000000 - MS_PER_DAY + 1000)))
          (consent_flags true true) _ eq_refl eq_refl eq_refl)))).
    reflexivity. }
  { apply (proj2 (proj2 (proj2
      (H3 (luna None (Some (consent_flags true true))
                (Some (200000000 - MS_PER_DAY - 1000)))
          (consent_flags true true) _ eq_refl eq_refl eq_refl)))).
    reflexivity. }
Defined.

(** ** Phone normalisation *)

Lemma replace_non_digits_digits_of phone :
  replace_non_digits phone = digits_of phone.
Proof.
  unfold digits_of. induction phone as [|c rest IH]; [done|].
  cbn [replace_non_digits list_ascii_of_string List.filter].
  destruct (is_digit c); cbn [string_of_list_ascii]; by rewrite IH.
Qed.

Lemma startsWith_plus_inv phone :
  startsWith_plus phone = true -> phone = String "+" (substring_1 phone).
Proof.
  destruct phone as [|c rest]; [done|].
  destruct c as [[] [] [] [] [] [] [] []]; cbn; congruence.
Qed.

(** C9. Phone normalisation strips the non-digits; ten digits get the
    default country code in front; otherwise an input that began with
    ['+'] is returned with only that ['+'] dropped; otherwise the digits
    are returned. *)
Theorem C9_formatPhoneNumber phone :
  formatPhoneNumber phone = spec_normalize phone.
Proof.
  unfold formatPhoneNumber, spec_normalize.
  rewrite replace_non_digits_digits_of.
  destruct (decide (String.length (digits_of phone) = 10%nat)) as [Hlen|Hlen].
  - by rewrite Hlen.
  - apply Nat.eqb_neq in Hlen. rewrite Hlen.
    destruct (startsWith_plus phone) eqn:Hplus.
    + by rewrite (startsWith_plus_inv phone Hplus) at 2.
    + destruct phone as [|c rest]; [done|].
      destruct c as [[] [] [] [] [] [] [] []]; try reflexivity.
      discriminate Hplus.
Qed.

Example formatPhoneNumber_ten_digits :
  formatPhoneNumber "(55) 1234-5678" = "525512345678".
Proof. reflexivity. Qed.

Example formatPhoneNumber_plus :
  formatPhoneNumber "+1 (202) 555-01" = "1 (202) 555-01".
Proof. reflexivity. Qed.

Example formatPhoneNumber_digits :
  formatPhoneNumber "tel: 044 55 1234 5678" = "0445512345678".
Proof. reflexivity. Qed.

(** ** The gateway client behind the routes *)

Lemma ready_frame env w :
  db (ready env w) = db w /\ outbox (ready env w) = outbox w /\
  clock_now (ready env w) = clock_now w /\
  clock_ticks (ready env w) = clock_ticks w.
Proof.
  unfold ready, ensure_client. destruct (whatsappClient w); [done|].
  unfold new_WhatsAppClient, bind, throw.
  by destruct (is_empty _ || is_empty _).
Qed.

Lemma truthy_or_else x d : truthy x = true -> is_empty (or_else x d) = false.
Proof. by destruct x as [[|c r]|]. Qed.

Lemma ensure_client_ok env w :
  validateEnvironment env = true ->
  ensure_client env w = (Return tt, ready env w) /\
  is_Some (whatsappClient (ready env w)).
Proof.
  intros Henv. unfold validateEnvironment in Henv.
  apply andb_true_iff in Henv as [Henv _].
  apply andb_true_iff in Henv as [Htoken Hid].
  unfold ready, ensure_client.
  destruct (whatsappClient w) as [c|] eqn:Hc; [cbn; rewrite Hc; eauto|].
  unfold new_WhatsAppClient, bind, throw.
  rewrite (truthy_or_else _ _ Htoken), (truthy_or_else _ _ Hid).
  cbn. eauto.
Qed.

Lemma initWhatsApp_ok env next w :
  validateEnvironment env = true ->
  initWhatsApp env next w = next (ready env w).
Proof.
  intros Henv. unfold initWhatsApp, bind, try_catch.
  by rewrite (proj1 (ensure_client_ok env w Henv)).
Qed.

Lemma on_client_ready {A} env (call : M A) w :
  validateEnvironment env = true ->
  on_client call (ready env w) = call (ready env w).
Proof.
  intros Henv. unfold on_client.
  by destruct (proj2 (ensure_client_ok env w Henv)) as [c ->].
Qed.

(** ** The gateway *)

Lemma sendTemplate_run env to name params w :
  sendTemplate env to name params w =
  match provider env (outbox w) (template_payload to name params) with
  | Return r =>
      (Return r,
       logged LOG ("✅ Plantilla " ++ dquote ++ name ++ dquote ++ " enviada a " ++ to)
         (posted (template_payload to name params) w))
  | Throw e =>
      (Throw e,
       logged ERROR ("❌ Error enviando plantilla: " ++ reported_message e)
         (posted (template_payload to name params) w))
  end.
Proof.
  unfold sendTemplate, try_catch, bind, post.
  by destruct (provider env _ _).
Qed.

Lemma sendText_run env to message w :
  sendText env to message w =
  match provider env (outbox w) (text_payload to message) with
  | Return r =>
      (Return r,
       logged LOG ("✅ Mensaje enviado a " ++ to) (posted (text_payload to message) w))
  | Throw e =>
      (Throw e,
       logged ERROR ("❌ Error enviando mensaje: " ++ reported_message e)
         (posted (text_payload to message) w))
  end.
Proof.
  unfold sendText, try_catch, bind, post.
  by destruct (provider env _ _).
Qed.

(** ** Loading a patient *)

Lemma hydrate_run p w : hydrate p w = (Return (loaded p w), after_load p w).
Proof.
  unfold hydrate, loaded, after_load, currentConsent.
  by destruct (consent p).
Qed.

Lemma findById_found env n p w :
  db w !! n = Some p ->
  findById env (ObjectId n) w = (Return (Some (n, loaded p w)), after_load p w).
Proof.
  intros Hp. unfold findById, castObjectId, findOne, bind, ret.
  rewrite Hp. by rewrite hydrate_run.
Qed.

Lemma findById_missing env n w :
  db w !! n = None -> findById env (ObjectId n) w = (Return None, w).
Proof.
  intros Hp. unfold findById, castObjectId, findOne, bind, ret. by rewrite Hp.
Qed.

Lemma findById_malformed env raw w :
  findById env (Malformed raw) w
  = (Throw (CastError (CastError_message env raw)), w).
Proof. reflexivity. Qed.

Lemma loaded_consented p c w :
  consent p = Some c -> loaded p w = p /\ after_load p w = w.
Proof. intros Hc. unfold loaded, after_load. by rewrite Hc. Qed.

Lemma after_load_frame p w :
  db (after_load p w) = db w /\ outbox (after_load p w) = outbox w /\
  whatsappClient (after_load p w) = whatsappClient w /\
  console (after_load p w) = console w.
Proof. unfold after_load. by destruct (consent p). Qed.

(** Loading fills in the consent and nothing else. *)
Lemma loaded_fields p w :
  fullName (loaded p w) = fullName p /\ phone (loaded p w) = phone p /\
  email (loaded p w) = email p /\ petName (loaded p w) = petName p /\
  petType (loaded p w) = petType p /\ petBreed (loaded p w) = petBreed p /\
  petAge (loaded p w) = petAge p /\ petWeight (loaded p w) = petWeight p /\
  nextVaccine (loaded p w) = nextVaccine p /\
  vaccineHistory (loaded p w) = vaccineHistory p /\
  lastInteraction (loaded p w) = lastInteraction p /\
  interactions (loaded p w) = interactions p /\
  preferences (loaded p w) = preferences p /\
  createdAt (loaded p w) = createdAt p /\
  p_updatedAt (loaded p w) = p_updatedAt p.
Proof. unfold loaded. by destruct (consent p). Qed.

Lemma loaded_consent p w : consent (loaded p w) = Some (currentConsent p w).
Proof. unfold loaded, currentConsent. by destruct (consent p) eqn:Hc. Qed.

Lemma loaded_consent_reminders p w :
  consent_reminders (loaded p w) = consent_reminders p.
Proof.
  unfold loaded. destruct (consent p) as [c|] eqn:Hc; [done|].
  unfold consent_reminders, currentConsent. cbn. by rewrite Hc.
Qed.

Lemma loaded_payload env p nv w :
  reminder_payload env (loaded p w) nv = reminder_payload env p nv.
Proof. unfold loaded. by destruct (consent p). Qed.

(** ** Sending a reminder *)

Lemma reading_mono n w : reading n w <= reading (S n) w.
Proof.
  revert w. induction n as [|n IH]; intros w.
  - cbn. lia.
  - apply (IH (snd (newDate w))).
Qed.

Lemma reading_ext n w w' :
  clock_now w = clock_now w' -> clock_ticks w = clock_ticks w' ->
  reading n w = reading n w'.
Proof.
  revert w w'. induction n as [|n IH]; intros w w' Hnow Hticks; [done|].
  cbn. apply IH; cbn; by rewrite ?Hnow, ?Hticks.
Qed.

Lemma reading_ready n env w : reading n (ready env w) = reading n w.
Proof.
  destruct (ready_frame env w) as (_ & _ & Hnow & Hticks).
  by apply reading_ext.
Qed.

Lemma after_load_ext p w w' :
  clock_now w = clock_now w' -> clock_ticks w = clock_ticks w' ->
  clock_now (after_load p w) = clock_now (after_load p w') /\
  clock_ticks (after_load p w) = clock_ticks (after_load p w').
Proof.
  intros Hnow Hticks. unfold after_load.
  destruct (consent p); cbn; by rewrite ?Hnow, ?Hticks.
Qed.

Lemma loaded_ext p w w' :
  clock_now w = clock_now w' -> clock_ticks w = clock_ticks w' ->
  loaded p w = loaded p w'.
Proof.
  intros Hnow Hticks. unfold loaded, currentConsent.
  destruct (consent p); [done|]. cbn. by rewrite Hnow, Hticks.
Qed.

Lemma loaded_ready env p w : loaded p (ready env w) = loaded p w.
Proof.
  destruct (ready_frame env w) as (_ & _ & Hnow & Hticks).
  by apply loaded_ext.
Qed.

Lemma reading_after_load_ready n env p w :
  reading n (after_load p (ready env w)) = reading n (after_load p w).
Proof.
  destruct (ready_frame env w) as (_ & _ & Hnow & Hticks).
  destruct (after_load_ext p _ _ Hnow Hticks). by apply reading_ext.
Qed.

Section ReminderHandler.
Variable env : Env.
Variable id : N.
Variable w : World.

Lemma reminder_handler_not_found :
  db w !! id = None ->
  reminder_handler env (ObjectId id) w = (Return NotFoundError, w).
Proof.
  intros Hp. unfold reminder_handler, try_catch, bind.
  by rewrite findById_missing.
Qed.

Lemma reminder_handler_malformed raw :
  reminder_handler env (Malformed raw) w
  = (Return {| status := 500; body := Failure (CastError_message env raw) |},
     logged ERROR ("❌ Error enviando recordatorio: " ++ CastError_message env raw) w).
Proof. reflexivity. Qed.

Variable p : IPatient.
Hypothesis Hp : db w !! id = Some p.

Lemma reminder_handler_no_vaccine :
  nextVaccine p = None ->
  reminder_handler env (ObjectId id) w
  = (Return NoScheduledVaccineError, after_load p w).
Proof.
  intros Hnv. unfold reminder_handler, try_catch, bind.
  rewrite (findById_found env id p w Hp).
  destruct (loaded_fields p w) as (_&_&_&_&_&_&_&_& -> & _).
  by rewrite Hnv.
Qed.

Variable nv : IVaccine.
Hypothesis Hnv : nextVaccine p = Some nv.

Lemma reminder_handler_consent_denied :
  consent_reminders p = false ->
  reminder_handler env (ObjectId id) w
  = (Return ConsentDeniedError, after_load p w).
Proof.
  intros Hc. unfold reminder_handler, try_catch, bind.
  rewrite (findById_found env id p w Hp).
  destruct (loaded_fields p w) as (_&_&_&_&_&_&_&_& -> & _).
  by rewrite Hnv, loaded_consent_reminders, Hc.
Qed.

Hypothesis Hclient : is_Some (whatsappClient w).
Hypothesis Hconsent : consent_reminders p = true.

(** What the handler does once the three guards are passed. *)
Lemma reminder_handler_sends :
  reminder_handler env (ObjectId id) w =
  match provider env (outbox w) (reminder_payload env p nv) with
  | Throw e =>
      (Return {| status := 500; body := Failure (reported_message e) |},
       logged ERROR ("❌ Error enviando recordatorio: " ++ message_of e)
         (logged ERROR ("❌ Error enviando plantilla: " ++ reported_message e)
            (posted (reminder_payload env p nv) (after_load p w))))
  | Return r =>
      let w1 :=
        logged LOG ("✅ Plantilla " ++ dquote ++ "recordatorio_vacuna" ++ dquote
                    ++ " enviada a " ++ phone p)
          (posted (reminder_payload env p nv) (after_load p w)) in
      let doc :=
        reminded (loaded p w) nv r
          (reading 0 (after_load p w)) (reading 1 (after_load p w)) in
      match save_rejects env doc with
      | Some msg =>
          (Return {| status := 500; body := Failure msg |},
           logged ERROR ("❌ Error enviando recordatorio: " ++ msg)
             (ticked (ticked w1)))
      | None =>
          (Return {| status := 200;
                     body := ReminderSent "Recordatorio enviado exitosamente"
                               (first_message_id r) (fullName p) (v_name nv) |},
           stored id (stamp (createdAt p) (reading 2 (after_load p w)) doc)
             (ticked (ticked (ticked w1))))
      end
  end.
Proof.
  destruct Hclient as [c Hc].
  unfold reminder_handler, try_catch at 1.
  unfold bind at 1. rewrite (findById_found env id p w Hp).
  pose proof (loaded_consent_reminders p w) as Hcr.
  pose proof (loaded_payload env p nv w) as Hpay.
  destruct (after_load_frame p w) as (_ & Hout & Hcl & _).
  destruct (loaded_fields p w)
    as (Hfn & Hph & _ & _ & _ & _ & _ & _ & Hlnv & _ & _ & _ & _ & Hcreated & _).
  revert Hcr Hpay Hfn Hph Hlnv Hcreated Hout Hcl.
  generalize (loaded p w) (after_load p w). intros q w0.
  intros Hcr Hpay Hfn Hph Hlnv Hcreated Hout Hcl.
  cbv beta iota. rewrite Hlnv, Hnv, Hcr, Hconsent.
  cbn [negb]. unfold bind at 1. unfold on_client. rewrite Hcl, Hc.
  rewrite sendTemplate_run. fold (reminder_payload env q nv).
  rewrite Hpay, Hout, Hph.
  destruct (provider env (outbox w) (reminder_payload env p nv)) as [r|e].
  - unfold bind, newDate, save. cbn -[reminder_payload].
    fold (reminded q nv r (clock_now w0) (clock_now (ticked w0))).
    rewrite Hfn, Hcreated.
    destruct (save_rejects env _) as [msg|]; reflexivity.
  - reflexivity.
Qed.
End ReminderHandler.

Section ReminderRoute.
Variable env : Env.
Variable id : N.
Variable w : World.
Hypothesis Henv : validateEnvironment env = true.

Let result := router_post_reminder env (ObjectId id) w.

Lemma reminder_refused res w' :
  reminder_handler env (ObjectId id) (ready env w) = (Return res, w') ->
  db w' = db (ready env w) -> outbox w' = outbox (ready env w) ->
  fst result = Return res /\ db (snd result) = db w /\
  outbox (snd result) = outbox w.
Proof.
  intros Hrun Hdb' Hout'. subst result. unfold router_post_reminder.
  rewrite initWhatsApp_ok, Hrun by done.
  destruct (ready_frame env w) as (Hdb & Hout & _). cbn [fst snd].
  by rewrite Hdb', Hout', Hdb, Hout.
Qed.

Variable p : IPatient.
Variable nv : IVaccine.
Hypothesis Hp : db w !! id = Some p.
Hypothesis Hnv : nextVaccine p = Some nv.
Hypothesis Hconsent : consent_reminders p = true.

Lemma reminder_posted :
  outbox (snd result) = (outbox w ++ [reminder_payload env p nv])%list.
Proof.
  subst result. unfold router_post_reminder.
  destruct (ready_frame env w) as (Hdb & Hout & _).
  destruct (after_load_frame p (ready env w)) as (_ & Hout0 & _).
  rewrite initWhatsApp_ok by done.
  rewrite (reminder_handler_sends env id (ready env w) p) with (nv := nv);
    [|by rewrite Hdb|done|by apply ensure_client_ok|done].
  destruct (provider env _ _) as [r|e]; [|by cbn; rewrite Hout0, Hout].
  cbn zeta. destruct (save_rejects env _); by cbn; rewrite Hout0, Hout.
Qed.

Lemma reminder_failed e :
  provider env (outbox w) (reminder_payload env p nv) = Throw e ->
  fst result = Return {| status := 500; body := Failure (reported_message e) |} /\
  db (snd result) = db w.
Proof.
  intros Hprov. subst result. unfold router_post_reminder.
  destruct (ready_frame env w) as (Hdb & Hout & _).
  destruct (after_load_frame p (ready env w)) as (Hdb0 & _).
  rewrite initWhatsApp_ok by done.
  rewrite (reminder_handler_sends env id (ready env w) p) with (nv := nv);
    [|by rewrite Hdb|done|by apply ensure_client_ok|done].
  rewrite Hout, Hprov. cbn. by rewrite Hdb0, Hdb.
Qed.

Lemma reminder_succeeded r :
  provider env (outbox w) (reminder_payload env p nv) = Return r ->
  save_rejects env
    (reminded (loaded p w) nv r
       (reading 0 (after_load p w)) (reading 1 (after_load p w))) = None ->
  fst result
  = Return {| status := 200;
              body := ReminderSent "Recordatorio enviado exitosamente"
                        (first_message_id r) (fullName p) (v_name nv) |} /\
  db (snd result)
  = <[id := stamp (createdAt p) (reading 2 (after_load p w))
              (reminded (loaded p w) nv r
                 (reading 0 (after_load p w)) (reading 1 (after_load p w)))]>
      (db w) /\
  is_Some (whatsappClient (snd result)) /\
  clock_now (snd result) = reading 3 (after_load p w).
Proof.
  intros Hprov Hsave. subst result. unfold router_post_reminder.
  destruct (ready_frame env w) as (Hdb & Hout & Hnow & Hticks).
  destruct (after_load_frame p (ready env w)) as (Hdb0 & Hout0 & Hcl0 & _).
  rewrite initWhatsApp_ok by done.
  rewrite (reminder_handler_sends env id (ready env w) p) with (nv := nv);
    [|by rewrite Hdb|done|by apply ensure_client_ok|done].
  rewrite Hout, Hprov. cbn zeta.
  rewrite !reading_after_load_ready, loaded_ready, Hsave. cbn [fst snd].
  split; [done|]. split; [by cbn; rewrite Hdb0, Hdb|].
  split; [cbn; rewrite Hcl0; by apply ensure_client_ok|].
  rewrite <- (reading_after_load_ready 3 env p w). reflexivity.
Qed.
End ReminderRoute.

Lemma reminder_sent_status env id w p nv :
  validateEnvironment env = true ->
  db w !! id = Some p -> nextVaccine p = Some nv ->
  consent_reminders p = true ->
  exists res, fst (router_post_reminder env (ObjectId id) w) = Return res /\
              (status res = 200 \/ status res = 500).
Proof.
  intros Henv Hp Hnv Hconsent. unfold router_post_reminder.
  destruct (ready_frame env w) as (Hdb & _).
  rewrite initWhatsApp_ok by done.
  rewrite (reminder_handler_sends env id (ready env w) p) with (nv := nv);
    [|by rewrite Hdb|done|by apply ensure_client_ok|done].
  destruct (provider env _ _) as [r|e]; [|cbn; eauto].
  cbn zeta. destruct (save_rejects env _); cbn; eauto.
Qed.

Lemma reminder_malformed env raw w :
  validateEnvironment env = true ->
  fst (router_post_reminder env (Malformed raw) w)
  = Return {| status := 500; body := Failure (CastError_message env raw) |} /\
  db (snd (router_post_reminder env (Malformed raw) w)) = db w /\
  outbox (snd (router_post_reminder env (Malformed raw) w)) = outbox w.
Proof.
  intros Henv. unfold router_post_reminder.
  rewrite initWhatsApp_ok, reminder_handler_malformed by done.
  destruct (ready_frame env w) as (Hdb & Hout & _). done.
Qed.

(** C3 (as amended). For an identifier that is the text of an ObjectId,
    sending a reminder is refused with [NotFoundError] when no patient
    has it, with [NoScheduledVaccineError] when the patient has no
    [nextVaccine], and with [ConsentDeniedError] when
    [consent.reminders] is false (the vaccine being looked at first: a
    patient with neither is refused too, with the vaccine's error).  For
    an identifier that is not the text of an ObjectId the query throws
    and the route answers 500 with the cast error's message, not
    [NotFoundError].  In each case the database is left as it was (no
    interaction record is appended) and nothing is posted to the
    provider.  A patient without a consent record is not refused: the
    reminder is posted. *)
Theorem C3_sendReminder_refusals env w :
  validateEnvironment env = true ->
  let result id := router_post_reminder env id w in
  (forall id, db w !! id = None ->
   fst (result (ObjectId id)) = Return NotFoundError /\
   db (snd (result (ObjectId id))) = db w /\
   outbox (snd (result (ObjectId id))) = outbox w) /\
  (forall raw,
   fst (result (Malformed raw))
   = Return {| status := 500; body := Failure (CastError_message env raw) |} /\
   db (snd (result (Malformed raw))) = db w /\
   outbox (snd (result (Malformed raw))) = outbox w) /\
  (forall id p, db w !! id = Some p -> nextVaccine p = None ->
   fst (result (ObjectId id)) = Return NoScheduledVaccineError /\
   db (snd (result (ObjectId id))) = db w /\
   outbox (snd (result (ObjectId id))) = outbox w) /\
  (forall id p c,
   db w !! id = Some p -> consent p = Some c -> reminders c = false ->
   (exists res,
      fst (result (ObjectId id)) = Return res /\ status res = 400 /\
      (is_Some (nextVaccine p) -> res = ConsentDeniedError)) /\
   db (snd (result (ObjectId id))) = db w /\
   outbox (snd (result (ObjectId id))) = outbox w) /\
  (forall id p nv,
   db w !! id = Some p -> nextVaccine p = Some nv -> consent p = None ->
   fst (result (ObjectId id)) <> Return ConsentDeniedError /\
   outbox (snd (result (ObjectId id)))
   = (outbox w ++ [reminder_payload env p nv])%list).
Proof.
  intros Henv result. subst result. cbn beta.
  destruct (ready_frame env w) as (Hdb & _).
  split; [|split; [|split; [|split]]].
  - intros id Hnone. apply (reminder_refused env id w Henv _ (ready env w)); [|done..].
    apply reminder_handler_not_found. by rewrite Hdb.
  - intros raw. by apply reminder_malformed.
  - intros id p Hp Hnv.
    destruct (after_load_frame p (ready env w)) as (Hdb0 & Hout0 & _).
    apply (reminder_refused env id w Henv _ (after_load p (ready env w)));
      [|done..].
    apply (reminder_handler_no_vaccine env id _ p); [by rewrite Hdb|done].
  - intros id p c Hp Hc Hr.
    destruct (after_load_frame p (ready env w)) as (Hdb0 & Hout0 & _).
    destruct (nextVaccine p) as [nv|] eqn:Hnv.
    + destruct (reminder_refused env id w Henv ConsentDeniedError
                  (after_load p (ready env w))) as (Hres & Hrest); [|done..|].
      { apply (reminder_handler_consent_denied env id _ p) with (nv := nv);
          [by rewrite Hdb|done|].
        unfold consent_reminders. by rewrite Hc. }
      split; [|exact Hrest]. exists ConsentDeniedError. by rewrite Hres.
    + destruct (reminder_refused env id w Henv NoScheduledVaccineError
                  (after_load p (ready env w))) as (Hres & Hrest); [|done..|].
      { apply (reminder_handler_no_vaccine env id _ p); [by rewrite Hdb|done]. }
      split; [|exact Hrest]. exists NoScheduledVaccineError.
      rewrite Hres. split; [done|]. split; [done|]. by intros [? ?].
  - intros id p nv Hp Hnv Hc.
    assert (consent_reminders p = true) as Hallowed
      by (unfold consent_reminders; by rewrite Hc).
    split; [|by apply reminder_posted].
    destruct (reminder_sent_status env id w p nv Henv Hp Hnv Hallowed)
      as (res & Hres & Hstatus).
    rewrite Hres. intros [= ->]. cbn in Hstatus. lia.
Qed.

Lemma C3_sendReminder_refusals_witness :
  let env := clinic (fun _ _ => Return (accepted "wamid.HBgM")) (fun _ => None) in
  let w := office waiting_room [] in
  fst (router_post_reminder env (ObjectId 9) w) = Return NotFoundError /\
  fst (router_post_reminder env (ObjectId 1) w) = Return NoScheduledVaccineError /\
  fst (router_post_reminder env (ObjectId 2) w) = Return ConsentDeniedError /\
  outbox (snd (router_post_reminder env (ObjectId 2) w)) = [] /\
  outbox (snd (router_post_reminder env (ObjectId 3) w))
  = [reminder_payload env legacy (rabies (ValidDate 1767571200000))].
Proof.
  intros env w.
  destruct (C3_sendReminder_refusals env w eq_refl) as (H1 & _ & H2 & H3 & H4).
  split; [apply (H1 9%N); reflexivity|].
  split; [apply (H2 1%N unscheduled); reflexivity|].
  destruct (H3 2%N opted_out (consent_flags false false)
               eq_refl eq_refl eq_refl) as ((res & Hres & _ & Hdenied) & _ & Hout).
  split; [rewrite Hres; f_equal; apply Hdenied; by eexists|].
  split; [exact Hout|].
  apply (H4 3%N legacy
            (rabies (ValidDate 1767571200000)) eq_refl eq_refl eq_refl).
Defined.

(** C3 as stated fails for an identifier that is not the text of an
    ObjectId: no patient has it, and the reply is the 500 of the cast
    error, not [NotFoundError]. *)
Lemma C3_counterexample :
  let env := clinic (fun _ _ => Return (accepted "wamid.HBgM")) (fun _ => None) in
  let result := router_post_reminder env (Malformed "luna") (office waiting_room []) in
  fst result
  = Return {| status := 500;
              body := Failure ("Cast to ObjectId failed for value " ++ dquote
                               ++ "luna" ++ dquote ++ " (type string) at path "
                               ++ dquote ++ "_id" ++ dquote ++ " for model "
                               ++ dquote ++ "Patient" ++ dquote) |} /\
  fst result <> Return NotFoundError /\
  db (snd result) = waiting_room /\ outbox (snd result) = [].
Proof.
  intros env result.
  destruct (reminder_malformed env "luna" (office waiting_room []) eq_refl)
    as (Hres & Hdb & Hout).
  fold result in Hres, Hdb, Hout.
  split; [exact Hres|]. split; [by rewrite Hres|]. by split.
Qed.

(** C4 (as amended). When the template send fails, the gateway rethrows
    the error it caught unchanged, and the route answers 500 with the
    provider's error message verbatim when the provider gave a non-empty
    one, else with the transport error's message; the provider's numeric
    code is not part of the reply.  No interaction record is appended,
    the database is unchanged, and the request was posted once. *)
Theorem C4_gateway_failure env id w p nv e :
  validateEnvironment env = true ->
  db w !! id = Some p -> nextVaccine p = Some nv ->
  consent_reminders p = true ->
  provider env (outbox w) (reminder_payload env p nv) = Throw e ->
  let result := router_post_reminder env (ObjectId id) w in
  fst (sendTemplate env (phone p) "recordatorio_vacuna"
         (reminder_parameters env p nv) (ready env w)) = Throw e /\
  fst result
  = Return {| status := 500;
              body := Failure (or_else (response_error_message e) (message_of e)) |} /\
  (forall m r, e = AxiosError m (Some r) -> we_message (error_of r) <> "" ->
     fst result
     = Return {| status := 500; body := Failure (we_message (error_of r)) |}) /\
  (forall m, e = AxiosError m None ->
     fst result = Return {| status := 500; body := Failure m |}) /\
  db (snd result) = db w /\
  outbox (snd result) = (outbox w ++ [reminder_payload env p nv])%list.
Proof.
  intros Henv Hp Hnv Hconsent Hprov result.
  destruct (reminder_failed env id w Henv p nv Hp Hnv Hconsent e Hprov)
    as (Hres & Hdb).
  fold result in Hres, Hdb.
  split.
  { rewrite sendTemplate_run. fold (reminder_payload env p nv).
    destruct (ready_frame env w) as (_ & Hout & _). by rewrite Hout, Hprov. }
  split; [exact Hres|]. split; [|split; [|split]].
  - intros m r -> Hmsg. rewrite Hres. unfold reported_message. cbn.
    by destruct (we_message (error_of r)).
  - intros m ->. by rewrite Hres.
  - exact Hdb.
  - by apply reminder_posted.
Qed.

Lemma C4_gateway_failure_witness :
  let env := clinic (fun _ _ => Throw (undeliverable 131026)) (fun _ => None) in
  let result := router_post_reminder env (ObjectId 4) (office waiting_room []) in
  fst result = Return {| status := 500; body := Failure "Message undeliverable" |} /\
  db (snd result) = waiting_room /\
  outbox (snd result)
  = [reminder_payload env luna_due (rabies (ValidDate 1767571200000))].
Proof.
  intros env result.
  destruct (C4_gateway_failure env 4 (office waiting_room []) luna_due
              (rabies (ValidDate 1767571200000)) (undeliverable 131026)
              eq_refl eq_refl eq_refl eq_refl eq_refl)
    as (_ & Hres & _ & _ & Hdb & Hout).
  split; [exact Hres|]. split; [exact Hdb|exact Hout].
Defined.

(** C4 as stated fails: the reply does not carry the provider's code.
    Two failures that differ only in the code get the same reply, so no
    reading of the reply recovers it. *)
Lemma C4_counterexample :
  ~ exists code_of_reply : Response -> Z,
      forall code,
        match fst (router_post_reminder
                     (clinic (fun _ _ => Throw (undeliverable code)) (fun _ => None))
                     (ObjectId 4) (office waiting_room [])) with
        | Return res => code_of_reply res = code
        | Throw _ => False
        end.
Proof.
  intros [code_of_reply Hcode].
  assert (forall code,
            fst (router_post_reminder
                   (clinic (fun _ _ => Throw (undeliverable code)) (fun _ => None))
                   (ObjectId 4) (office waiting_room []))
            = Return {| status := 500; body := Failure "Message undeliverable" |})
    as Hreply.
  { intros code.
    exact (proj1 (reminder_failed
                    (clinic (fun _ _ => Throw (undeliverable code)) (fun _ => None))
                    4 (office waiting_room []) eq_refl luna_due
                    (rabies (ValidDate 1767571200000)) eq_refl eq_refl eq_refl
                    (undeliverable code) eq_refl)). }
  pose proof (Hcode 131026) as H1. pose proof (Hcode 100) as H2.
  rewrite Hreply in H1, H2. congruence.
Qed.

(** C2 (as amended). For a patient with a scheduled vaccine and reminders
    consent, when the provider accepts the template and the save goes
    through, the route answers 200 and the stored patient gains exactly
    one interaction record, of type [REMINDER_SENT] and status [SENT],
    whose [messageId] is the provider's returned identifier: the
    identifier of the first message the response lists, and none when
    the response lists no message.  The record's timestamp is the first
    reading of the clock after the patient was loaded; [lastInteraction]
    is set from the next reading, so it equals the record's timestamp
    exactly when the clock did not advance between the two. *)
Theorem C2_reminder_recorded env id w p nv r :
  validateEnvironment env = true ->
  db w !! id = Some p -> nextVaccine p = Some nv ->
  consent_reminders p = true ->
  provider env (outbox w) (reminder_payload env p nv) = Return r ->
  save_rejects env
    (reminded (loaded p w) nv r
       (reading 0 (after_load p w)) (reading 1 (after_load p w))) = None ->
  let result := router_post_reminder env (ObjectId id) w in
  let record :=
    {| i_type := REMINDER_SENT;
       i_timestamp := Some (reading 0 (after_load p w));
       i_message := Some ("Recordatorio de vacuna: " ++ v_name nv);
       i_response := None;
       i_messageId := option_map msg_id (head (r_messages r));
       i_status := Some SENT |} in
  exists p',
    fst result
    = Return {| status := 200;
                body := ReminderSent "Recordatorio enviado exitosamente"
                          (i_messageId record) (fullName p) (v_name nv) |} /\
    db (snd result) = <[id := p']> (db w) /\
    interactions p' = (interactions p ++ [record])%list /\
    (forall m rest, r_messages r = m :: rest ->
       i_messageId record = Some (msg_id m)) /\
    (r_messages r = [] -> i_messageId record = None) /\
    lastInteraction p' = Some (reading 1 (after_load p w)) /\
    (lastInteraction p' = i_timestamp record <->
     reading 1 (after_load p w) = reading 0 (after_load p w)) /\
    (forall c, consent p = Some c ->
       i_timestamp record = Some (reading 0 w) /\
       lastInteraction p' = Some (reading 1 w)).
Proof.
  intros Henv Hp Hnv Hconsent Hprov Hsave result record.
  destruct (reminder_succeeded env id w Henv p nv Hp Hnv Hconsent r Hprov Hsave)
    as (Hres & Hdb & _).
  destruct (loaded_fields p w) as (_&_&_&_&_&_&_&_&_&_&_& Hint &_).
  eexists. split; [exact Hres|]. split; [exact Hdb|].
  split.
  { cbn [interactions stamp reminded set_lastInteraction set_interactions].
    by rewrite Hint. }
  split; [intros m rest Hm; subst record; cbn; by rewrite Hm|].
  split; [intros Hm; subst record; cbn; by rewrite Hm|].
  split; [reflexivity|]. split.
  - cbn [lastInteraction stamp reminded set_lastInteraction record i_timestamp].
    split; [intros [= H]; exact H|intros H; f_equal; exact H].
  - intros c Hc. destruct (loaded_consented p c w Hc) as (_ & Ha).
    subst record. cbn [i_timestamp lastInteraction stamp reminded
                       set_lastInteraction]. by rewrite Ha.
Qed.

Lemma C2_reminder_recorded_witness :
  let env := clinic (fun _ _ => Return (accepted "wamid.HBgM")) (fun _ => None) in
  let result :=
    router_post_reminder env (ObjectId 4) (office waiting_room [0%N; 3%N]) in
  exists p',
    fst result
    = Return {| status := 200;
                body := ReminderSent "Recordatorio enviado exitosamente"
                          (Some "wamid.HBgM") "Ana Torres" "Rabia" |} /\
    db (snd result) = <[4%N := p']> waiting_room /\
    interactions p'
    = [ {| i_type := REMINDER_SENT;
           i_timestamp := Some 1767225600000;
           i_message := Some "Recordatorio de vacuna: Rabia";
           i_response := None;
           i_messageId := Some "wamid.HBgM";
           i_status := Some SENT |} ] /\
    lastInteraction p' = Some 1767225600000.
Proof.
  intros env result.
  destruct (C2_reminder_recorded env 4 (office waiting_room [0%N; 3%N]) luna_due
              (rabies (ValidDate 1767571200000)) (accepted "wamid.HBgM")
              eq_refl eq_refl eq_refl eq_refl eq_refl eq_refl)
    as (p' & Hres & Hdb & Hint & _ & _ & Hlast & _).
  exists p'. split; [exact Hres|]. split; [exact Hdb|].
  split; [exact Hint|exact Hlast].
Defined.

(** C2 as stated fails on two points.  The record's timestamp and
    [lastInteraction] come from two readings of the clock, and differ
    when it advances between them.  And the [messageId] is read with
    [response.messages[0]?.id]: when the provider's response lists no
    message the reminder still succeeds and the record has no
    [messageId]. *)
Lemma C2_counterexample :
  (let env := clinic (fun _ _ => Return (accepted "wamid.HBgM")) (fun _ => None) in
   let result :=
     router_post_reminder env (ObjectId 4) (office waiting_room [1%N]) in
   exists p' record,
     fst result
     = Return {| status := 200;
                 body := ReminderSent "Recordatorio enviado exitosamente"
                           (Some "wamid.HBgM") "Ana Torres" "Rabia" |} /\
     db (snd result) !! 4%N = Some p' /\
     interactions p' = [record] /\
     i_timestamp record = Some 1767225600000 /\
     lastInteraction p' = Some 1767225600001 /\
     lastInteraction p' <> i_timestamp record) /\
  (let env := clinic (fun _ _ => Return unlisted) (fun _ => None) in
   let result :=
     router_post_reminder env (ObjectId 4) (office waiting_room []) in
   exists p' record,
     fst result
     = Return {| status := 200;
                 body := ReminderSent "Recordatorio enviado exitosamente"
                           None "Ana Torres" "Rabia" |} /\
     db (snd result) !! 4%N = Some p' /\
     interactions p' = [record] /\
     i_type record = REMINDER_SENT /\ i_status record = Some SENT /\
     i_messageId record = None).
Proof.
  split.
  - intros env result.
    destruct (reminder_succeeded env 4 (office waiting_room [1%N]) eq_refl luna_due
                (rabies (ValidDate 1767571200000)) eq_refl eq_refl eq_refl
                (accepted "wamid.HBgM") eq_refl eq_refl)
      as (Hres & Hdb & _).
    eexists _, _. split; [exact Hres|].
    split; [fold result in Hdb; rewrite Hdb; apply lookup_insert_eq|].
    split; [reflexivity|]. split; [reflexivity|]. split; [reflexivity|].
    cbn. discriminate.
  - intros env result.
    destruct (reminder_succeeded env 4 (office waiting_room []) eq_refl luna_due
                (rabies (ValidDate 1767571200000)) eq_refl eq_refl eq_refl
                unlisted eq_refl eq_refl)
      as (Hres & Hdb & _).
    eexists _, _. split; [exact Hres|].
    split; [fold result in Hdb; rewrite Hdb; apply lookup_insert_eq|].
    split; [reflexivity|]. done.
Qed.

(** C10. A reminder that went out leaves [nextVaccine] and
    [vaccineHistory] of the stored patient as they were and the patient
    with a consent record that allows reminders, so the patient stays
    eligible: a second request for the same patient passes the guards
    again and, when the provider accepts and the save goes through,
    appends one more interaction record. *)
Theorem C10_reminder_keeps_schedule env id w p nv r :
  validateEnvironment env = true ->
  db w !! id = Some p -> nextVaccine p = Some nv ->
  consent_reminders p = true ->
  provider env (outbox w) (reminder_payload env p nv) = Return r ->
  save_rejects env
    (reminded (loaded p w) nv r
       (reading 0 (after_load p w)) (reading 1 (after_load p w))) = None ->
  let w' := snd (router_post_reminder env (ObjectId id) w) in
  exists p',
    db w' !! id = Some p' /\
    nextVaccine p' = nextVaccine p /\
    vaccineHistory p' = vaccineHistory p /\
    (exists c', consent p' = Some c' /\ reminders c' = true) /\
    length (interactions p') = S (length (interactions p)) /\
    forall r',
      provider env (outbox w') (reminder_payload env p' nv) = Return r' ->
      save_rejects env (reminded p' nv r' (reading 0 w') (reading 1 w')) = None ->
      exists res p'',
        fst (router_post_reminder env (ObjectId id) w') = Return res /\
        status res = 200 /\
        db (snd (router_post_reminder env (ObjectId id) w')) !! id = Some p'' /\
        nextVaccine p'' = nextVaccine p /\
        vaccineHistory p'' = vaccineHistory p /\
        length (interactions p'') = S (S (length (interactions p))).
Proof.
  intros Henv Hp Hnv Hconsent Hprov Hsave w'.
  destruct (reminder_succeeded env id w Henv p nv Hp Hnv Hconsent r Hprov Hsave)
    as (_ & Hdb & _).
  fold w' in Hdb.
  destruct (loaded_fields p w)
    as (_&_&_&_&_&_&_&_& Hlnv & Hhist &_& Hint &_).
  pose proof (loaded_consent p w) as Hlc.
  pose proof (loaded_consent_reminders p w) as Hlr.
  set (p' := stamp (createdAt p) (reading 2 (after_load p w))
               (reminded (loaded p w) nv r
                  (reading 0 (after_load p w)) (reading 1 (after_load p w))))
    in Hdb.
  assert (db w' !! id = Some p') as Hp' by (rewrite Hdb; apply lookup_insert_eq).
  assert (nextVaccine p' = Some nv) as Hnv' by (cbn; by rewrite Hlnv).
  assert (consent p' = Some (currentConsent p w)) as Hc' by exact Hlc.
  assert (consent_reminders p' = true) as Hconsent'.
  { unfold consent_reminders in *. rewrite Hc'. rewrite Hlc in Hlr.
    by rewrite Hlr. }
  destruct (loaded_consented p' _ w' Hc') as (Hsame & Hw').
  exists p'. split; [exact Hp'|].
  split; [by rewrite Hnv', Hnv|]. split; [exact Hhist|].
  split.
  { eexists. split; [exact Hc'|]. unfold consent_reminders in Hconsent'.
    by rewrite Hc' in Hconsent'. }
  split; [cbn; rewrite Hint, length_app; cbn; lia|].
  intros r' Hprov' Hsave'.
  destruct (reminder_succeeded env id w' Henv p' nv Hp' Hnv' Hconsent' r' Hprov')
    as (Hres' & Hdb' & _); [by rewrite Hsame, Hw'|].
  rewrite Hsame, Hw' in Hdb'.
  eexists _, _. split; [exact Hres'|]. split; [reflexivity|].
  split; [rewrite Hdb'; apply lookup_insert_eq|].
  split; [cbn; by rewrite Hlnv|]. split; [exact Hhist|].
  cbn. rewrite Hint, !length_app. cbn. lia.
Qed.

Lemma C10_reminder_keeps_schedule_witness :
  let env := clinic (fun _ _ => Return (accepted "wamid.HBgM")) (fun _ => None) in
  let w' := snd (router_post_reminder env (ObjectId 4) (office waiting_room [2%N])) in
  exists p' p'',
    db w' !! 4%N = Some p' /\
    nextVaccine p' = Some (rabies (ValidDate 1767571200000)) /\
    db (snd (router_post_reminder env (ObjectId 4) w')) !! 4%N = Some p'' /\
    nextVaccine p'' = Some (rabies (ValidDate 1767571200000)) /\
    length (interactions p'') = 2%nat.
Proof.
  intros env w'.
  destruct (C10_reminder_keeps_schedule env 4 (office waiting_room [2%N]) luna_due
              (rabies (ValidDate 1767571200000)) (accepted "wamid.HBgM")
              eq_refl eq_refl eq_refl eq_refl eq_refl eq_refl)
    as (p' & Hp' & Hnv' & _ & _ & _ & Hagain).
  destruct (Hagain (accepted "wamid.HBgM") eq_refl eq_refl)
    as (res & p'' & _ & _ & Hp'' & Hnv'' & _ & Hlen).
  exists p', p''. split; [exact Hp'|]. split; [exact Hnv'|].
  split; [exact Hp''|]. split; [exact Hnv''|exact Hlen].
Defined.

(** ** Updating consent *)

Lemma set_consent_loaded p w c :
  set_consent (loaded p w) c = set_consent p c.
Proof. unfold loaded. by destruct (consent p). Qed.

(** What the consent route does for a stored patient whose save goes
    through. *)
Lemma put_consent_run env id w p data :
  db w !! id = Some p ->
  save_rejects env (set_consent p (new_consent p data w)) = None ->
  router_put_consent env (ObjectId id) data w
  = (Return {| status := 200;
               body := ConsentUpdated "Consentimiento actualizado"
                         (new_consent p data w) |},
     stored id
       (stamp (createdAt p)
          (match consent p with Some _ => reading 1 w | None => reading 3 w end)
          (set_consent p (new_consent p data w)))
       (match consent p with
        | Some _ => ticked (ticked w)
        | None => ticked (ticked (ticked (ticked w)))
        end)).
Proof.
  intros Hp Hsave.
  unfold router_put_consent, try_catch. unfold bind at 1.
  rewrite (findById_found env id p w Hp). cbv beta iota.
  rewrite loaded_consent. unfold bind at 1. unfold ret at 1.
  unfold bind at 1. unfold newDate at 1. cbv beta iota.
  assert (merge_consent (currentConsent p w) data (clock_now (after_load p w))
          = new_consent p data w) as ->.
  { unfold new_consent, consent_update_time, after_load.
    by destruct (consent p). }
  rewrite set_consent_loaded. unfold bind, save. rewrite Hsave.
  unfold newDate, put_document, after_load.
  by destruct (consent p).
Qed.

Lemma put_consent_saved env id w p data :
  db w !! id = Some p ->
  save_rejects env (set_consent p (new_consent p data w)) = None ->
  exists t,
    router_put_consent env (ObjectId id) data w
    = (Return {| status := 200;
                 body := ConsentUpdated "Consentimiento actualizado"
                           (new_consent p data w) |},
       stored id (stamp (createdAt p) t (set_consent p (new_consent p data w)))
         (match consent p with
          | Some _ => ticked (ticked w)
          | None => ticked (ticked (ticked (ticked w)))
          end)) /\
    consent_update_time p w <= t.
Proof.
  intros Hp Hsave. rewrite (put_consent_run env id w p data Hp Hsave).
  eexists. split; [reflexivity|]. unfold consent_update_time.
  destruct (consent p); cbn; lia.
Qed.

Lemma put_consent_refused_run env id w p data msg :
  db w !! id = Some p ->
  save_rejects env (set_consent p (new_consent p data w)) = Some msg ->
  router_put_consent env (ObjectId id) data w
  = (Return {| status := 500;
               body := Failure ("Error al actualizar consentimiento: " ++ msg) |},
     logged ERROR ("❌ Error actualizando consentimiento: " ++ msg)
       (ticked (after_load p w))).
Proof.
  intros Hp Hsave.
  unfold router_put_consent, try_catch. unfold bind at 1.
  rewrite (findById_found env id p w Hp). cbv beta iota.
  rewrite loaded_consent. unfold bind at 1. unfold ret at 1.
  unfold bind at 1. unfold newDate at 1. cbv beta iota.
  assert (merge_consent (currentConsent p w) data (clock_now (after_load p w))
          = new_consent p data w) as ->.
  { unfold new_consent, consent_update_time, after_load.
    by destruct (consent p). }
  rewrite set_consent_loaded. unfold bind, save. by rewrite Hsave.
Qed.

Lemma put_consent_refused env id w p data msg :
  db w !! id = Some p ->
  save_rejects env (set_consent p (new_consent p data w)) = Some msg ->
  fst (router_put_consent env (ObjectId id) data w)
  = Return {| status := 500;
              body := Failure ("Error al actualizar consentimiento: " ++ msg) |} /\
  db (snd (router_put_consent env (ObjectId id) data w)) = db w /\
  outbox (snd (router_put_consent env (ObjectId id) data w)) = outbox w.
Proof.
  intros Hp Hsave. rewrite (put_consent_refused_run env id w p data msg Hp Hsave).
  destruct (after_load_frame p w) as (Hdb & Hout & _). done.
Qed.

(** C5. For an existing patient, the consent update (when the save goes
    through) stores a consent whose flags are those of the request where
    present and the previous ones (the default ones, for a patient
    without consent record) where absent; [updatedAt] is the clock
    reading of the update and [givenAt] is kept; the rest of the patient
    is untouched.  In particular [{marketing: true}] on a default consent
    keeps [reminders] and [privacy] true and only turns [marketing] on. *)
Theorem C5_updateConsent env id w p data :
  db w !! id = Some p ->
  save_rejects env (set_consent p (new_consent p data w)) = None ->
  let result := router_put_consent env (ObjectId id) data w in
  exists c' p',
    fst result
    = Return {| status := 200;
                body := ConsentUpdated "Consentimiento actualizado" c' |} /\
    db (snd result) = <[id := p']> (db w) /\
    consent p' = Some c' /\
    marketing c' = default (marketing (currentConsent p w)) (cd_marketing data) /\
    reminders c' = default (reminders (currentConsent p w)) (cd_reminders data) /\
    privacy c' = default (privacy (currentConsent p w)) (cd_privacy data) /\
    (forall c, consent p = Some c ->
       currentConsent p w = c /\ givenAt c' = givenAt c /\
       updatedAt c' = clock_now w) /\
    (consent p = None ->
       marketing (currentConsent p w) = false /\
       reminders (currentConsent p w) = true /\
       privacy (currentConsent p w) = true /\
       givenAt c' = clock_now w /\ givenAt c' <= updatedAt c') /\
    (fullName p' = fullName p /\ phone p' = phone p /\
     petName p' = petName p /\ nextVaccine p' = nextVaccine p /\
     vaccineHistory p' = vaccineHistory p /\
     lastInteraction p' = lastInteraction p /\
     interactions p' = interactions p) /\
    (forall c, consent p = Some c ->
       marketing c = false -> reminders c = true -> privacy c = true ->
       data = {| cd_marketing := Some true; cd_reminders := None;
                 cd_privacy := None |} ->
       marketing c' = true /\ reminders c' = true /\ privacy c' = true /\
       givenAt c' = givenAt c).
Proof.
  intros Hp Hsave result.
  destruct (put_consent_saved env id w p data Hp Hsave) as (t & Hrun & Ht).
  subst result. rewrite Hrun. clear Hrun Hsave.
  exists (new_consent p data w),
    (stamp (createdAt p) t (set_consent p (new_consent p data w))).
  split; [reflexivity|].
  split; [by destruct (consent p)|].
  split; [reflexivity|].
  split; [reflexivity|]. split; [reflexivity|]. split; [reflexivity|].
  unfold new_consent, currentConsent, consent_update_time.
  split; [|split; [|split]].
  - intros c Hc. by rewrite Hc.
  - intros Hc. rewrite Hc. cbn. repeat split; lia.
  - done.
  - intros c Hc Hm Hr Hpr ->. rewrite Hc. cbn. by rewrite Hr, Hpr.
Qed.

Lemma C5_updateConsent_witness :
  let env := clinic (fun _ _ => Return (accepted "wamid.HBgM")) (fun _ => None) in
  let data := {| cd_marketing := Some true; cd_reminders := None;
                 cd_privacy := None |} in
  let result := router_put_consent env (ObjectId 1) data (office waiting_room [5%N]) in
  exists c' p',
    fst result
    = Return {| status := 200;
                body := ConsentUpdated "Consentimiento actualizado" c' |} /\
    db (snd result) = <[1%N := p']> waiting_room /\
    consent p' = Some c' /\
    marketing c' = true /\ reminders c' = true /\ privacy c' = true /\
    givenAt c' = 500 /\ updatedAt c' = 1767225600000.
Proof.
  intros env data result.
  destruct (C5_updateConsent env 1 (office waiting_room [5%N])
              unscheduled data
              eq_refl eq_refl)
    as (c' & p' & Hres & Hdb & Hc' & _ & _ & _ & Hdates & _ & _ & Hflags).
  destruct (Hflags (consent_flags false true) eq_refl eq_refl eq_refl eq_refl eq_refl)
    as (Hm & Hr & Hp & Hg).
  destruct (Hdates (consent_flags false true) eq_refl) as (_ & _ & Hu).
  exists c', p'. repeat (split; [assumption|]). exact Hu.
Defined.

(** ** Scheduling a vaccine *)

Lemma vaccine_guard data :
  negb (truthy (vd_name data)) || negb (truthy (vd_date data))
  || negb (truthy (vd_time data)) || negb (truthy (vd_location data))
  = negb (vaccine_complete data).
Proof.
  unfold vaccine_complete.
  by destruct (truthy (vd_name data)), (truthy (vd_date data)),
       (truthy (vd_time data)), (truthy (vd_location data)).
Qed.

Lemma post_vaccine_incomplete env id w data :
  vaccine_complete data = false ->
  router_post_vaccine env id data w = (Return ValidationError_vaccine, w).
Proof.
  intros Hdata. unfold router_post_vaccine, try_catch.
  by rewrite vaccine_guard, Hdata.
Qed.

Lemma post_vaccine_not_found env id w data :
  vaccine_complete data = true -> db w !! id = None ->
  router_post_vaccine env (ObjectId id) data w = (Return NotFoundError, w).
Proof.
  intros Hdata Hp. unfold router_post_vaccine, try_catch.
  rewrite vaccine_guard, Hdata. cbn [negb]. unfold bind.
  by rewrite findById_missing.
Qed.

Lemma post_vaccine_malformed env raw w data :
  vaccine_complete data = true ->
  router_post_vaccine env (Malformed raw) data w
  = (Return {| status := 500;
               body := Failure ("Error al programar vacuna: "
                                ++ CastError_message env raw) |},
     logged ERROR ("❌ Error programando vacuna: " ++ CastError_message env raw) w).
Proof.
  intros Hdata. unfold router_post_vaccine, try_catch.
  by rewrite vaccine_guard, Hdata.
Qed.

Lemma post_vaccine_run env id w p data :
  vaccine_complete data = true -> db w !! id = Some p ->
  router_post_vaccine env (ObjectId id) data w
  = match save_rejects env
            (set_nextVaccine (loaded p w) (Some (vaccine_of env data))) with
    | Some msg =>
        (Return {| status := 500;
                   body := Failure ("Error al programar vacuna: " ++ msg) |},
         logged ERROR ("❌ Error programando vacuna: " ++ msg) (after_load p w))
    | None =>
        (Return {| status := 200;
                   body := VaccineScheduled "Vacuna programada exitosamente"
                             (vaccine_of env data) (fullName p) (petName p) |},
         stored id (stamp (createdAt p) (clock_now (after_load p w))
                      (set_nextVaccine (loaded p w) (Some (vaccine_of env data))))
           (ticked (after_load p w)))
    end.
Proof.
  intros Hdata Hp. unfold router_post_vaccine, try_catch.
  rewrite vaccine_guard, Hdata. cbn [negb]. unfold bind at 1.
  rewrite (findById_found env id p w Hp).
  destruct (loaded_fields p w)
    as (Hfn &_&_& Hpn &_&_&_&_&_&_&_&_&_& Hcreated &_).
  unfold bind, save. cbv beta iota zeta.
  destruct (save_rejects env _) as [msg|]; [done|].
  cbn [fullName petName set_nextVaccine createdAt newDate put_document].
  by rewrite Hfn, Hpn, Hcreated.
Qed.

Lemma post_vaccine_saved env id w p data :
  vaccine_complete data = true -> db w !! id = Some p ->
  save_rejects env (set_nextVaccine (loaded p w) (Some (vaccine_of env data)))
  = None ->
  router_post_vaccine env (ObjectId id) data w
  = (Return {| status := 200;
               body := VaccineScheduled "Vacuna programada exitosamente"
                         (vaccine_of env data) (fullName p) (petName p) |},
     stored id (stamp (createdAt p) (clock_now (after_load p w))
                  (set_nextVaccine (loaded p w) (Some (vaccine_of env data))))
       (ticked (after_load p w))).
Proof.
  intros Hdata Hp Hsave.
  by rewrite (post_vaccine_run env id w p data Hdata Hp), Hsave.
Qed.

Lemma post_vaccine_refused env id w p data msg :
  vaccine_complete data = true -> db w !! id = Some p ->
  save_rejects env (set_nextVaccine (loaded p w) (Some (vaccine_of env data)))
  = Some msg ->
  fst (router_post_vaccine env (ObjectId id) data w)
  = Return {| status := 500;
              body := Failure ("Error al programar vacuna: " ++ msg) |} /\
  db (snd (router_post_vaccine env (ObjectId id) data w)) = db w /\
  outbox (snd (router_post_vaccine env (ObjectId id) data w)) = outbox w.
Proof.
  intros Hdata Hp Hsave.
  rewrite (post_vaccine_run env id w p data Hdata Hp), Hsave.
  destruct (after_load_frame p w) as (Hdb & Hout & _). done.
Qed.

(** C6 (as amended). A request that lacks [name], [date], [time] or
    [location] is refused with [ValidationError], whatever the
    identifier; a complete request for an identifier that is the text of
    an ObjectId no patient has is refused with [NotFoundError]; neither
    changes anything.  A complete request for an identifier that is not
    the text of an ObjectId is answered 500 with the cast error's
    message.  A complete request for an existing patient replaces
    [nextVaccine], when the persistence layer accepts the document, by
    an event made of the request's fields alone, with [administered]
    false: nothing of the previous event remains, and the rest of the
    patient is untouched (a missing consent record being filled in with
    the default).  When the persistence layer refuses the document the
    reply is 500 and nothing is overwritten. *)
Theorem C6_scheduleVaccine env w data :
  let result id := router_post_vaccine env id data w in
  (forall id, vaccine_complete data = false ->
     result id = (Return ValidationError_vaccine, w)) /\
  (forall id, vaccine_complete data = true -> db w !! id = None ->
     result (ObjectId id) = (Return NotFoundError, w)) /\
  (forall raw, vaccine_complete data = true ->
     fst (result (Malformed raw))
     = Return {| status := 500;
                 body := Failure ("Error al programar vacuna: "
                                  ++ CastError_message env raw) |} /\
     db (snd (result (Malformed raw))) = db w) /\
  (forall id p msg,
     db w !! id = Some p -> vaccine_complete data = true ->
     save_rejects env (set_nextVaccine (loaded p w) (Some (vaccine_of env data)))
     = Some msg ->
     fst (result (ObjectId id))
     = Return {| status := 500;
                 body := Failure ("Error al programar vacuna: " ++ msg) |} /\
     db (snd (result (ObjectId id))) = db w) /\
  (forall id p name date time location,
     db w !! id = Some p ->
     vd_name data = Some name -> vd_date data = Some date ->
     vd_time data = Some time -> vd_location data = Some location ->
     vaccine_complete data = true ->
     save_rejects env (set_nextVaccine (loaded p w) (Some (vaccine_of env data)))
     = None ->
     let event :=
       {| v_name := trim name; v_date := Date_parse env date;
          v_time := time; v_location := location;
          v_notes := vd_notes data; v_lotNumber := vd_lotNumber data;
          v_nextDoseDate := None; v_administered := false |} in
     exists p',
       fst (result (ObjectId id))
       = Return {| status := 200;
                   body := VaccineScheduled "Vacuna programada exitosamente"
                             event (fullName p) (petName p) |} /\
       db (snd (result (ObjectId id))) = <[id := p']> (db w) /\
       nextVaccine p' = Some event /\
       fullName p' = fullName p /\ phone p' = phone p /\
       petName p' = petName p /\ vaccineHistory p' = vaccineHistory p /\
       consent p' = Some (currentConsent p w) /\
       (forall c, consent p = Some c -> consent p' = consent p) /\
       lastInteraction p' = lastInteraction p /\
       interactions p' = interactions p).
Proof.
  intros result. subst result. cbn beta. split; [|split; [|split; [|split]]].
  - intros id Hdata. by apply post_vaccine_incomplete.
  - intros id Hdata Hp. by apply post_vaccine_not_found.
  - intros raw Hdata. by rewrite post_vaccine_malformed.
  - intros id p msg Hp Hdata Hsave.
    destruct (post_vaccine_refused env id w p data msg Hdata Hp Hsave)
      as (Hres & Hdb & _). done.
  - intros id p name date time location Hp Hn Hd Ht Hl Hdata Hsave event.
    rewrite (post_vaccine_saved env id w p data Hdata Hp Hsave).
    assert (vaccine_of env data = event) as ->
      by (unfold vaccine_of; by rewrite Hn, Hd, Ht, Hl).
    destruct (after_load_frame p w) as (Hdb & _).
    destruct (loaded_fields p w)
      as (Hfn & Hph &_& Hpn &_&_&_&_&_& Hhist & Hlast & Hint &_).
    pose proof (loaded_consent p w) as Hlc.
    eexists. split; [reflexivity|].
    split; [cbn [snd db stored ticked]; by rewrite Hdb|].
    cbn [nextVaccine fullName phone petName vaccineHistory consent
         lastInteraction interactions stamp set_nextVaccine].
    split; [done|]. split; [done|]. split; [done|]. split; [done|].
    split; [done|]. split; [done|].
    split; [intros c Hc; rewrite Hlc; unfold currentConsent; by rewrite Hc|].
    done.
Qed.

Lemma C6_scheduleVaccine_witness :
  let env := clinic (fun _ _ => Return (accepted "wamid.HBgM")) (fun _ => None) in
  let w := office waiting_room [] in
  router_post_vaccine env (ObjectId 4) nameless w
  = (Return ValidationError_vaccine, w) /\
  router_post_vaccine env (ObjectId 9) booster w = (Return NotFoundError, w) /\
  exists p',
    db (snd (router_post_vaccine env (ObjectId 4) booster w))
    = <[4%N := p']> waiting_room /\
    nextVaccine p'
    = Some {| v_name := "Parvovirus"; v_date := ValidDate 1767571200000;
              v_time := "16:00"; v_location := "Sucursal Centro";
              v_notes := None; v_lotNumber := Some "L-2291";
              v_nextDoseDate := None; v_administered := false |}.
Proof.
  intros env w.
  destruct (C6_scheduleVaccine env w nameless) as (H1 & _).
  destruct (C6_scheduleVaccine env w booster) as (_ & H2 & _ & _ & H3).
  split; [apply (H1 (ObjectId 4)); reflexivity|].
  split; [apply (H2 9%N); reflexivity|].
  destruct (H3 4%N luna_due " Parvovirus " "2026-01-05" "16:00" "Sucursal Centro"
              eq_refl eq_refl eq_refl eq_refl eq_refl eq_refl eq_refl)
    as (p' & _ & Hdb & Hnv & _).
  exists p'. split; [exact Hdb|exact Hnv].
Defined.

(** C6 as stated fails in three ways.  On precedence: for an identifier
    no patient has, a request that lacks [name] is answered with the
    validation error, not with [NotFoundError].  On identifiers: a
    complete request for an identifier that is not the text of an
    ObjectId is answered 500, not [NotFoundError].  On the overwrite: a
    complete request whose date the runtime cannot parse is refused by a
    store that validates the schema, and the scheduled vaccine stays as
    it was. *)
Lemma C6_counterexample :
  let env := clinic (fun _ _ => Return (accepted "wamid.HBgM")) checks_vaccine in
  let w := office waiting_room [] in
  (db w !! 9%N = None /\
   fst (router_post_vaccine env (ObjectId 9) nameless w)
   = Return ValidationError_vaccine /\
   fst (router_post_vaccine env (ObjectId 9) nameless w) <> Return NotFoundError) /\
  (vaccine_complete booster = true /\
   exists res,
     fst (router_post_vaccine env (Malformed "luna") booster w) = Return res /\
     status res = 500 /\ res <> NotFoundError) /\
  (vaccine_complete undated = true /\ db w !! 4%N = Some luna_due /\
   exists res,
     fst (router_post_vaccine env (ObjectId 4) undated w) = Return res /\
     status res = 500 /\
     db (snd (router_post_vaccine env (ObjectId 4) undated w)) !! 4%N
     = Some luna_due /\
     nextVaccine luna_due = Some (rabies (ValidDate 1767571200000))).
Proof.
  intros env w. split; [|split].
  - split; [reflexivity|].
    rewrite post_vaccine_incomplete by reflexivity.
    split; [reflexivity|discriminate].
  - split; [reflexivity|].
    rewrite post_vaccine_malformed by reflexivity.
    eexists. split; [reflexivity|]. split; [reflexivity|discriminate].
  - split; [reflexivity|]. split; [reflexivity|].
    destruct (post_vaccine_refused env 4 w luna_due undated
                "Patient validation failed: nextVaccine.date: Cast to date failed"
                eq_refl eq_refl eq_refl) as (Hres & Hdb & _).
    eexists. split; [exact Hres|]. split; [reflexivity|].
    split; [by rewrite Hdb|reflexivity].
Qed.

(** ** Registering a patient *)

Lemma patient_guard data :
  negb (truthy (d_fullName data)) || negb (truthy (d_phone data))
  || negb (truthy (d_petName data)) || negb (truthy (d_petType data))
  = negb (patient_complete data).
Proof.
  unfold patient_complete.
  by destruct (truthy (d_fullName data)), (truthy (d_phone data)),
       (truthy (d_petName data)), (truthy (d_petType data)).
Qed.

(** The welcome step always returns, touches neither the database nor
    the clock, and posts at most the welcome request. *)
Lemma send_welcome_returns env ph fn pn w :
  exists w',
    send_welcome env ph fn pn w = (Return tt, w') /\
    db w' = db w /\
    (outbox w' = outbox w
     \/ outbox w' = (outbox w ++ [text_payload ph (welcome env fn pn)])%list).
Proof.
  unfold send_welcome, try_catch, bind at 1.
  destruct (ensure_client env w) as [[[]|e] w1] eqn:Hclient.
  - assert (w1 = ready env w) as -> by (unfold ready; by rewrite Hclient).
    destruct (ready_frame env w) as (Hdb & Hout & _).
    unfold bind. rewrite sendText_run, Hout.
    destruct (provider env _ _) as [r|e];
      (eexists; split; [reflexivity|]; cbn; rewrite Hdb, Hout; eauto).
  - assert (w1 = ready env w) as -> by (unfold ready; by rewrite Hclient).
    destruct (ready_frame env w) as (Hdb & Hout & _).
    eexists; split; [reflexivity|]; cbn; rewrite Hdb, Hout; eauto.
Qed.


Lemma new_Patient_run env data w :
  new_Patient env (default "" (d_fullName data)) (default "" (d_phone data))
    (d_email data) (default "" (d_petName data)) (default "" (d_petType data))
    (d_petBreed data) (d_petAge data) (d_petWeight data) w
  = (Return (patient_of env data w), ticked (ticked w)).
Proof. reflexivity. Qed.

Lemma save_new_run env doc w :
  save_rejects env doc = None ->
  save_new env doc w
  = if decide (phone_indexed (phone doc) (db w))
    then (Throw E11000, ticked w)
    else (Return (fresh (dom (db w))),
          stored (fresh (dom (db w))) (stamp (Some (clock_now w)) (clock_now w) doc)
            (ticked w)).
Proof.
  intros Hsave. unfold save_new. rewrite Hsave.
  unfold bind, newDate, insertOne. cbn [phone stamp db ticked].
  by destruct (decide _).
Qed.

Lemma post_incomplete env data w :
  patient_complete data = false ->
  router_post env data w = (Return ValidationError_patient, w).
Proof.
  intros Hdata. unfold router_post, try_catch.
  by rewrite patient_guard, Hdata.
Qed.

Lemma post_duplicate env data w :
  patient_complete data = true ->
  save_rejects env (patient_of env data w) = None ->
  phone_indexed (phone (patient_of env data w)) (db w) ->
  router_post env data w
  = (Return DuplicatePhoneError,
     logged ERROR ("❌ Error creando paciente: " ++ message_of E11000)
       (ticked (ticked (ticked w)))).
Proof.
  intros Hdata Hsave Hdup. unfold router_post, try_catch.
  rewrite patient_guard, Hdata. cbn [negb]. cbv zeta.
  unfold bind at 1. rewrite new_Patient_run.
  unfold bind at 1. rewrite (save_new_run env _ _ Hsave).
  rewrite decide_True by done. reflexivity.
Qed.

Lemma post_created env data w :
  patient_complete data = true ->
  save_rejects env (patient_of env data w) = None ->
  ~ phone_indexed (phone (patient_of env data w)) (db w) ->
  let id := fresh (dom (db w)) in
  let saved :=
    stored id (stamp (Some (reading 2 w)) (reading 2 w) (patient_of env data w))
      (ticked (ticked (ticked w))) in
  router_post env data w
  = (Return {| status := 201;
               body := PatientCreated "Paciente creado exitosamente" id
                         (fullName (patient_of env data w))
                         (phone (patient_of env data w))
                         (petName (patient_of env data w)) |},
     snd (send_welcome env (default "" (d_phone data))
            (default "" (d_fullName data)) (default "" (d_petName data)) saved)).
Proof.
  intros Hdata Hsave Hnew id saved. unfold router_post, try_catch.
  rewrite patient_guard, Hdata. cbn [negb]. cbv zeta.
  unfold bind at 1. rewrite new_Patient_run.
  unfold bind at 1. rewrite (save_new_run env _ _ Hsave).
  rewrite decide_False by done.
  unfold bind.
  destruct (send_welcome_returns env (default "" (d_phone data))
              (default "" (d_fullName data)) (default "" (d_petName data)) saved)
    as (w' & Hrun & _).
  subst saved id. cbn [reading snd newDate db ticked] in *.
  rewrite Hrun. reflexivity.
Qed.




(** * Further properties of the code *)

(** ** Phone numbers handed to the provider *)

Lemma replace_non_digits_all_digits phone :
  all_digits (replace_non_digits phone) = true.
Proof.
  induction phone as [|c rest IH]; [done|]. cbn.
  destruct (is_digit c) eqn:Hc; [cbn; by rewrite Hc|done].
Qed.

Lemma replace_non_digits_id s :
  all_digits s = true -> replace_non_digits s = s.
Proof.
  induction s as [|c rest IH]; [done|]. cbn.
  intros [Hc Hrest]%andb_true_iff. by rewrite Hc, IH.
Qed.

Lemma all_digits_not_plus s : all_digits s = true -> startsWith_plus s = false.
Proof.
  destruct s as [|c rest]; [done|].
  destruct c as [[] [] [] [] [] [] [] []]; try done.
Qed.

(** X1. Unless the input begins with ['+'] and does not carry exactly
    ten digits, the normalised number consists of digits only; a
    ten-digit input becomes twelve digits that start with the country
    code. *)
Theorem X1_formatPhoneNumber_digits_only phone :
  startsWith_plus phone = false
  \/ String.length (replace_non_digits phone) = 10%nat ->
  all_digits (formatPhoneNumber phone) = true /\
  (String.length (replace_non_digits phone) = 10%nat ->
   String.length (formatPhoneNumber phone) = 12%nat /\
   formatPhoneNumber phone = "52" ++ replace_non_digits phone).
Proof.
  intros Hcase. unfold formatPhoneNumber.
  destruct (Nat.eqb_spec (String.length (replace_non_digits phone)) 10) as [Hten|Hten].
  - split.
    + change (all_digits ("52" ++ replace_non_digits phone)) with
        (all_digits (replace_non_digits phone)).
      apply replace_non_digits_all_digits.
    + intros _. split; [|done].
      change (S (S (String.length (replace_non_digits phone))) = 12%nat).
      by rewrite Hten.
  - destruct Hcase as [Hplus|Hlen]; [|done].
    rewrite Hplus. split; [apply replace_non_digits_all_digits|done].
Qed.

Lemma X1_formatPhoneNumber_digits_only_witness :
  all_digits (formatPhoneNumber "(55) 1234-5678") = true /\
  String.length (formatPhoneNumber "(55) 1234-5678") = 12%nat /\
  all_digits (formatPhoneNumber "tel 911") = true.
Proof.
  destruct (X1_formatPhoneNumber_digits_only "(55) 1234-5678" (or_intror eq_refl))
    as (Hdigits & Hten).
  split; [exact Hdigits|]. split; [exact (proj1 (Hten eq_refl))|].
  exact (proj1 (X1_formatPhoneNumber_digits_only "tel 911" (or_introl eq_refl))).
Defined.

(** With a leading ['+'] and another count of digits, what follows the
    ['+'] is passed on as it is, blanks and punctuation included, and a
    second normalisation changes it again. *)
Example formatPhoneNumber_keeps_punctuation :
  formatPhoneNumber "+52 55 1234 5678" = "52 55 1234 5678" /\
  all_digits (formatPhoneNumber "+52 55 1234 5678") = false /\
  formatPhoneNumber (formatPhoneNumber "+52 55 1234 5678") = "525512345678".
Proof. repeat split. Qed.

(** X2. A normalised number that consists of digits only never has
    exactly ten of them, and normalising it again leaves it as it is. *)
Theorem X2_formatPhoneNumber_stable phone :
  all_digits (formatPhoneNumber phone) = true ->
  String.length (formatPhoneNumber phone) <> 10%nat /\
  formatPhoneNumber (formatPhoneNumber phone) = formatPhoneNumber phone.
Proof.
  intros Hdigits.
  assert (String.length (formatPhoneNumber phone) <> 10%nat) as Hlen.
  { revert Hdigits. unfold formatPhoneNumber.
    destruct (Nat.eqb_spec (String.length (replace_non_digits phone)) 10)
      as [Hten|Hten].
    - intros _.
      change (S (S (String.length (replace_non_digits phone))) <> 10%nat).
      rewrite Hten. lia.
    - destruct (startsWith_plus phone) eqn:Hplus; [|done].
      intros Hrest. rewrite (startsWith_plus_inv phone Hplus) in Hten.
      cbn in Hten. by rewrite (replace_non_digits_id _ Hrest) in Hten. }
  split; [exact Hlen|].
  unfold formatPhoneNumber at 1.
  rewrite (replace_non_digits_id _ Hdigits), (all_digits_not_plus _ Hdigits).
  by apply Nat.eqb_neq in Hlen as ->.
Qed.

Lemma X2_formatPhoneNumber_stable_witness :
  formatPhoneNumber (formatPhoneNumber "(55) 1234-5678")
  = formatPhoneNumber "(55) 1234-5678".
Proof. exact (proj2 (X2_formatPhoneNumber_stable "(55) 1234-5678" eq_refl)). Defined.

(** ** The two eligibility windows *)

Lemma Math_ceil_div_bounds a b :
  0 < b -> (Math_ceil_div a b - 1) * b < a <= Math_ceil_div a b * b.
Proof.
  intros Hb. unfold Math_ceil_div.
  pose proof (Z.div_mod (- a) b ltac:(lia)) as Hdiv.
  pose proof (Z.mod_pos_bound (- a) b Hb) as Hmod.
  nia.
Qed.

Lemma needsReminder_window today p nv c t daysBefore :
  nextVaccine p = Some nv -> consent p = Some c -> reminders c = true ->
  v_date nv = ValidDate t ->
  needsReminder today p (Some daysBefore)
  = Return (bool_decide (today - MS_PER_DAY < t <= today + daysBefore * MS_PER_DAY)).
Proof.
  intros Hnv Hc Hr Hd.
  pose proof (Math_ceil_div_bounds (t - today) MS_PER_DAY ltac:(done)) as Hk.
  rewrite (needsReminder_valid today p nv c t _ daysBefore Hnv Hc Hr Hd Hk).
  f_equal. apply bool_decide_ext. unfold MS_PER_DAY in *. nia.
Qed.

(** X3. For a patient with reminders consent and a valid vaccine date,
    [needsReminder] is true exactly when the vaccine instant lies after
    [today] minus one day and not after [today] plus [daysBefore] days:
    a vaccine whose time passed less than a day ago still counts as due,
    and widening [daysBefore] never makes a due patient undue. *)
Theorem X3_needsReminder_window today p nv c t daysBefore :
  nextVaccine p = Some nv -> consent p = Some c -> reminders c = true ->
  v_date nv = ValidDate t ->
  needsReminder today p (Some daysBefore)
  = Return (bool_decide (today - MS_PER_DAY < t <= today + daysBefore * MS_PER_DAY))
  /\ (forall wider, daysBefore <= wider ->
        needsReminder today p (Some daysBefore) = Return true ->
        needsReminder today p (Some wider) = Return true).
Proof.
  intros Hnv Hc Hr Hd.
  split; [by apply (needsReminder_window today p nv c)|].
  intros wider Hwider.
  rewrite !(needsReminder_window today p nv c t) by done.
  intros [= Hdue%bool_decide_eq_true]. f_equal. apply bool_decide_eq_true.
  unfold MS_PER_DAY in *. nia.
Qed.

Lemma X3_needsReminder_window_witness :
  needsReminder 1767225600000
    (luna (Some (rabies (ValidDate (1767225600000 - 3600000))))
          (Some (consent_flags false true)) None) (Some 0)
  = Return true.
Proof.
  exact (proj1 (X3_needsReminder_window 1767225600000
                  (luna (Some (rabies (ValidDate (1767225600000 - 3600000))))
                        (Some (consent_flags false true)) None)
                  (rabies (ValidDate (1767225600000 - 3600000)))
                  (consent_flags false true) (1767225600000 - 3600000) 0
                  eq_refl eq_refl eq_refl eq_refl)).
Defined.

(** X4. With marketing consent, a [lastInteraction] that is not in the
    past keeps the offer window open; and once [canReceiveOffers] is
    false it stays false at any later time, as long as the patient is
    not touched. *)
Theorem X4_offer_window now p :
  (forall c li, consent p = Some c -> marketing c = true ->
     lastInteraction p = Some li -> now <= li ->
     canReceiveOffers now p = Return true) /\
  (forall later, now <= later ->
     canReceiveOffers now p = Return false ->
     canReceiveOffers later p = Return false).
Proof.
  split.
  - intros c li Hc Hm Hl Hfuture. unfold canReceiveOffers.
    rewrite Hc, Hm, Hl. cbn. f_equal. apply Z.geb_le. lia.
  - intros later Hlater. unfold canReceiveOffers.
    destruct (consent p) as [c|]; [|done].
    destruct (marketing c); [|done]. cbn.
    destruct (lastInteraction p) as [li|]; [|done].
    intros [= Hclosed]. f_equal.
    destruct (Z.geb_spec li (now - 24 * 60 * 60 * 1000)); [done|].
    destruct (Z.geb_spec li (later - 24 * 60 * 60 * 1000)); [lia|done].
Qed.

Lemma X4_offer_window_witness :
  canReceiveOffers 200000000
    (luna None (Some (consent_flags true true)) (Some 200000500)) = Return true /\
  canReceiveOffers 300000000
    (luna None (Some (consent_flags true true)) (Some 100000000)) = Return false.
Proof.
  split.
  - exact (proj1 (X4_offer_window 200000000
                    (luna None (Some (consent_flags true true)) (Some 200000500)))
             (consent_flags true true) 200000500 eq_refl eq_refl eq_refl
             ltac:(lia)).
  - exact (proj2 (X4_offer_window 200000000
                    (luna None (Some (consent_flags true true)) (Some 100000000)))
             300000000 ltac:(lia) eq_refl).
Defined.

(** ** The gateway client: connection check, start-up check, credentials *)

(** X5. [checkConnection] never throws and leaves the world alone: it
    reports [connected] exactly when the provider answered, with the
    account's number, and otherwise the provider's error message (or the
    transport's).  The test route answers 500 only when the credentials
    are missing; otherwise it answers 200 with that report, whatever the
    provider said, and it never installs the client it builds as the
    routes' client. *)
Theorem X5_connection_test env identity w :
  (exists report,
     checkConnection identity w = (Return report, w) /\
     (connected report = true <-> exists number, identity = Return number) /\
     (forall number, identity = Return number ->
        cs_phoneNumber report = Some number /\ cs_error report = None) /\
     (forall e, identity = Throw e ->
        cs_phoneNumber report = None /\
        cs_error report = Some (reported_message e))) /\
  (let result := whatsapp_test env identity w in
   db (snd result) = db w /\ outbox (snd result) = outbox w /\
   whatsappClient (snd result) = whatsappClient w /\
   clock_now (snd result) = clock_now w /\
   match fst result with
   | Return res =>
       if credentials_missing env
       then res = {| t_status := 500;
                     t_body := TestFailure (message_of credentials_error) |}
       else exists report,
              res = {| t_status := 200; t_body := TestStatus report |} /\
              fst (checkConnection identity w) = Return report
   | Throw _ => False
   end).
Proof.
  split.
  - unfold checkConnection, try_catch, bind, get_identity, ret.
    destruct identity as [number|e]; eexists; (split; [reflexivity|]); cbn.
    + split; [split; eauto|]. split; [by intros ? [= ->]|done].
    + split; [split; [done|by intros [? ?]]|]. split; [done|by intros ? [= ->]].
  - unfold whatsapp_test, try_catch, bind, new_WhatsAppClient, throw.
    fold (credentials_missing env).
    destruct (credentials_missing env); [done|].
    unfold checkConnection, try_catch, bind, get_identity, ret, console_write.
    destruct identity as [number|e]; cbn; eauto 10.
Qed.

(** X6. The start-up check passes exactly when none of the three
    required variables is missing or empty; when it passes, building the
    gateway client cannot fail, and the client talks to API version
    v18.0 unless another one is configured. *)
Theorem X6_validateEnvironment env :
  (validateEnvironment env = true <-> missingVars env = []) /\
  (validateEnvironment env = true ->
   credentials_missing env = false /\
   forall w, exists c,
     fst (new_WhatsAppClient env w) = Return c /\
     apiVersion c = or_else (WHATSAPP_API_VERSION env) "v18.0" /\
     db (snd (new_WhatsAppClient env w)) = db w).
Proof.
  split.
  - unfold validateEnvironment, missingVars, requiredEnvVars, process_env. cbn.
    destruct (truthy (WHATSAPP_ACCESS_TOKEN env)),
      (truthy (WHATSAPP_PHONE_NUMBER_ID env)),
      (truthy (WHATSAPP_BUSINESS_ACCOUNT_ID env)); cbn; split; done.
  - intros Henv. unfold validateEnvironment in Henv.
    apply andb_true_iff in Henv as [Henv _].
    apply andb_true_iff in Henv as [Htoken Hid].
    assert (credentials_missing env = false) as Hcred.
    { unfold credentials_missing.
      by rewrite (truthy_or_else _ _ Htoken), (truthy_or_else _ _ Hid). }
    split; [exact Hcred|]. intros w.
    unfold new_WhatsAppClient. fold (credentials_missing env). rewrite Hcred.
    eexists. split; [reflexivity|]. done.
Qed.

Lemma X6_validateEnvironment_witness :
  let env := clinic (fun _ _ => Return (accepted "wamid.HBgM")) (fun _ => None) in
  credentials_missing env = false /\
  exists c, fst (new_WhatsAppClient env (office waiting_room [])) = Return c /\
            apiVersion c = "v18.0".
Proof.
  intros env.
  destruct (proj2 (X6_validateEnvironment env) eq_refl) as (Hcred & Hnew).
  split; [exact Hcred|].
  destruct (Hnew (office waiting_room [])) as (c & Hc & Hv & _).
  exists c. split; [exact Hc|exact Hv].
Defined.

Lemma ensure_client_missing env w :
  whatsappClient w = None -> credentials_missing env = true ->
  ensure_client env w = (Throw credentials_error, w).
Proof.
  intros Hclient Hcred. unfold ensure_client. rewrite Hclient.
  unfold bind, new_WhatsAppClient. fold (credentials_missing env).
  by rewrite Hcred.
Qed.

(** X7. The gateway client is built lazily, once.  While there is none
    and the credentials are missing, the reminder route answers 500
    before it looks at the patient, for every identifier, and changes
    nothing; once a client exists the credentials are not consulted
    again and the route is its handler. *)
Theorem X7_reminder_needs_client env id w :
  (whatsappClient w = None -> credentials_missing env = true ->
   router_post_reminder env id w
   = (Return {| status := 500;
                body := Failure ("Error inicializando WhatsApp: "
                                 ++ message_of credentials_error) |}, w)) /\
  (is_Some (whatsappClient w) ->
   router_post_reminder env id w = reminder_handler env id w).
Proof.
  unfold router_post_reminder, initWhatsApp, try_catch, bind. split.
  - intros Hclient Hcred. by rewrite (ensure_client_missing env w Hclient Hcred).
  - intros [c Hc]. unfold ensure_client. by rewrite Hc.
Qed.

Lemma X7_reminder_needs_client_witness :
  let env :=
    {| CLINIC_NAME := None; WHATSAPP_ACCESS_TOKEN := Some "";
       WHATSAPP_PHONE_NUMBER_ID := Some "105500000000001";
       WHATSAPP_BUSINESS_ACCOUNT_ID := None; WHATSAPP_API_VERSION := None;
       Date_parse := fun _ => InvalidDate;
       toLocaleDateString := fun _ => "Invalid Date";
       toLowerCase := toLowerCase_ascii;
       provider := fun _ _ => Return (accepted "wamid.HBgM");
       save_rejects := fun _ => None;
       CastError_message := fun raw => "Cast to ObjectId failed: " ++ raw |} in
  fst (router_post_reminder env (ObjectId 4) (office waiting_room []))
  = Return {| status := 500;
              body := Failure "Error inicializando WhatsApp: WhatsApp credentials not configured. Run: npm run setup" |}
  /\ snd (router_post_reminder env (ObjectId 4) (office waiting_room []))
     = office waiting_room [].
Proof.
  intros env.
  pose proof (proj1 (X7_reminder_needs_client env (ObjectId 4) (office waiting_room []))
                eq_refl eq_refl) as Hrun.
  split; [exact (f_equal fst Hrun)|exact (f_equal snd Hrun)].
Defined.

Lemma X5_connection_test_witness :
  exists report,
    fst (checkConnection (Throw (undeliverable 190)) (office waiting_room []))
    = Return report /\
    connected report = false /\ cs_error report = Some "Message undeliverable".
Proof.
  destruct (proj1 (X5_connection_test
                     (clinic (fun _ _ => Return (accepted "wamid.HBgM")) (fun _ => None))
                     (Throw (undeliverable 190)) (office waiting_room [])))
    as (report & Hrun & Hconn & _ & Herr).
  exists report. split; [exact (f_equal fst Hrun)|].
  split; [|exact (proj2 (Herr _ eq_refl))].
  destruct (connected report); [|done].
  by destruct (proj1 Hconn eq_refl).
Defined.

(** ** Registration *)

Lemma post_created_db env data w :
  patient_complete data = true ->
  save_rejects env (patient_of env data w) = None ->
  ~ phone_indexed (phone (patient_of env data w)) (db w) ->
  db (snd (router_post env data w))
  = <[fresh (dom (db w)) :=
        stamp (Some (reading 2 w)) (reading 2 w) (patient_of env data w)]> (db w).
Proof.
  intros Hdata Hsave Hnew.
  rewrite (post_created env data w Hdata Hsave Hnew). cbn [snd].
  destruct (send_welcome_returns env (default "" (d_phone data))
              (default "" (d_fullName data)) (default "" (d_petName data))
              (stored (fresh (dom (db w)))
                 (stamp (Some (reading 2 w)) (reading 2 w) (patient_of env data w))
                 (ticked (ticked (ticked w)))))
    as (w' & Hrun & Hdb & _).
  by rewrite Hrun.
Qed.





(** ** When the persistence layer refuses a save *)

(** X10. A reminder the provider accepted but whose save is refused has
    gone out all the same: the request is in the outbox, the reply is
    500 with the storage error's message, and the database records
    nothing of it (no interaction, [lastInteraction] unchanged). *)
Theorem X10_reminder_sent_but_not_recorded env id w p nv r msg :
  validateEnvironment env = true ->
  db w !! id = Some p -> nextVaccine p = Some nv ->
  consent_reminders p = true ->
  provider env (outbox w) (reminder_payload env p nv) = Return r ->
  save_rejects env
    (reminded (loaded p w) nv r
       (reading 0 (after_load p w)) (reading 1 (after_load p w))) = Some msg ->
  let result := router_post_reminder env (ObjectId id) w in
  fst result = Return {| status := 500; body := Failure msg |} /\
  db (snd result) = db w /\
  outbox (snd result) = (outbox w ++ [reminder_payload env p nv])%list.
Proof.
  intros Henv Hp Hnv Hconsent Hprov Hsave result.
  split; [|split; [|by apply reminder_posted]]; subst result;
    unfold router_post_reminder;
    destruct (ready_frame env w) as (Hdb & Hout & _);
    destruct (after_load_frame p (ready env w)) as (Hdb0 & _);
    rewrite initWhatsApp_ok by done;
    (rewrite (reminder_handler_sends env id (ready env w) p) with (nv := nv);
       [|by rewrite Hdb|done|by apply ensure_client_ok|done]);
    rewrite Hout, Hprov; cbn zeta;
    rewrite !reading_after_load_ready, loaded_ready, Hsave; cbn;
    rewrite ?Hdb0, ?Hdb; done.
Qed.

Lemma X10_reminder_sent_but_not_recorded_witness :
  let env := clinic (fun _ _ => Return (accepted "wamid.HBgM"))
               (fun p => if decide (interactions p = []) then None
                         else Some "Patient validation failed") in
  let result := router_post_reminder env (ObjectId 4) (office waiting_room []) in
  fst result = Return {| status := 500; body := Failure "Patient validation failed" |} /\
  db (snd result) = waiting_room /\
  outbox (snd result)
  = [reminder_payload env luna_due (rabies (ValidDate 1767571200000))].
Proof.
  intros env result.
  exact (X10_reminder_sent_but_not_recorded env 4 (office waiting_room [])
           luna_due (rabies (ValidDate 1767571200000)) (accepted "wamid.HBgM")
           "Patient validation failed" eq_refl eq_refl eq_refl eq_refl eq_refl eq_refl).
Defined.

(** X11. When the persistence layer refuses the document, registering,
    scheduling and the consent update answer 500 with their own prefix
    and the storage message, store nothing and post nothing: a refused
    registration sends no welcome message. *)
Theorem X11_refused_saves env w msg :
  (forall data,
     patient_complete data = true ->
     save_rejects env (patient_of env data w) = Some msg ->
     let result := router_post env data w in
     fst result
     = Return {| status := 500; body := Failure ("Error al crear paciente: " ++ msg) |} /\
     db (snd result) = db w /\ outbox (snd result) = outbox w) /\
  (forall id p data,
     vaccine_complete data = true -> db w !! id = Some p ->
     save_rejects env (set_nextVaccine (loaded p w) (Some (vaccine_of env data)))
     = Some msg ->
     let result := router_post_vaccine env (ObjectId id) data w in
     fst result
     = Return {| status := 500; body := Failure ("Error al programar vacuna: " ++ msg) |} /\
     db (snd result) = db w /\ outbox (snd result) = outbox w) /\
  (forall id p data,
     db w !! id = Some p ->
     save_rejects env (set_consent p (new_consent p data w)) = Some msg ->
     let result := router_put_consent env (ObjectId id) data w in
     fst result
     = Return {| status := 500;
                 body := Failure ("Error al actualizar consentimiento: " ++ msg) |} /\
     db (snd result) = db w /\ outbox (snd result) = outbox w).
Proof.
  split; [|split].
  - intros data Hdata Hsave result. subst result.
    enough (router_post env data w
            = (Return {| status := 500;
                         body := Failure ("Error al crear paciente: " ++ msg) |},
               logged ERROR ("❌ Error creando paciente: " ++ msg)
                 (ticked (ticked w)))) as -> by done.
    unfold router_post, try_catch. rewrite patient_guard, Hdata. cbn [negb].
    cbv zeta. unfold bind at 1. rewrite new_Patient_run.
    unfold bind at 1. unfold save_new. by rewrite Hsave.
  - intros id p data Hdata Hp Hsave result. subst result.
    by apply (post_vaccine_refused env id w p data msg).
  - intros id p data Hp Hsave result. subst result.
    by apply (put_consent_refused env id w p data msg).
Qed.

Lemma X11_refused_saves_witness :
  let env := clinic (fun _ _ => Return (accepted "wamid.HBgM"))
               (fun _ => Some "Patient validation failed") in
  let w := office waiting_room [] in
  fst (router_post env (rocky "5598765432") w)
  = Return {| status := 500;
              body := Failure "Error al crear paciente: Patient validation failed" |} /\
  db (snd (router_post_vaccine env (ObjectId 4) booster w)) = waiting_room /\
  db (snd (router_put_consent env (ObjectId 2)
             {| cd_marketing := None; cd_reminders := Some true;
                cd_privacy := None |} w)) = waiting_room.
Proof.
  intros env w.
  destruct (X11_refused_saves env w "Patient validation failed") as (H1 & H2 & H3).
  split; [exact (proj1 (H1 (rocky "5598765432") eq_refl eq_refl))|].
  split; [exact (proj1 (proj2 (H2 4%N luna_due booster eq_refl eq_refl eq_refl)))|].
  exact (proj1 (proj2 (H3 2%N opted_out _ eq_refl eq_refl))).
Defined.

(** ** How the routes compose *)

Lemma put_consent_stored env id w p data :
  db w !! id = Some p ->
  save_rejects env (set_consent p (new_consent p data w)) = None ->
  exists p',
    db (snd (router_put_consent env (ObjectId id) data w)) = <[id := p']> (db w) /\
    outbox (snd (router_put_consent env (ObjectId id) data w)) = outbox w /\
    consent p' = Some (new_consent p data w) /\
    nextVaccine p' = nextVaccine p /\ phone p' = phone p /\
    fullName p' = fullName p /\ petName p' = petName p.
Proof.
  intros Hp Hsave.
  destruct (put_consent_saved env id w p data Hp Hsave) as (t & Hrun & _).
  rewrite Hrun. eexists. split; [by destruct (consent p)|].
  split; [by destruct (consent p)|]. done.
Qed.





Lemma canReceiveOffers_window now p c li :
  consent p = Some c -> lastInteraction p = Some li ->
  canReceiveOffers now p
  = Return (marketing c && bool_decide (now - li <= MS_PER_DAY)).
Proof.
  intros Hc Hl. unfold canReceiveOffers. rewrite Hc, Hl.
  destruct (marketing c); [|done]. cbn. f_equal. apply eq_true_iff_eq.
  rewrite bool_decide_eq_true, Z.geb_le. unfold MS_PER_DAY. lia.
Qed.

(** X14. A reminder that went out opens the offer window: the stored
    patient's [lastInteraction] is the second clock reading of the
    request, so with marketing consent [canReceiveOffers] is true at any
    time up to 24 hours after that reading and false afterwards; without
    marketing consent it stays false. *)
Theorem X14_reminder_opens_offer_window env id w p nv r c :
  validateEnvironment env = true ->
  db w !! id = Some p -> nextVaccine p = Some nv ->
  consent p = Some c -> reminders c = true ->
  provider env (outbox w) (reminder_payload env p nv) = Return r ->
  save_rejects env (reminded p nv r (reading 0 w) (reading 1 w)) = None ->
  let w' := snd (router_post_reminder env (ObjectId id) w) in
  exists p',
    db w' !! id = Some p' /\
    forall now,
      canReceiveOffers now p'
      = Return (marketing c && bool_decide (now - reading 1 w <= MS_PER_DAY)).
Proof.
  intros Henv Hp Hnv Hc Hr Hprov Hsave w'.
  assert (consent_reminders p = true) as Hconsent
    by (unfold consent_reminders; by rewrite Hc).
  destruct (loaded_consented p c w Hc) as (Hl & Ha).
  destruct (reminder_succeeded env id w Henv p nv Hp Hnv Hconsent r Hprov)
    as (_ & Hdb & _); [by rewrite Hl, Ha|].
  rewrite Hl, Ha in Hdb.
  fold w' in Hdb. eexists. split; [rewrite Hdb; apply lookup_insert_eq|].
  intros now. by apply canReceiveOffers_window.
Qed.

Lemma X14_reminder_opens_offer_window_witness :
  let env := clinic (fun _ _ => Return (accepted "wamid.HBgM")) (fun _ => None) in
  let w := office (<[7%N := luna (Some (rabies (ValidDate 1767571200000)))
                                 (Some (consent_flags true true)) None]> ∅) [] in
  exists p',
    db (snd (router_post_reminder env (ObjectId 7) w)) !! 7%N = Some p' /\
    canReceiveOffers (1767225600000 + MS_PER_DAY) p' = Return true /\
    canReceiveOffers (1767225600000 + MS_PER_DAY + 1) p' = Return false.
Proof.
  intros env w.
  destruct (X14_reminder_opens_offer_window env 7 w
              (luna (Some (rabies (ValidDate 1767571200000)))
                    (Some (consent_flags true true)) None)
              (rabies (ValidDate 1767571200000)) (accepted "wamid.HBgM")
              (consent_flags true true)
              eq_refl eq_refl eq_refl eq_refl eq_refl eq_refl eq_refl)
    as (p' & Hp' & Hwindow).
  exists p'. split; [exact Hp'|].
  split; [exact (Hwindow _)|exact (Hwindow _)].
Defined.

(** X15. Scheduling decides eligibility: after a vaccine with a date
    the runtime parses to the instant [t] is scheduled for a patient
    with a consent record, [needsReminder] on the stored patient is true
    exactly when reminders are consented to and [t] lies after [today]
    minus one day and not after [today] plus [daysBefore] days. *)
Theorem X15_schedule_then_due env id w p c data date t :
  db w !! id = Some p -> consent p = Some c ->
  vd_date data = Some date -> Date_parse env date = ValidDate t ->
  vaccine_complete data = true ->
  save_rejects env (set_nextVaccine p (Some (vaccine_of env data))) = None ->
  let w' := snd (router_post_vaccine env (ObjectId id) data w) in
  exists p',
    db w' !! id = Some p' /\
    forall today daysBefore,
      needsReminder today p' (Some daysBefore)
      = Return (reminders c
                && bool_decide (today - MS_PER_DAY < t
                                <= today + daysBefore * MS_PER_DAY)).
Proof.
  intros Hp Hc Hd Hparse Hdata Hsave w'.
  destruct (loaded_consented p c w Hc) as (Hl & Ha).
  subst w'. rewrite (post_vaccine_saved env id w p data Hdata Hp)
    by (by rewrite Hl).
  rewrite Hl, Ha. cbn [snd].
  eexists. split; [apply lookup_insert_eq|].
  intros today daysBefore. destruct (reminders c) eqn:Hr.
  - apply (needsReminder_window today _ (vaccine_of env data) c);
      [done|done|done|].
    unfold vaccine_of. cbn. by rewrite Hd.
  - unfold needsReminder. cbn. by rewrite Hc, Hr.
Qed.

Lemma X15_schedule_then_due_witness :
  let env := clinic (fun _ _ => Return (accepted "wamid.HBgM")) (fun _ => None) in
  exists p',
    db (snd (router_post_vaccine env (ObjectId 1) booster (office waiting_room []))) !! 1%N
    = Some p' /\
    needsReminder 1767225600000 p' (Some 3) = Return false /\
    needsReminder 1767225600000 p' (Some 4) = Return true.
Proof.
  intros env.
  destruct (X15_schedule_then_due env 1 (office waiting_room []) unscheduled
              (consent_flags false true) booster "2026-01-05" 1767571200000
              eq_refl eq_refl eq_refl eq_refl eq_refl eq_refl)
    as (p' & Hp' & Hdue).
  exists p'. split; [exact Hp'|]. split; [exact (Hdue _ 3)|exact (Hdue _ 4)].
Defined.

(** X16. Consent updates compose flag by flag: after two updates, each
    flag is the one of the second request if it has it, else the one of
    the first if it has it, else the original; [givenAt] is still the
    original and [updatedAt] has not gone back. *)
Theorem X16_consent_updates_compose env id w p c first second :
  db w !! id = Some p -> consent p = Some c ->
  save_rejects env (set_consent p (new_consent p first w)) = None ->
  let w1 := snd (router_put_consent env (ObjectId id) first w) in
  (forall p1, db w1 !! id = Some p1 ->
     save_rejects env (set_consent p1 (new_consent p1 second w1)) = None) ->
  let w2 := snd (router_put_consent env (ObjectId id) second w1) in
  exists p2 c2,
    db w2 !! id = Some p2 /\ consent p2 = Some c2 /\
    marketing c2
    = default (default (marketing c) (cd_marketing first)) (cd_marketing second) /\
    reminders c2
    = default (default (reminders c) (cd_reminders first)) (cd_reminders second) /\
    privacy c2
    = default (default (privacy c) (cd_privacy first)) (cd_privacy second) /\
    givenAt c2 = givenAt c /\
    clock_now w <= updatedAt c2.
Proof.
  intros Hp Hc Hsave w1 Hsave2 w2.
  destruct (put_consent_saved env id w p first Hp Hsave) as (t & Hrun & _).
  rewrite Hc in Hrun.
  set (p1 := stamp (createdAt p) t (set_consent p (new_consent p first w))) in Hrun.
  assert (db w1 !! id = Some p1) as Hp1
    by (subst w1; rewrite Hrun; apply lookup_insert_eq).
  destruct (put_consent_stored env id w1 p1 second Hp1 (Hsave2 p1 Hp1))
    as (p2 & Hdb2 & _ & Hc2 & _).
  fold w2 in Hdb2.
  exists p2, (new_consent p1 second w1).
  split; [rewrite Hdb2; apply lookup_insert_eq|]. split; [exact Hc2|].
  assert (currentConsent p w = c) as Hcur
    by (unfold currentConsent; by rewrite Hc).
  unfold new_consent, consent_update_time. cbn. rewrite Hcur.
  split; [done|]. split; [done|]. split; [done|]. split; [done|].
  subst w1. rewrite Hrun. cbn. lia.
Qed.

Lemma X16_consent_updates_compose_witness :
  let env := clinic (fun _ _ => Return (accepted "wamid.HBgM")) (fun _ => None) in
  let first := {| cd_marketing := Some true; cd_reminders := Some false;
                  cd_privacy := None |} in
  let second := {| cd_marketing := None; cd_reminders := Some true;
                   cd_privacy := None |} in
  let w1 := snd (router_put_consent env (ObjectId 4) first (office waiting_room [9%N])) in
  exists p2 c2,
    db (snd (router_put_consent env (ObjectId 4) second w1)) !! 4%N = Some p2 /\
    consent p2 = Some c2 /\
    marketing c2 = true /\ reminders c2 = true /\ privacy c2 = true /\
    givenAt c2 = 500.
Proof.
  intros env first second w1.
  destruct (X16_consent_updates_compose env 4 (office waiting_room [9%N]) luna_due
              (consent_flags false true) first second eq_refl eq_refl eq_refl
              (fun _ _ => eq_refl))
    as (p2 & c2 & Hp2 & Hc2 & Hm & Hr & Hpr & Hg & _).
  exists p2, c2. repeat (split; [assumption|]). exact Hg.
Defined.

(** X17. Reading a patient leaves the database, the outbox and the
    gateway client alone.  For an identifier that is the text of an
    ObjectId it answers 404 exactly when no patient has it; for any
    other identifier it answers 500 with the cast error's message.
    After a vaccine was scheduled, reading returns the stored document
    and changes nothing at all; the document's [nextVaccine] is the new
    event, its consent is the one the patient had (the default one, for
    a record that had none), its other fields are those of before. *)
Theorem X17_read_after_write env w :
  (forall id,
     db (snd (router_get_id env id w)) = db w /\
     outbox (snd (router_get_id env id w)) = outbox w /\
     whatsappClient (snd (router_get_id env id w)) = whatsappClient w) /\
  (forall id,
     db w !! id = None <->
     fst (router_get_id env (ObjectId id) w)
     = Return {| read_status := 404;
                 read_body := ReadFailure "Paciente no encontrado" |}) /\
  (forall raw,
     fst (router_get_id env (Malformed raw) w)
     = Return {| read_status := 500;
                 read_body := ReadFailure ("Error al obtener paciente: "
                                           ++ CastError_message env raw) |}) /\
  (forall id p data,
     db w !! id = Some p -> vaccine_complete data = true ->
     save_rejects env (set_nextVaccine (loaded p w) (Some (vaccine_of env data)))
     = None ->
     let w' := snd (router_post_vaccine env (ObjectId id) data w) in
     exists p',
       router_get_id env (ObjectId id) w'
       = (Return {| read_status := 200; read_body := PatientDocument id p' |}, w') /\
       nextVaccine p' = Some (vaccine_of env data) /\
       fullName p' = fullName p /\ phone p' = phone p /\
       consent p' = Some (currentConsent p w) /\
       interactions p' = interactions p /\
       lastInteraction p' = lastInteraction p).
Proof.
  split; [|split; [|split]].
  - intros [id|raw]; [|done].
    unfold router_get_id, try_catch, bind.
    destruct (db w !! id) as [p|] eqn:Hp.
    + rewrite (findById_found env id p w Hp). cbn [snd].
      destruct (after_load_frame p w) as (Hdb & Hout & Hcl & _). done.
    + by rewrite (findById_missing env id w Hp).
  - intros id. unfold router_get_id, try_catch, bind.
    destruct (db w !! id) as [p|] eqn:Hp.
    + rewrite (findById_found env id p w Hp). cbn. split; intros H; congruence.
    + by rewrite (findById_missing env id w Hp).
  - intros raw. reflexivity.
  - intros id p data Hp Hdata Hsave w'. subst w'.
    rewrite (post_vaccine_saved env id w p data Hdata Hp Hsave). cbn [snd].
    destruct (loaded_fields p w)
      as (Hfn & Hph &_&_&_&_&_&_&_&_& Hlast & Hint &_).
    pose proof (loaded_consent p w) as Hlc.
    set (p' := stamp (createdAt p) (clock_now (after_load p w))
                 (set_nextVaccine (loaded p w) (Some (vaccine_of env data)))).
    set (w' := stored id p' (ticked (after_load p w))).
    assert (db w' !! id = Some p') as Hp' by apply lookup_insert_eq.
    destruct (loaded_consented p' _ w' Hlc) as (Hl & Ha).
    exists p'. split.
    { unfold router_get_id, try_catch, bind.
      rewrite (findById_found env id p' w' Hp'). by rewrite Hl, Ha. }
    done.
Qed.

Lemma X17_read_after_write_witness :
  let env := clinic (fun _ _ => Return (accepted "wamid.HBgM")) (fun _ => None) in
  let w' := snd (router_post_vaccine env (ObjectId 1) booster (office waiting_room [])) in
  exists p',
    fst (router_get_id env (ObjectId 1) w')
    = Return {| read_status := 200; read_body := PatientDocument 1 p' |} /\
    nextVaccine p' = Some (vaccine_of env booster) /\
    phone p' = "5511110001".
Proof.
  intros env w'.
  destruct (proj2 (proj2 (proj2 (X17_read_after_write env (office waiting_room []))))
              1%N unscheduled booster eq_refl eq_refl eq_refl)
    as (p' & Hread & Hnv & _ & Hphone & _).
  exists p'. split; [exact (f_equal fst Hread)|]. split; [exact Hnv|exact Hphone].
Defined.

(** ** Every request is answered *)

Lemma grows_refl w : grows w w.
Proof. unfold grows. split; [lia|done]. Qed.

Lemma grows_trans w1 w2 w3 : grows w1 w2 -> grows w2 w3 -> grows w1 w3.
Proof.
  intros (Hc & Ho & Hl) (Hc' & Ho' & Hl'). unfold grows.
  split; [lia|]. split; by etrans.
Qed.

Lemma outcome_ret {A} (Q : A -> Prop) E a : Q a -> outcome grows Q E (ret a).
Proof. intros Ha w. split; [apply grows_refl|done]. Qed.

Lemma outcome_throw {A} (Q : A -> Prop) (E : Thrown -> Prop) e :
  E e -> outcome grows Q E (throw e).
Proof. intros He w. split; [apply grows_refl|done]. Qed.

Lemma outcome_bind {A B} (Q : B -> Prop) E (m : M A) (k : A -> M B) :
  outcome grows anything E m -> (forall a, outcome grows Q E (k a)) ->
  outcome grows Q E (bind m k).
Proof.
  intros Hm Hk w. unfold bind. destruct (Hm w) as (Hgrow & Hres).
  destruct (m w) as [[a|e] w1]; cbn in *; [|done].
  destruct (Hk a w1) as (Hgrow' & Hres').
  split; [by eapply grows_trans|done].
Qed.

Lemma outcome_bind_with {A B} (Q1 : A -> Prop) (Q : B -> Prop) E
    (m : M A) (k : A -> M B) :
  outcome grows Q1 E m -> (forall a, Q1 a -> outcome grows Q E (k a)) ->
  outcome grows Q E (bind m k).
Proof.
  intros Hm Hk w. unfold bind. destruct (Hm w) as (Hgrow & Hres).
  destruct (m w) as [[a|e] w1]; cbn in *; [|done].
  destruct (Hk a Hres w1) as (Hgrow' & Hres').
  split; [by eapply grows_trans|done].
Qed.

Lemma outcome_try_catch {A} (Q : A -> Prop) E (m : M A) h :
  outcome grows Q anything m -> (forall e, outcome grows Q E (h e)) ->
  outcome grows Q E (try_catch m h).
Proof.
  intros Hm Hh w. unfold try_catch. destruct (Hm w) as (Hgrow & Hres).
  destruct (m w) as [[a|e] w1]; cbn in *; [done|].
  destruct (Hh e w1) as (Hgrow' & Hres').
  split; [by eapply grows_trans|done].
Qed.

Lemma outcome_anything {A} (m : M A) :
  (forall w, grows w (snd (m w))) -> outcome grows anything anything m.
Proof. intros Hm w. split; [apply Hm|]. by destruct (fst (m w)). Qed.

Lemma outcome_never_throws {A} E (m : M A) :
  (forall w, grows w (snd (m w)) /\ exists a, fst (m w) = Return a) ->
  outcome grows anything E m.
Proof. intros Hm w. destruct (Hm w) as (Hgrow & a & Ha). by rewrite Ha. Qed.

Lemma outcome_newDate E : outcome grows anything E newDate.
Proof.
  apply outcome_never_throws. intros w. split; [|by eexists].
  unfold grows. cbn. split; [lia|done].
Qed.

Lemma outcome_console_write E l text :
  outcome grows anything E (console_write l text).
Proof.
  apply outcome_never_throws. intros w. split; [|by eexists].
  unfold grows. cbn. split; [lia|]. split; [done|by apply prefix_app_r].
Qed.

Lemma grows_after_load p w : grows w (after_load p w).
Proof.
  unfold after_load. destruct (consent p); [apply grows_refl|].
  unfold grows. cbn. split; [lia|done].
Qed.

Lemma outcome_findById env id :
  outcome grows anything anything (findById env id).
Proof.
  apply outcome_anything. intros w. destruct id as [n|raw].
  - destruct (db w !! n) as [p|] eqn:Hp.
    + rewrite (findById_found env n p w Hp). apply grows_after_load.
    + rewrite (findById_missing env n w Hp). apply grows_refl.
  - apply grows_refl.
Qed.

Lemma outcome_put_document E id doc :
  outcome grows anything E (put_document id doc).
Proof.
  apply outcome_never_throws. intros w. split; [|by eexists].
  unfold grows. cbn. split; [lia|done].
Qed.

Lemma outcome_post env data : outcome grows anything anything (post env data).
Proof.
  apply outcome_anything. intros w. unfold grows. cbn.
  split; [lia|]. split; [by apply prefix_app_r|done].
Qed.

Create HintDb outcome discriminated.

#[local] Hint Resolve outcome_ret outcome_throw outcome_newDate
  outcome_console_write outcome_findById outcome_put_document outcome_post
  : outcome.
#[local] Hint Extern 1 (anything _) => exact I : outcome.
#[local] Hint Extern 4 (outcome _ _ _ (bind _ _)) =>
  apply outcome_bind; [|intros ?] : outcome.
#[local] Hint Extern 4 (outcome _ _ _ (try_catch _ _)) =>
  apply outcome_try_catch; [|intros ?] : outcome.
#[local] Hint Extern 5 (outcome _ _ _ (match ?x with _ => _ end)) =>
  destruct x : outcome.

Lemma outcome_ensure_client env :
  outcome grows anything anything (ensure_client env).
Proof.
  apply outcome_anything. intros w. unfold ensure_client.
  destruct (whatsappClient w); [apply grows_refl|].
  unfold new_WhatsAppClient, bind, throw.
  destruct (_ || _); cbn; [apply grows_refl|].
  unfold grows. cbn. split; [lia|]. split; [done|by apply prefix_app_r].
Qed.

Lemma outcome_sendTemplate env to name params :
  outcome grows anything anything (sendTemplate env to name params).
Proof. unfold sendTemplate. auto 10 with outcome. Qed.

Lemma outcome_sendText env to message :
  outcome grows anything anything (sendText env to message).
Proof. unfold sendText. auto 10 with outcome. Qed.

Lemma outcome_on_client {A} (call : M A) :
  outcome grows anything anything call ->
  outcome grows anything anything (on_client call).
Proof.
  intros Hcall w. unfold on_client.
  destruct (whatsappClient w); [apply Hcall|]. split; [apply grows_refl|done].
Qed.

Lemma outcome_save env id doc : outcome grows anything anything (save env id doc).
Proof. unfold save. auto 10 with outcome. Qed.

Lemma outcome_insertOne doc : outcome grows anything anything (insertOne doc).
Proof.
  apply outcome_anything. intros w. unfold insertOne.
  destruct (decide _); [apply grows_refl|].
  unfold grows. cbn. split; [lia|done].
Qed.

#[local] Hint Resolve outcome_ensure_client outcome_sendTemplate
  outcome_sendText outcome_on_client outcome_save outcome_insertOne : outcome.

Lemma outcome_save_new env doc : outcome grows anything anything (save_new env doc).
Proof. unfold save_new. auto 10 with outcome. Qed.

Lemma outcome_send_welcome env ph fn pn E :
  outcome grows anything E (send_welcome env ph fn pn).
Proof. unfold send_welcome. auto 10 with outcome. Qed.

Lemma outcome_new_Patient env a b c d e f g h E :
  outcome grows anything E (new_Patient env a b c d e f g h).
Proof. unfold new_Patient, default_consent. auto 10 with outcome. Qed.

#[local] Hint Resolve outcome_save_new outcome_send_welcome
  outcome_new_Patient : outcome.

Ltac status_in := cbn; tauto.

Lemma outcome_router env req :
  outcome grows (fun res => In (status res) (codes_of req)) nothing
    (router env req).
Proof.
  destruct req as [data|id data|id|id data]; cbn [router codes_of].
  - unfold router_post.
    apply outcome_try_catch; [|intros e].
    + destruct (_ || _); [apply outcome_ret; status_in|].
      cbv zeta. apply outcome_bind; [auto with outcome|intros patient].
      apply outcome_bind; [auto with outcome|intros id].
      apply outcome_bind; [auto with outcome|intros _].
      apply outcome_ret. status_in.
    + apply outcome_bind; [auto with outcome|intros _].
      destruct (decide _); apply outcome_ret; status_in.
  - unfold router_post_vaccine.
    apply outcome_try_catch; [|intros e].
    + destruct (_ || _); [apply outcome_ret; status_in|].
      apply outcome_bind; [auto with outcome|intros [[_id patient]|]];
        [|apply outcome_ret; status_in].
      apply outcome_bind; [auto with outcome|intros _].
      apply outcome_ret. status_in.
    + apply outcome_bind; [auto with outcome|intros _].
      apply outcome_ret. status_in.
  - unfold router_post_reminder, initWhatsApp.
    apply (outcome_bind_with
             (fun failed => forall res, failed = Some res -> status res = 500)).
    + apply outcome_try_catch; [|intros e; apply outcome_ret; by intros ? [= <-]].
      apply outcome_bind; [auto with outcome|intros _]. by apply outcome_ret.
    + intros [res|] Hfailed.
      { apply outcome_ret. rewrite (Hfailed res eq_refl). status_in. }
      unfold reminder_handler.
      apply outcome_try_catch; [|intros e].
      * apply outcome_bind; [auto with outcome|intros [[_id patient]|]];
          [|apply outcome_ret; status_in].
        destruct (nextVaccine patient) as [nv|]; [|apply outcome_ret; status_in].
        destruct (negb _); [apply outcome_ret; status_in|].
        apply outcome_bind; [auto with outcome|intros response].
        apply outcome_bind; [auto with outcome|intros timestamp].
        apply outcome_bind; [auto with outcome|intros last].
        apply outcome_bind; [auto with outcome|intros _].
        apply outcome_ret. status_in.
      * apply outcome_bind; [auto with outcome|intros _].
        apply outcome_ret. status_in.
  - unfold router_put_consent.
    apply outcome_try_catch; [|intros e].
    + apply outcome_bind; [auto with outcome|intros [[_id patient]|]];
        [|apply outcome_ret; status_in].
      apply outcome_bind.
      { destruct (consent patient); [by apply outcome_ret|].
        unfold default_consent. auto 10 with outcome. }
      intros currentConsent_.
      apply outcome_bind; [auto with outcome|intros now].
      apply outcome_bind; [auto with outcome|intros _].
      apply outcome_ret. status_in.
    + apply outcome_bind; [auto with outcome|intros _].
      apply outcome_ret. status_in.
Qed.

(** X18. Every request to a writing route is answered, never thrown
    out of the handler, with one of the route's status codes; while it
    is served the clock does not go back and the requests posted to the
    provider and the console lines so far are kept, new ones coming
    after them.  The same holds over any sequence of requests. *)
Theorem X18_every_request_is_answered env :
  (forall req w,
     grows w (snd (router env req w)) /\
     exists res, fst (router env req w) = Return res /\
                 In (status res) (codes_of req)) /\
  (forall reqs w, grows w (served env reqs w)).
Proof.
  split.
  - intros req w. destruct (outcome_router env req w) as (Hgrow & Hres).
    split; [exact Hgrow|].
    destruct (fst (router env req w)) as [res|e]; [eauto|done].
  - intros reqs. induction reqs as [|req reqs IH]; intros w; cbn.
    + apply grows_refl.
    + eapply grows_trans; [|apply IH]. apply (outcome_router env req w).
Qed.

(** ** What holds of every stored patient *)

Lemma patient_ok_mono now later p :
  now <= later -> patient_ok now p -> patient_ok later p.
Proof.
  intros Hle [Hc Hh Hv Hr Hs Hl Hcr]. split; try done.
  - destruct Hc as (c & Hc & Hg & Hu). exists c. repeat split; [done..|lia].
  - destruct (lastInteraction p); [|done].
    destruct Hl as (Hne & Hl & Hall). repeat split; [done|lia|done].
  - destruct Hcr as (c & u & Hc' & Hu & Hcu & Hun).
    exists c, u. repeat split; [done..|lia].
Qed.

Lemma timeline_bounded now p :
  patient_ok now p -> Forall (fun t => t <= now) (timeline p).
Proof.
  intros [_ _ _ _ _ Hl _]. destruct (lastInteraction p) as [l|].
  - destruct Hl as (_ & Hl & Hall).
    eapply Forall_impl; [exact Hall|]. intros t Ht. cbn in Ht. lia.
  - unfold timeline. rewrite Hl. constructor.
Qed.

Lemma TlRel_bounded (l : list Z) bound x :
  Forall (fun t => t <= bound) l -> bound <= x -> TlRel Z.le x l.
Proof.
  intros Hall Hx. destruct l as [|y l _] using rev_ind; [constructor|].
  apply Forall_app in Hall as [_ Hy]. apply Forall_inv in Hy.
  cbn in Hy. constructor. lia.
Qed.

Lemma world_ok_same w w' :
  db w' = db w -> clock_now w <= clock_now w' -> world_ok w -> world_ok w'.
Proof.
  intros Hdb Hclock [Huniq Hall]. unfold world_ok. rewrite Hdb.
  split; [done|]. intros id p Hp. eapply patient_ok_mono; [done|].
  by apply (Hall id p).
Qed.

Lemma world_ok_update w w' id p p' :
  world_ok w -> db w !! id = Some p -> db w' = <[id := p']> (db w) ->
  clock_now w <= clock_now w' -> phone p' = phone p ->
  patient_ok (clock_now w') p' -> world_ok w'.
Proof.
  intros [Huniq Hall] Hp Hdb Hclock Hphone Hok. unfold world_ok. rewrite Hdb.
  split.
  - intros i j a b Ha Hb Hab.
    destruct (decide (i = id)) as [->|Hi], (decide (j = id)) as [->|Hj];
      [done|..].
    + rewrite lookup_insert_eq in Ha. rewrite lookup_insert_ne in Hb by done.
      injection Ha as <-. apply (Huniq id j p b); congruence.
    + rewrite lookup_insert_eq in Hb. rewrite lookup_insert_ne in Ha by done.
      injection Hb as <-. apply (Huniq i id a p); congruence.
    + rewrite lookup_insert_ne in Ha, Hb by done. by apply (Huniq i j a b).
  - intros i a Ha. destruct (decide (i = id)) as [->|Hi].
    + rewrite lookup_insert_eq in Ha. by injection Ha as <-.
    + rewrite lookup_insert_ne in Ha by done.
      eapply patient_ok_mono; [done|]. by apply (Hall i a).
Qed.

Lemma world_ok_insert w w' id doc :
  world_ok w -> db w !! id = None -> ~ phone_indexed (phone doc) (db w) ->
  db w' = <[id := doc]> (db w) -> clock_now w <= clock_now w' ->
  patient_ok (clock_now w') doc -> world_ok w'.
Proof.
  intros [Huniq Hall] Hnone Hnew Hdb Hclock Hok. unfold world_ok. rewrite Hdb.
  split.
  - intros i j a b Ha Hb Hab.
    destruct (decide (i = id)) as [->|Hi], (decide (j = id)) as [->|Hj];
      [done|..].
    + rewrite lookup_insert_eq in Ha. rewrite lookup_insert_ne in Hb by done.
      injection Ha as <-. destruct Hnew. by exists j, b.
    + rewrite lookup_insert_eq in Hb. rewrite lookup_insert_ne in Ha by done.
      injection Hb as <-. destruct Hnew. by exists i, a.
    + rewrite lookup_insert_ne in Ha, Hb by done. by apply (Huniq i j a b).
  - intros i a Ha. destruct (decide (i = id)) as [->|Hi].
    + rewrite lookup_insert_eq in Ha. by injection Ha as <-.
    + rewrite lookup_insert_ne in Ha by done.
      eapply patient_ok_mono; [done|]. by apply (Hall i a).
Qed.

Lemma post_vaccine_effect env id data w :
  let w' := snd (router_post_vaccine env id data w) in
  db w' = db w \/
  exists n p,
    id = ObjectId n /\ db w !! n = Some p /\
    w' = stored n (stamp (createdAt p) (clock_now (after_load p w))
                     (set_nextVaccine (loaded p w) (Some (vaccine_of env data))))
           (ticked (after_load p w)).
Proof.
  intros w'. subst w'.
  destruct (vaccine_complete data) eqn:Hdata;
    [|left; by rewrite post_vaccine_incomplete].
  destruct id as [n|raw]; [|left; by rewrite post_vaccine_malformed].
  destruct (db w !! n) as [p|] eqn:Hp;
    [|left; by rewrite post_vaccine_not_found].
  rewrite (post_vaccine_run env n w p data Hdata Hp).
  destruct (save_rejects env _) as [msg|].
  - left. destruct (after_load_frame p w) as (Hdb & _). done.
  - right. by exists n, p.
Qed.

Lemma post_vaccine_ok env id data w :
  world_ok w -> world_ok (snd (router_post_vaccine env id data w)).
Proof.
  intros Hok.
  pose proof (outcome_router env (POST_vaccine id data) w) as [(Hclock & _) _].
  cbn [router] in Hclock.
  destruct (post_vaccine_effect env id data w) as [Hdb|(n & p & -> & Hp & Hrun)].
  - by apply (world_ok_same w).
  - pose proof (proj2 Hok n p Hp) as Hpok. cbn beta in Hpok.
    destruct (ok_consent _ _ Hpok) as (c & Hc & _).
    destruct (loaded_consented p c w Hc) as (Hl & Ha). rewrite Hl, Ha in Hrun.
    set (w' := snd (router_post_vaccine env (ObjectId n) data w)) in *.
    apply (world_ok_update w w' n p
             (stamp (createdAt p) (clock_now w)
                (set_nextVaccine p (Some (vaccine_of env data)))));
      [done|done|by rewrite Hrun|done|done|].
    apply (patient_ok_mono _ _ _ Hclock) in Hpok as Hlater.
    destruct Hlater as [Hc' Hh Hv Hr Hs Hlast Hcr]. split; try done.
    + intros nv [= <-]. done.
    + destruct Hpok as [_ _ _ _ _ _ (cr & u & Hcr' & Hu & Hcu & Hun)].
      exists cr, (clock_now w). cbn. repeat split; [done|lia|lia].
Qed.

Lemma put_consent_effect env id data w :
  let w' := snd (router_put_consent env id data w) in
  db w' = db w \/
  exists n p t,
    id = ObjectId n /\ db w !! n = Some p /\
    db w' = <[n := stamp (createdAt p) t (set_consent p (new_consent p data w))]>
              (db w) /\
    clock_now w <= consent_update_time p w /\
    consent_update_time p w <= t /\ t <= clock_now w' /\
    (consent p = None -> reading 0 w <= reading 1 w <= consent_update_time p w).
Proof.
  intros w'. subst w'.
  destruct id as [n|raw]; [|by left].
  destruct (db w !! n) as [p|] eqn:Hp.
  2:{ left. unfold router_put_consent, try_catch, bind.
      by rewrite (findById_missing env n w Hp). }
  destruct (save_rejects env (set_consent p (new_consent p data w)))
    as [msg|] eqn:Hsave.
  - left. by destruct (put_consent_refused env n w p data msg Hp Hsave) as (_ & -> & _).
  - right. exists n, p. rewrite (put_consent_run env n w p data Hp Hsave).
    exists (match consent p with Some _ => reading 1 w | None => reading 3 w end).
    split; [done|]. split; [done|]. split; [by destruct (consent p)|].
    unfold consent_update_time.
    destruct (consent p); cbn; repeat split; try lia; done.
Qed.

Lemma put_consent_ok env id data w :
  world_ok w -> world_ok (snd (router_put_consent env id data w)).
Proof.
  intros Hok.
  pose proof (outcome_router env (PUT_consent id data) w) as [(Hclock & _) _].
  cbn [router] in Hclock.
  destruct (put_consent_effect env id data w)
    as [Hdb|(n & p & t & -> & Hp & Hdb & Hnow & Htime & Ht & Hnone)].
  - by apply (world_ok_same w).
  - pose proof (proj2 Hok n p Hp) as Hpok. cbn beta in Hpok.
    set (w' := snd (router_put_consent env (ObjectId n) data w)) in *.
    apply (world_ok_update w w' n p
             (stamp (createdAt p) t (set_consent p (new_consent p data w))));
      [done|done|done|done|done|].
    apply (patient_ok_mono _ _ _ Hclock) in Hpok as Hlater.
    destruct Hlater as [Hc Hh Hv Hr Hs Hl Hcr]. split; try done.
    + eexists. split; [reflexivity|]. cbn.
      destruct Hpok as [(c & Hc' & Hg & Hu) _ _ _ _ _ _].
      unfold currentConsent. rewrite Hc'. lia.
    + destruct Hpok as [_ _ _ _ _ _ (c & u & Hc' & Hu & Hcu & Hun)].
      exists c, t. cbn. repeat split; [done|lia|lia].
Qed.

Lemma initWhatsApp_cases env next w :
  (initWhatsApp env next w = next (ready env w) /\
   is_Some (whatsappClient (ready env w))) \/
  (exists res, initWhatsApp env next w = (Return res, w)).
Proof.
  unfold initWhatsApp, bind, try_catch.
  destruct (whatsappClient w) as [c|] eqn:Hclient.
  - left. unfold ready, ensure_client. rewrite Hclient. cbn. rewrite Hclient. eauto.
  - destruct (credentials_missing env) eqn:Hcred.
    + right. rewrite (ensure_client_missing env w Hclient Hcred). cbn. eauto.
    + left. unfold ready, ensure_client. rewrite Hclient.
      unfold bind, new_WhatsAppClient. fold (credentials_missing env).
      rewrite Hcred. cbn. eauto.
Qed.

Lemma post_reminder_effect env id w :
  let w' := snd (router_post_reminder env id w) in
  db w' = db w \/
  exists n p nv r,
    id = ObjectId n /\ db w !! n = Some p /\ nextVaccine p = Some nv /\
    db w' = <[n := stamp (createdAt p) (reading 2 (after_load p w))
                     (reminded (loaded p w) nv r
                        (reading 0 (after_load p w))
                        (reading 1 (after_load p w)))]> (db w) /\
    clock_now w' = reading 3 (after_load p w).
Proof.
  intros w'. subst w'. unfold router_post_reminder.
  destruct (initWhatsApp_cases env (reminder_handler env id) w)
    as [[-> Hclient]|[res ->]]; [|by left].
  destruct (ready_frame env w) as (Hdb & Hout & Hnow & Hticks).
  destruct id as [n|raw]; [|left; by rewrite reminder_handler_malformed].
  destruct (db w !! n) as [p|] eqn:Hp.
  2:{ left. rewrite reminder_handler_not_found by (by rewrite Hdb). done. }
  destruct (after_load_frame p (ready env w)) as (Hdb0 & _).
  destruct (nextVaccine p) as [nv|] eqn:Hnv.
  2:{ left. rewrite (reminder_handler_no_vaccine env n _ p) by (by rewrite ?Hdb).
      cbn [snd]. by rewrite Hdb0. }
  destruct (consent_reminders p) eqn:Hconsent.
  2:{ left.
      rewrite (reminder_handler_consent_denied env n _ p) with (nv := nv)
        by (by rewrite ?Hdb). cbn [snd]. by rewrite Hdb0. }
  rewrite (reminder_handler_sends env n (ready env w) p) with (nv := nv);
    [|by rewrite Hdb|done|done|done].
  destruct (provider env _ _) as [r|e]; [|left; cbn; by rewrite Hdb0].
  cbn zeta. rewrite !reading_after_load_ready, loaded_ready.
  destruct (save_rejects env _) as [msg|]; [left; cbn; by rewrite Hdb0|].
  right. exists n, p, nv, r. split; [done|]. split; [done|]. split; [done|].
  split; [cbn; by rewrite Hdb0, Hdb|].
  rewrite <- (reading_after_load_ready 3 env p w). reflexivity.
Qed.

Lemma post_reminder_ok env id w :
  world_ok w -> world_ok (snd (router_post_reminder env id w)).
Proof.
  intros Hok.
  pose proof (outcome_router env (POST_reminder id) w) as [(Hclock & _) _].
  cbn [router] in Hclock.
  destruct (post_reminder_effect env id w)
    as [Hdb|(n & p & nv & r & -> & Hp & Hnv & Hdb & Hnow)].
  - by apply (world_ok_same w).
  - pose proof (proj2 Hok n p Hp) as Hpok. cbn beta in Hpok.
    destruct (ok_consent _ _ Hpok) as (c & Hc & _).
    destruct (loaded_consented p c w Hc) as (Hl & Ha).
    rewrite Hl, Ha in Hdb. rewrite Ha in Hnow.
    set (w' := snd (router_post_reminder env (ObjectId n) w)) in *.
    pose proof (reading_mono 0 w) as H01. pose proof (reading_mono 1 w) as H12.
    pose proof (reading_mono 2 w) as H23.
    change (reading 0 w) with (clock_now w) in H01.
    apply (world_ok_update w w' n p
             (stamp (createdAt p) (reading 2 w)
                (reminded p nv r (reading 0 w) (reading 1 w))));
      [done|done|done|done|done|].
    pose proof (timeline_bounded _ _ Hpok) as Hbound.
    apply (patient_ok_mono _ _ _ Hclock) in Hpok as Hlater.
    destruct Hlater as [Hc' Hh Hv Hr Hs Hlast Hcr]. split; try done.
    + cbn. apply Forall_app. split; [done|]. repeat constructor. by eexists.
    + unfold timeline. cbn. rewrite omap_app. cbn.
      apply Sorted_snoc; [done|]. by apply (TlRel_bounded _ (clock_now w)).
    + cbn [lastInteraction stamp reminded set_lastInteraction set_interactions
           interactions].
      split; [by destruct (interactions p)|]. split; [lia|].
      unfold timeline.
      cbn [lastInteraction stamp reminded set_lastInteraction set_interactions
           interactions].
      rewrite omap_app. apply Forall_app. split.
      * eapply Forall_impl; [exact Hbound|]. intros t' Ht'. cbn beta in Ht'. lia.
      * cbn -[reading]. repeat constructor.
        change (reading 0 w) with (clock_now w). lia.
    + destruct Hpok as [_ _ _ _ _ _ (cr & u & Hcr' & Hu & Hcu & Hun)].
      exists cr, (reading 2 w). repeat split; [done|lia|lia].
Qed.

Lemma post_patient_effect env data w :
  let w' := snd (router_post env data w) in
  db w' = db w \/
  (~ phone_indexed (phone (patient_of env data w)) (db w) /\
   db w' = <[fresh (dom (db w)) :=
               stamp (Some (reading 2 w)) (reading 2 w) (patient_of env data w)]> (db w) /\
   reading 2 w <= clock_now w').
Proof.
  intros w'. subst w'.
  destruct (patient_complete data) eqn:Hdata;
    [|left; by rewrite post_incomplete].
  destruct (save_rejects env (patient_of env data w)) as [msg|] eqn:Hsave.
  - left. unfold router_post, try_catch. rewrite patient_guard, Hdata. cbn [negb].
    cbv zeta. unfold bind at 1. rewrite new_Patient_run.
    unfold bind at 1. unfold save_new. by rewrite Hsave.
  - destruct (decide (phone_indexed (phone (patient_of env data w)) (db w)))
      as [Hdup|Hnew].
    + left. by rewrite (post_duplicate env data w Hdata Hsave Hdup).
    + right. split; [done|]. split; [by apply post_created_db|].
      rewrite (post_created env data w Hdata Hsave Hnew). cbn [snd].
      match goal with
      | |- _ <= clock_now (snd (send_welcome ?e ?a ?b ?c ?saved)) =>
          destruct (outcome_send_welcome e a b c anything saved) as [(Hclock & _) _]
      end.
      pose proof (reading_mono 2 w) as H23. cbn in *. lia.
Qed.

Lemma post_patient_ok env data w :
  world_ok w -> world_ok (snd (router_post env data w)).
Proof.
  intros Hok.
  pose proof (outcome_router env (POST_patient data) w) as [(Hclock & _) _].
  cbn [router] in Hclock.
  destruct (post_patient_effect env data w) as [Hdb|(Hnew & Hdb & Hlate)].
  - by apply (world_ok_same w).
  - set (w' := snd (router_post env data w)) in *.
    pose proof (reading_mono 0 w) as H01. pose proof (reading_mono 1 w) as H12.
    apply (world_ok_insert w w' (fresh (dom (db w)))
             (stamp (Some (reading 2 w)) (reading 2 w) (patient_of env data w)));
      [done|apply not_elem_of_dom, is_fresh|done|done|done|].
    split; cbn -[reading]; try done;
      try (unfold timeline; cbn -[reading]; by constructor).
    + eexists. split; [reflexivity|]. cbn -[reading]. lia.
    + eexists _, _. repeat split; [lia|lia].
Qed.

Lemma router_ok env req w : world_ok w -> world_ok (snd (router env req w)).
Proof.
  destruct req; cbn [router];
    auto using post_patient_ok, post_vaccine_ok, post_reminder_ok, put_consent_ok.
Qed.

Lemma served_ok env reqs w : world_ok w -> world_ok (served env reqs w).
Proof.
  revert w. induction reqs as [|req reqs IH]; intros w Hok; [done|].
  cbn. by apply IH, router_ok.
Qed.

Lemma started_ok now ticks : world_ok (started now ticks).
Proof.
  split.
  - intros i j p q Hp. cbn [started db] in Hp. by rewrite lookup_empty in Hp.
  - cbn [started db]. apply map_Forall_empty.
Qed.

Lemma stored_patient_ok env reqs now ticks id p :
  db (served env reqs (started now ticks)) !! id = Some p ->
  patient_ok (clock_now (served env reqs (started now ticks))) p.
Proof.
  intros Hp.
  exact (proj2 (served_ok env reqs _ (started_ok now ticks)) id p Hp).
Qed.

(** X19.  Starting from an empty collection, whatever requests are served,
    two different stored patients never have the same phone: the unique
    index stops the second registration, and no route changes a phone. *)
Theorem X19_phones_stay_unique env reqs now ticks i j p q :
  db (served env reqs (started now ticks)) !! i = Some p ->
  db (served env reqs (started now ticks)) !! j = Some q ->
  i <> j -> phone p <> phone q.
Proof.
  intros Hp Hq Hij Hphone. apply Hij.
  exact (proj1 (served_ok env reqs _ (started_ok now ticks)) i j p q Hp Hq Hphone).
Qed.

Lemma X19_phones_stay_unique_witness :
  exists p q,
    db (served open_clinic a_day morning) !! 0%N = Some p /\
    db (served open_clinic a_day morning) !! 1%N = Some q /\
    phone p <> phone q.
Proof.
  eexists _, _. split; [vm_compute; reflexivity|].
  split; [vm_compute; reflexivity|].
  apply (X19_phones_stay_unique open_clinic a_day 1767225600000 [1%N; 2%N]
           0%N 1%N); [vm_compute; reflexivity|vm_compute; reflexivity|done].
Defined.

(** X20.  Every patient the routes have stored, starting from an empty
    collection, has a consent record, so [needsReminder] and
    [canReceiveOffers] return a boolean for it: the [TypeError] of a
    record without consent is never reached. *)
Theorem X20_eligibility_never_throws env reqs now ticks id p today daysBefore :
  db (served env reqs (started now ticks)) !! id = Some p ->
  is_Some (consent p) /\
  (exists b, needsReminder today p daysBefore = Return b) /\
  (exists b, canReceiveOffers today p = Return b).
Proof.
  intros Hp. destruct (stored_patient_ok _ _ _ _ _ _ Hp) as [Hc _ _ _ _ _ _].
  destruct Hc as (c & Hc & _). split; [by rewrite Hc|]. split.
  - unfold needsReminder. rewrite Hc.
    destruct (nextVaccine p) as [nv|]; [|by eexists].
    destruct (negb (reminders c)); [by eexists|].
    destruct (diffDays today (v_date nv)); by eexists.
  - unfold canReceiveOffers. rewrite Hc.
    destruct (negb (marketing c)); [by eexists|].
    destruct (lastInteraction p); by eexists.
Qed.

Lemma X20_eligibility_never_throws_witness :
  exists p,
    db (served open_clinic a_day morning) !! 0%N = Some p /\
    is_Some (consent p) /\
    (exists b, needsReminder 1767225600010 p None = Return b) /\
    (exists b, canReceiveOffers 1767225600010 p = Return b).
Proof.
  eexists. split; [vm_compute; reflexivity|].
  apply (X20_eligibility_never_throws open_clinic a_day 1767225600000
           [1%N; 2%N] 0%N).
  vm_compute; reflexivity.
Defined.

(** X21.  Starting from an empty collection, the interaction history of
    every stored patient holds only reminders with status SENT, each
    with its instant, in the order they were sent; [lastInteraction] is
    unset exactly when the history is empty, and otherwise no record is
    later than it. *)
Theorem X21_interaction_history env reqs now ticks id p :
  db (served env reqs (started now ticks)) !! id = Some p ->
  Forall (fun i => i_type i = REMINDER_SENT /\ i_status i = Some SENT /\
                   is_Some (i_timestamp i)) (interactions p) /\
  Sorted Z.le (timeline p) /\
  (lastInteraction p = None <-> interactions p = []) /\
  (forall l, lastInteraction p = Some l -> Forall (fun t => t <= l) (timeline p)).
Proof.
  intros Hp. destruct (stored_patient_ok _ _ _ _ _ _ Hp) as [_ _ _ Hr Hs Hl _].
  split; [done|]. split; [done|]. destruct (lastInteraction p) as [l|].
  - destruct Hl as (Hne & _ & Hall). split; [by split|].
    by intros ? [= <-].
  - split; [done|]. by intros.
Qed.

Lemma X21_interaction_history_witness :
  exists p,
    db (served open_clinic a_day morning) !! 0%N = Some p /\
    Forall (fun i => i_type i = REMINDER_SENT /\ i_status i = Some SENT /\
                     is_Some (i_timestamp i)) (interactions p) /\
    Sorted Z.le (timeline p) /\
    (lastInteraction p = None <-> interactions p = []) /\
    (forall l, lastInteraction p = Some l ->
               Forall (fun t => t <= l) (timeline p)).
Proof.
  eexists. split; [vm_compute; reflexivity|].
  apply (X21_interaction_history open_clinic a_day 1767225600000
           [1%N; 2%N] 0%N).
  vm_compute; reflexivity.
Defined.

(** X22.  Starting from an empty collection, nothing in a stored patient
    is dated in the future: consent was given no later than it was last
    updated, the record was created no later than it was last saved, and
    these instants and the last interaction are no later than the
    clock. *)
Theorem X22_nothing_dated_ahead env reqs now ticks id p :
  db (served env reqs (started now ticks)) !! id = Some p ->
  exists c created updated,
    consent p = Some c /\ createdAt p = Some created /\
    p_updatedAt p = Some updated /\
    givenAt c <= updatedAt c <= clock_now (served env reqs (started now ticks)) /\
    created <= updated <= clock_now (served env reqs (started now ticks)) /\
    (forall l, lastInteraction p = Some l ->
               l <= clock_now (served env reqs (started now ticks))).
Proof.
  intros Hp. destruct (stored_patient_ok _ _ _ _ _ _ Hp) as [Hc _ _ _ _ Hl Hcr].
  destruct Hc as (c & Hc & Hg & Hu).
  destruct Hcr as (cr & u & Hcr & Hup & Hcu & Hun).
  exists c, cr, u. repeat split; try done.
  intros l Hlast. rewrite Hlast in Hl. by destruct Hl as (_ & Hl & _).
Qed.

Lemma X22_nothing_dated_ahead_witness :
  exists p,
    db (served open_clinic a_day morning) !! 0%N = Some p /\
    exists c created updated,
      consent p = Some c /\ createdAt p = Some created /\
      p_updatedAt p = Some updated /\
      givenAt c <= updatedAt c <= clock_now (served open_clinic a_day morning) /\
      created <= updated <= clock_now (served open_clinic a_day morning) /\
      (forall l, lastInteraction p = Some l ->
                 l <= clock_now (served open_clinic a_day morning)).
Proof.
  eexists. split; [vm_compute; reflexivity|].
  apply (X22_nothing_dated_ahead open_clinic a_day 1767225600000
           [1%N; 2%N] 0%N).
  vm_compute; reflexivity.
Defined.

(** X23.  No route administers a vaccine: starting from an empty
    collection, the vaccine history of every stored patient is empty,
    and a scheduled vaccine is never marked as administered nor given a
    next dose date. *)
Theorem X23_vaccines_only_scheduled env reqs now ticks id p :
  db (served env reqs (started now ticks)) !! id = Some p ->
  vaccineHistory p = [] /\
  forall nv, nextVaccine p = Some nv ->
             v_administered nv = false /\ v_nextDoseDate nv = None.
Proof.
  intros Hp. by destruct (stored_patient_ok _ _ _ _ _ _ Hp) as [_ Hh Hv _ _ _ _].
Qed.

Lemma X23_vaccines_only_scheduled_witness :
  exists p,
    db (served open_clinic a_day morning) !! 0%N = Some p /\
    vaccineHistory p = [] /\
    forall nv, nextVaccine p = Some nv ->
               v_administered nv = false /\ v_nextDoseDate nv = None.
Proof.
  eexists. split; [vm_compute; reflexivity|].
  apply (X23_vaccines_only_scheduled open_clinic a_day 1767225600000
           [1%N; 2%N] 0%N).
  vm_compute; reflexivity.
Defined.

(** ** Stored patients are never lost *)

Lemma kept_refl p : kept p p.
Proof. by repeat split. Qed.

Lemma kept_trans p1 p2 p3 : kept p1 p2 -> kept p2 p3 -> kept p1 p3.
Proof.
  unfold kept. intros H12 H23.
  destruct H12 as (?&?&?&?&?&?&?&?&?&?&?&?).
  destruct H23 as (?&?&?&?&?&?&?&?&?&?&?&?).
  repeat split; try congruence. by etrans.
Qed.

Lemma kept_update (m m' : gmap N IPatient) id p0 p0' i p :
  m !! id = Some p0 -> m' = <[id := p0']> m -> kept p0 p0' ->
  m !! i = Some p -> exists p', m' !! i = Some p' /\ kept p p'.
Proof.
  intros Hid -> Hkept Hi. destruct (decide (i = id)) as [->|Hne].
  - exists p0'. rewrite lookup_insert_eq. split; [done|]. congruence.
  - exists p. rewrite lookup_insert_ne by done. split; [done|apply kept_refl].
Qed.

Lemma kept_same (m m' : gmap N IPatient) i p :
  m' = m -> m !! i = Some p -> exists p', m' !! i = Some p' /\ kept p p'.
Proof. intros -> Hi. exists p. split; [done|apply kept_refl]. Qed.

Lemma router_keeps env req w i p :
  db w !! i = Some p ->
  exists p', db (snd (router env req w)) !! i = Some p' /\ kept p p'.
Proof.
  intros Hi. destruct req as [data|id data|id|id data]; cbn [router].
  - destruct (post_patient_effect env data w) as [Hdb|(_ & Hdb & _)].
    + by apply (kept_same (db w)).
    + exists p. split; [|apply kept_refl]. rewrite Hdb.
      rewrite lookup_insert_ne; [done|].
      intros <-. pose proof (is_fresh (dom (db w))) as Hfresh.
      apply not_elem_of_dom in Hfresh. congruence.
  - destruct (post_vaccine_effect env id data w)
      as [Hdb|(n & p0 & -> & Hp0 & Hrun)].
    + by apply (kept_same (db w)).
    + rewrite Hrun. destruct (after_load_frame p0 w) as (Hdb & _).
      destruct (loaded_fields p0 w)
        as (?&?&?&?&?&?&?&?&?&?&?& Hint &?&?&?).
      eapply (kept_update (db w)); [exact Hp0|cbn; by rewrite Hdb| |done].
      unfold kept. cbn. rewrite Hint. by split_and!.
  - destruct (post_reminder_effect env id w)
      as [Hdb|(n & p0 & nv & r & -> & Hp0 & _ & Hdb & _)].
    + by apply (kept_same (db w)).
    + destruct (loaded_fields p0 w)
        as (?&?&?&?&?&?&?&?&?&?&?& Hint &?&?&?).
      eapply (kept_update (db w)); [exact Hp0|exact Hdb| |done].
      unfold kept. cbn. rewrite Hint. split_and!; try done.
      by apply prefix_app_r.
  - destruct (put_consent_effect env id data w)
      as [Hdb|(n & p0 & t & -> & Hp0 & Hdb & _)].
    + by apply (kept_same (db w)).
    + eapply (kept_update (db w)); [exact Hp0|exact Hdb| |done].
      by repeat split.
Qed.

Lemma served_keeps env reqs w i p :
  db w !! i = Some p ->
  exists p', db (served env reqs w) !! i = Some p' /\ kept p p'.
Proof.
  revert w p. induction reqs as [|req reqs IH]; intros w p Hi.
  - exists p. split; [done|apply kept_refl].
  - destruct (router_keeps env req w i p Hi) as (p1 & H1 & Hk1).
    destruct (IH _ p1 H1) as (p2 & H2 & Hk2).
    exists p2. split; [done|]. by apply (kept_trans p p1 p2).
Qed.

(** X24.  No request deletes a patient or rewrites who they are: a stored
    patient is still stored under the same identifier after any sequence
    of requests, with the same name, phone, e-mail, pet data, preferences
    and creation date, and with an interaction history that extends the
    old one. *)
Theorem X24_patients_are_kept env reqs w id p :
  db w !! id = Some p ->
  exists p', db (served env reqs w) !! id = Some p' /\ kept p p'.
Proof. apply served_keeps. Qed.

Lemma X24_patients_are_kept_witness :
  exists p',
    db (served open_clinic [POST_reminder (ObjectId 4); PUT_consent (ObjectId 4) marketing_on;
                            POST_patient (rocky "5598765432")]
          (office waiting_room [])) !! 4%N = Some p' /\
    kept luna_due p'.
Proof.
  apply (X24_patients_are_kept open_clinic
           [POST_reminder (ObjectId 4); PUT_consent (ObjectId 4) marketing_on;
            POST_patient (rocky "5598765432")]
           (office waiting_room []) 4%N luna_due).
  reflexivity.
Defined.

(** ** The template creation script *)

Lemma create_template_requests graph url t s :
  requests (create_template graph url t s) = (requests s ++ [(url, t)])%list.
Proof.
  unfold create_template. destruct (graph _ _) as [id|e]; [done|].
  by destruct (bool_decide _).
Qed.

Lemma create_template_tally graph url t s :
  createdCount (create_template graph url t s)
  = createdCount s
    + match graph (requests s) (url, t) with Return _ => 1 | Throw _ => 0 end /\
  errorCount (create_template graph url t s)
  = errorCount s + if acceptable (graph (requests s) (url, t)) then 0 else 1.
Proof.
  unfold create_template, acceptable.
  destruct (graph _ _) as [id|e]; cbn; [lia|].
  destruct (bool_decide _); cbn; lia.
Qed.

Lemma create_each_requests graph url ts s :
  requests (create_each graph url ts s)
  = (requests s ++ map (pair url) ts)%list.
Proof.
  revert s. induction ts as [|t ts IH]; intros s; cbn [create_each map].
  - by rewrite app_nil_r.
  - by rewrite IH, create_template_requests, <- app_assoc.
Qed.

Lemma create_each_tally graph url ts s :
  createdCount s <= createdCount (create_each graph url ts s) /\
  errorCount s <= errorCount (create_each graph url ts s) /\
  (createdCount (create_each graph url ts s) - createdCount s)
  + (errorCount (create_each graph url ts s) - errorCount s)
  <= Z.of_nat (length ts).
Proof.
  revert s. induction ts as [|t ts IH]; intros s; cbn [create_each length].
  - lia.
  - destruct (IH (create_template graph url t s)) as (Hc & He & Hsum).
    destruct (create_template_tally graph url t s) as [Hc1 He1].
    destruct (graph (requests s) (url, t)) as [id|e]; cbn [acceptable] in *.
    + lia.
    + destruct (bool_decide _); lia.
Qed.

Lemma create_each_errors graph url ts s :
  errorCount (create_each graph url ts s) = errorCount s <->
  forall k t, ts !! k = Some t ->
    acceptable (graph (requests s ++ map (pair url) (take k ts))%list (url, t))
    = true.
Proof.
  revert s. induction ts as [|t ts IH]; intros s; cbn [create_each].
  - split; [|done]. by intros _ k t'.
  - destruct (create_each_tally graph url ts (create_template graph url t s))
      as (_ & Hmono & _).
    destruct (create_template_tally graph url t s) as [_ He1].
    specialize (IH (create_template graph url t s)).
    rewrite create_template_requests in IH. split.
    + intros Hsame k t' Hk.
      assert (acceptable (graph (requests s) (url, t)) = true) as Hfirst
        by (destruct (acceptable _); [done|lia]).
      destruct k as [|k]; cbn in Hk |- *.
      * injection Hk as <-. by rewrite app_nil_r.
      * rewrite Hfirst in He1. rewrite cons_middle, app_assoc.
        apply (proj1 IH); [lia|done].
    + intros Hall.
      pose proof (Hall 0%nat t eq_refl) as Hfirst.
      cbn in Hfirst. rewrite app_nil_r in Hfirst. rewrite Hfirst in He1.
      rewrite (proj2 IH); [lia|].
      intros k t' Hk. specialize (Hall (S k) t' Hk). cbn in Hall.
      by rewrite cons_middle, app_assoc in Hall.
Qed.

Lemma createTemplates_run env graph :
  truthy (WHATSAPP_ACCESS_TOKEN env) = true ->
  truthy (WHATSAPP_BUSINESS_ACCOUNT_ID env) = true ->
  exists s0 s,
    requests s0 = [] /\ createdCount s0 = 0 /\ errorCount s0 = 0 /\
    s = create_each graph
          (templates_url (default "" (WHATSAPP_BUSINESS_ACCOUNT_ID env)))
          templates s0 /\
    fst (createTemplates env graph) = None /\
    requests (snd (createTemplates env graph)) = requests s /\
    createdCount (snd (createTemplates env graph)) = createdCount s /\
    errorCount (snd (createTemplates env graph)) = errorCount s /\
    last (output (snd (createTemplates env graph)))
    = Some (LOG, if errorCount s =? 0
                 then "https://developers.facebook.com/apps/"
                 else repeat_string "=" 50).
Proof.
  intros Htoken Haccount. unfold createTemplates.
  rewrite Htoken, Haccount. cbn [negb orb]. cbv zeta.
  match goal with
  | |- context [create_each ?g ?u ?ts ?s0] =>
      exists s0, (create_each g u ts s0); generalize (create_each g u ts s0)
  end.
  intros s. cbn [errorCount say].
  destruct (errorCount s =? 0);
    cbn [fst snd requests createdCount errorCount say output idle];
    rewrite ?last_snoc; done.
Qed.

(** X25.  The template script, when the access token and the business
    account id are set, posts every template exactly once and in order
    to the account's template address, whatever the gateway answers, and
    returns; created and failed templates together are never more than
    the templates.  When one of the two is missing it stops the process
    with exit code 1 before any request. *)
Theorem X25_createTemplates_posts_each_template env graph :
  if truthy (WHATSAPP_ACCESS_TOKEN env)
     && truthy (WHATSAPP_BUSINESS_ACCOUNT_ID env)
  then
    fst (createTemplates env graph) = None /\
    requests (snd (createTemplates env graph))
    = map (pair (templates_url (default "" (WHATSAPP_BUSINESS_ACCOUNT_ID env))))
        templates /\
    0 <= createdCount (snd (createTemplates env graph)) /\
    0 <= errorCount (snd (createTemplates env graph)) /\
    createdCount (snd (createTemplates env graph))
    + errorCount (snd (createTemplates env graph))
    <= Z.of_nat (length templates)
  else
    fst (createTemplates env graph) = Some 1 /\
    requests (snd (createTemplates env graph)) = [].
Proof.
  destruct (truthy (WHATSAPP_ACCESS_TOKEN env)) eqn:Htoken;
    [destruct (truthy (WHATSAPP_BUSINESS_ACCOUNT_ID env)) eqn:Haccount|];
    cbn [andb].
  - destruct (createTemplates_run env graph Htoken Haccount)
      as (s0 & s & Hreq & Hc0 & He0 & -> & -> & -> & -> & -> & _).
    rewrite create_each_requests, Hreq.
    pose proof (create_each_tally graph
                  (templates_url (default "" (WHATSAPP_BUSINESS_ACCOUNT_ID env)))
                  templates s0) as (Hc & He & Hsum).
    split_and!; [done|done|lia..].
  - unfold createTemplates. by rewrite Htoken, Haccount.
  - unfold createTemplates. by rewrite Htoken.
Qed.

(** X26.  With its credentials set, the template script counts no error
    exactly when every request was answered with a new template or with
    the gateway's code 100 (the template exists already), whatever the
    earlier requests were; it then ends on the success notice, and
    otherwise its last line is the closing rule of the results. *)
Theorem X26_createTemplates_success_notice env graph :
  truthy (WHATSAPP_ACCESS_TOKEN env) = true ->
  truthy (WHATSAPP_BUSINESS_ACCOUNT_ID env) = true ->
  (errorCount (snd (createTemplates env graph)) = 0 <->
   forall k t, templates !! k = Some t ->
     acceptable
       (answer_at graph
          (templates_url (default "" (WHATSAPP_BUSINESS_ACCOUNT_ID env)))
          templates k t) = true) /\
  last (output (snd (createTemplates env graph)))
  = Some (LOG, if errorCount (snd (createTemplates env graph)) =? 0
               then "https://developers.facebook.com/apps/"
               else repeat_string "=" 50).
Proof.
  intros Htoken Haccount.
  destruct (createTemplates_run env graph Htoken Haccount)
    as (s0 & s & Hreq & Hc0 & He0 & Hs & _ & _ & _ & -> & ->).
  split; [|done]. subst s. rewrite <- He0 at 1.
  rewrite create_each_errors. unfold answer_at. by rewrite Hreq.
Qed.

Lemma X26_createTemplates_success_notice_witness :
  (errorCount (snd (createTemplates open_clinic already_there)) = 0 <->
   forall k t, templates !! k = Some t ->
     acceptable
       (answer_at already_there
          (templates_url (default "" (WHATSAPP_BUSINESS_ACCOUNT_ID open_clinic)))
          templates k t) = true) /\
  last (output (snd (createTemplates open_clinic already_there)))
  = Some (LOG, if errorCount (snd (createTemplates open_clinic already_there)) =? 0
               then "https://developers.facebook.com/apps/"
               else repeat_string "=" 50).
Proof.
  apply (X26_createTemplates_success_notice open_clinic already_there);
    reflexivity.
Defined.

Example createTemplates_when_all_exist :
  errorCount (snd (createTemplates open_clinic already_there)) = 0 /\
  createdCount (snd (createTemplates open_clinic already_there)) = 0 /\
  last (output (snd (createTemplates open_clinic already_there)))
  = Some (LOG, "https://developers.facebook.com/apps/").
Proof. by vm_compute. Qed.

Example createTemplates_when_unreachable :
  errorCount (snd (createTemplates open_clinic unreachable)) = 2 /\
  last (output (snd (createTemplates open_clinic unreachable)))
  = Some (LOG, "==================================================").
Proof. by vm_compute. Qed.
